(** * Quizzie: the quiz lifecycle of [src/index.js]

    A shallow embedding of the route handlers that generate, deliver and
    score quizzes and look up explanations, and the properties that the
    specification states about them.

    Conventions of the embedding.
    - A JavaScript string is the list of its UTF-16 code units
      ([jsstring]); [.length] is the length of that list.
    - A JavaScript object used as a map (the [options] of a question,
      [typeMap]) is a [gmap] from property name to text; a property
      that is absent (or [null]) reads as [None], which is what
      [undefined] is for every test the handlers make.  Only own
      properties are modelled: a read is exact for every key that does
      not name a property of [Object.prototype].
    - The [explanations] and the [correctAnswerExplanation] of a
      question are kept as the JSON values the model sent ([json]):
      the validation loop tests them for truthiness only, assigns
      properties to the first whatever it is, and the handlers call
      [.trim] on what they find there.  The file does not run in strict
      mode, so an assignment to a property of a string, a number or a
      boolean is dropped without an error.
    - Documents have the fields the handlers read and write.  The
      schemas of the collections are declared in [./mongodb], which
      this file only imports; a document is stored as the handler
      builds it.  The other field types follow the handlers' use of
      them and the data model of the specification: the question text
      and the correct answer are strings, [options] is an object,
      identifiers compare by equality.  A field the handlers test for
      presence is an [option].
    - Request bodies are typed the same way: [questionIndex] is an
      integer, [selectedOption] a string or absent, [wrongAnswer] one
      of the labels A to D.
    - A collection is the list of its documents in insertion order;
      [findOne] returns the first match.
    - A handler is a function from the database, the session and the
      request to a response and the database after the request.  What
      the outside world decides (the clock, the generative model, the
      identifier and outcome of an insert) is an argument of the
      handler. *)

From Stdlib Require Import ZArith List Bool String Ascii DecimalString.
From Stdlib Require Import Floats Uint63.
From Stdlib Require DecimalNat DecimalFacts.
From stdpp Require Import base option list gmap.
Import ListNotations.

Open Scope Z_scope.

(** ** JavaScript strings *)

Definition jsstring := list N.

(** The code units of an ASCII literal. *)
Definition lit (s : string) : jsstring :=
  map N_of_ascii (list_ascii_of_string s).

(** [String(n)] for a natural number, in decimal. *)
Definition str_of_nat (n : nat) : jsstring :=
  lit (NilEmpty.string_of_uint (Nat.to_uint n)).

(** ECMAScript [WhiteSpace] and [LineTerminator] code units, the ones
    [String.prototype.trim] removes. *)
Definition is_whitespace (c : N) : bool :=
  match c with
  | 9 | 10 | 11 | 12 | 13 | 32 | 160 | 5760
  | 8232 | 8233 | 8239 | 8287 | 12288 | 65279 => true
  | _ => (8192 <=? c)%N && (c <=? 8202)%N
  end%N.

Fixpoint trimStart (s : jsstring) : jsstring :=
  match s with
  | c :: r => if is_whitespace c then trimStart r else s
  | [] => []
  end.

Definition trimEnd (s : jsstring) : jsstring := rev (trimStart (rev s)).

Definition trim (s : jsstring) : jsstring := trimEnd (trimStart s).

Definition is_empty (s : jsstring) : bool :=
  match s with [] => true | _ :: _ => false end.

Fixpoint startsWith (p s : jsstring) : bool :=
  match p, s with
  | [], _ => true
  | a :: p', b :: s' => (a =? b)%N && startsWith p' s'
  | _ :: _, [] => false
  end.

(** [hay.includes(needle)] *)
Fixpoint includes (needle hay : jsstring) : bool :=
  startsWith needle hay ||
  match hay with
  | [] => false
  | _ :: r => includes needle r
  end.

(** Truthiness of a value that is a string or absent: [undefined] and
    the empty string are falsy. *)
Definition truthy (v : option jsstring) : bool :=
  match v with
  | Some (_ :: _) => true
  | _ => false
  end.

(** A value interpolated in a template literal. *)
Definition interp (v : option jsstring) : jsstring :=
  match v with
  | Some s => s
  | None => lit "undefined"
  end.

(** [a === b] for values that are strings or absent. *)
Definition strict_eq (a b : option jsstring) : bool := bool_decide (a = b).

(** ** JavaScript numbers

    Counts and stored totals are integers; a quotient is an IEEE 754
    double, computed by the kernel's binary64 operations.  The
    conversion is exact below 2^53 and correctly rounded below 2^63. *)

Definition number (z : Z) : float :=
  if z <? 0 then PrimFloat.opp (PrimFloat.of_uint63 (Uint63.of_Z (- z)))
  else PrimFloat.of_uint63 (Uint63.of_Z z).

(** ** Values that come out of [JSON.parse]

    The own properties of an object are listed in the order
    [Object.keys] enumerates them.  An array also has the named
    properties assigned to it after parsing (none when it comes out of
    [JSON.parse]). *)

#[local] Unset Elimination Schemes.

Inductive json :=
| j_null
| j_bool (b : bool)
| j_number (x : float)
| j_string (s : jsstring)
| j_array (items : list json) (named : list (jsstring * json))
| j_object (fields : list (jsstring * json)).

#[local] Set Elimination Schemes.

(** Truthiness of a value, [None] being [undefined]. *)
Definition truthy_json (v : option json) : bool :=
  match v with
  | None | Some j_null => false
  | Some (j_bool b) => b
  | Some (j_number x) => negb ((x =? 0)%float || PrimFloat.is_nan x)
  | Some (j_string s) => negb (is_empty s)
  | Some (j_array _ _) | Some (j_object _) => true
  end.

Fixpoint get_own {V} (fields : list (jsstring * V)) (k : jsstring)
  : option V :=
  match fields with
  | [] => None
  | (k', v) :: r => if bool_decide (k' = k) then Some v else get_own r k
  end.

(** An assignment replaces the value of a property that is there and
    adds a new property after the others. *)
Fixpoint set_own {V} (fields : list (jsstring * V)) (k : jsstring) (v : V)
  : list (jsstring * V) :=
  match fields with
  | [] => [(k, v)]
  | (k', v') :: r =>
    if bool_decide (k' = k) then (k, v) :: r else (k', v') :: set_own r k v
  end.

(** [v[k]] for a key [k] that is not an array index, not [length] and
    not inherited: the handlers read at the keys A to D. *)
Definition get_property (v : json) (k : jsstring) : option json :=
  match v with
  | j_object fields => get_own fields k
  | j_array _ named => get_own named k
  | _ => None
  end.

(** [v[k] = x] for such a key.  On a string, a number or a boolean the
    assignment does nothing. *)
Definition set_property (v : json) (k : jsstring) (x : json) : json :=
  match v with
  | j_object fields => j_object (set_own fields k x)
  | j_array items named => j_array items (set_own named k x)
  | _ => v
  end.

(** An object or an array: a value that keeps the properties assigned
    to it. *)
Definition container (v : json) : Prop :=
  match v with
  | j_object _ | j_array _ _ => True
  | _ => False
  end.

(** The values [v[key]] for [key] in [Object.keys(v)], in that order: a
    string has its code units, a number or a boolean has none. *)
Definition own_values (v : json) : list json :=
  match v with
  | j_object fields => map snd fields
  | j_array items named => items ++ map snd named
  | j_string s => map (fun c => j_string [c]) s
  | _ => []
  end.

(** The outcome of the test [v && v.trim() !== '']. *)
Inductive TextTest :=
(** true: [v] is the string [s], which is more than white space *)
| is_text (s : jsstring)
(** false: [v] is falsy or a string of white space *)
| no_text
(** a [TypeError]: [v] is truthy and has no [trim] *)
| trim_throws.

Definition text_test (v : option json) : TextTest :=
  match v with
  | Some (j_string s) => if is_empty (trim s) then no_text else is_text s
  | _ => if truthy_json v then trim_throws else no_text
  end.

(** The message of that [TypeError] (Node's wording), for the
    expression [.trim] was called on. *)
Definition trim_is_not_a_function (callee : string) : jsstring :=
  lit callee ++ lit ".trim is not a function".

(** ** Documents *)

Definition oid := nat.
Bind Scope nat_scope with oid.

Inductive UserType := teacher | student | other_user.

Record Session := {
  userId : oid;
  userName : jsstring;
  userType : UserType
}.

(** [userType === 'teacher'] *)
Definition is_teacher (u : UserType) : bool :=
  match u with teacher => true | _ => false end.

Inductive ProcessingStatus := pending | processing | completed | failed.

Module Lecture.
Record t := {
  _id : oid;
  title : jsstring;
  professorId : oid;
  extractedText : option jsstring;
  classId : option oid;
  className : option jsstring;
  processingStatus : ProcessingStatus;
  quizGenerated : bool;
  quizGenerationError : option jsstring;
  quizzesCount : Z;
  lastProcessed : option Z
}.
End Lecture.

Module Question.
Record t := {
  question : option jsstring;
  options : option (gmap jsstring jsstring);
  correct_answer : option jsstring;
  correctAnswerExplanation : option json;
  explanations : option json
}.
End Question.

Module Quiz.
Record t := {
  _id : oid;
  lectureId : oid;
  lectureTitle : jsstring;
  questions : list Question.t;
  totalQuestions : Z;
  generatedDate : Z;
  createdBy : oid;
  classId : option oid;
  className : option jsstring
}.
End Quiz.

(** One element of [studentAnswers] in the body of a submission. *)
Module Answer.
Record t := {
  questionIndex : Z;
  question : option jsstring;
  selectedOption : option jsstring
}.
End Answer.

(** One element of [detailedAnswers], stored in the result. *)
Module DetailedAnswer.
Record t := {
  questionIndex : Z;
  question : option jsstring;
  selectedOption : option jsstring;
  correctOption : option jsstring;
  isCorrect : bool
}.
End DetailedAnswer.

(** One element of [enhancedQuestionDetails], sent back to the student. *)
Module QuestionDetail.
Record t := {
  questionIndex : Z;
  questionText : option jsstring;
  options : option (gmap jsstring jsstring);
  studentAnswer : option jsstring;
  correctAnswer : option jsstring;
  isCorrect : bool
}.
End QuestionDetail.

Module QuizResult.
Record t := {
  _id : oid;
  quizId : oid;
  lectureId : oid;
  classId : option oid;
  studentId : oid;
  studentName : jsstring;
  score : Z;
  totalQuestions : Z;
  percentage : float;
  timeTakenSeconds : Z;
  submissionDate : Z;
  answers : list DetailedAnswer.t
}.
End QuizResult.

Module Class.
Record t := {
  _id : oid;
  name : jsstring;
  subject : jsstring
}.
End Class.

Module Enrollment.
Record t := {
  studentId : oid;
  classId : oid;
  isActive : bool
}.
End Enrollment.

(** The collections the handlers use. *)
Record DB := {
  lectureCollection : list Lecture.t;
  quizCollection : list Quiz.t;
  quizResultCollection : list QuizResult.t;
  classCollection : list Class.t;
  classStudentCollection : list Enrollment.t
}.

(** ** Queries *)

Definition findLecture (db : DB) (id : oid) : option Lecture.t :=
  find (fun l => Nat.eqb (Lecture._id l) id) (lectureCollection db).

Definition findQuiz (db : DB) (id : oid) : option Quiz.t :=
  find (fun q => Nat.eqb (Quiz._id q) id) (quizCollection db).

(** [quizCollection.findOne({ lectureId })] *)
Definition findQuizOfLecture (db : DB) (lectureId : oid) : option Quiz.t :=
  find (fun q => Nat.eqb (Quiz.lectureId q) lectureId) (quizCollection db).

(** [quizResultCollection.findOne({ quizId, studentId })] *)
Definition findResult (db : DB) (quizId studentId : oid)
  : option QuizResult.t :=
  find (fun r => Nat.eqb (QuizResult.quizId r) quizId
                 && Nat.eqb (QuizResult.studentId r) studentId)
       (quizResultCollection db).

(** [classStudentCollection.findOne({ studentId, classId, isActive: true })] *)
Definition findEnrollment (db : DB) (studentId classId : oid)
  : option Enrollment.t :=
  find (fun e => Nat.eqb (Enrollment.studentId e) studentId
                 && Nat.eqb (Enrollment.classId e) classId
                 && Enrollment.isActive e)
       (classStudentCollection db).

Definition findClass (db : DB) (id : oid) : option Class.t :=
  find (fun c => Nat.eqb (Class._id c) id) (classCollection db).

(** [quiz.questions[i]]: [undefined] unless [i] is an index of the array. *)
Definition question_at (qs : list Question.t) (i : Z) : option Question.t :=
  if i <? 0 then None else qs !! Z.to_nat i.

(** ** Responses *)

(** A value of a property of an object sent to the client. *)
Inductive jsvalue :=
| js_undefined
| js_string (s : jsstring)
| js_object (m : gmap jsstring jsstring).

Definition of_text (v : option jsstring) : jsvalue :=
  match v with Some s => js_string s | None => js_undefined end.

Definition of_map (v : option (gmap jsstring jsstring)) : jsvalue :=
  match v with Some m => js_object m | None => js_undefined end.

(** An object literal: its own properties, in the order they are written. *)
Definition jsobject := list (string * jsvalue).

Definition keys (o : jsobject) : list string := map fst o.

Fixpoint get (o : jsobject) (k : string) : option jsvalue :=
  match o with
  | [] => None
  | (k', v) :: r => if String.eqb k' k then Some v else get r k
  end.

Module QuizPayload.
Record t := {
  _id : oid;
  lectureTitle : jsstring;
  totalQuestions : Z;
  questions : list jsobject
}.
End QuizPayload.

Module TakeQuizPage.
Record t := {
  _id : oid;
  lectureTitle : jsstring;
  totalQuestions : Z;
  classId : option oid;
  className : option jsstring;
  classSubject : option jsstring;
  userName : jsstring;
  classContext : bool
}.
End TakeQuizPage.

Module Scored.
Record t := {
  message : jsstring;
  score : Z;
  totalQuestions : Z;
  percentage : float;
  timeTakenSeconds : Z;
  quizResultId : oid;
  lectureId : oid;
  classId : option oid;
  className : option jsstring;
  quizTitle : jsstring;
  questionDetails : list QuestionDetail.t;
  quizId : oid
}.
End Scored.

Module Generated.
Record t := {
  message : jsstring;
  quizId : oid;
  totalQuestions : Z;
  title : jsstring;
  className : option jsstring;
  explanationsGenerated : bool
}.
End Generated.

Module Explained.
Record t := {
  explanation : jsstring;
  explanationType : string;
  correctAnswer : option jsstring;
  correctOption : option jsstring;
  wrongOption : option jsstring;
  hasDetailedExplanations : bool;
  hasCorrectExplanation : bool
}.
End Explained.

Inductive Response :=
(** [res.status(status).json({ success: false, message })] *)
| failure (status : nat) (message : jsstring)
(** [res.status(status).send(text)] *)
| send (status : nat) (text : jsstring)
(** [res.status(403).redirect('/login?message=...')] *)
| redirect_login (message : jsstring)
(** [res.redirect('/quiz-results?alreadyTaken=true&quizTitle=...')] *)
| redirect_already_taken (quizTitle : jsstring)
(** [res.render('takeQuiz', ...)] *)
| render_takeQuiz (page : TakeQuizPage.t)
(** [res.json({ success: true, quiz })] *)
| quiz_json (quiz : QuizPayload.t)
| scored_json (r : Scored.t)
| generated_json (r : Generated.t)
| explained_json (r : Explained.t).

(** The outcome of [collection.create(doc)]: the identifier the new
    document receives, or the message of the error it throws. *)
Inductive InsertOutcome :=
| inserted (id : oid)
| insert_failed (message : jsstring).

(** ** Quiz delivery *)

(** [GET /take_quiz/:quizId], with the optional [?classId=] of the query. *)
Definition take_quiz (db : DB) (s : Session) (quizId : oid)
    (classId : option oid) : Response * DB :=
  match userType s with
  | student =>
    match findQuiz db quizId with
    | None => (send 404 (lit "Quiz not found."), db)
    | Some quiz =>
      let enrolled :=
        match (match classId with Some c => Some c | None => Quiz.classId quiz end) with
        | Some targetClassId =>
            bool_decide (is_Some (findEnrollment db (userId s) targetClassId))
        | None => true
        end in
      if negb enrolled
      then (send 403 (lit "You are not enrolled in this class."), db)
      else
        match findResult db quizId (userId s) with
        | Some _ => (redirect_already_taken (Quiz.lectureTitle quiz), db)
        | None =>
          let classInfo :=
            match Quiz.classId quiz with
            | Some c => findClass db c
            | None => None
            end in
          (render_takeQuiz
             {| TakeQuizPage._id := Quiz._id quiz;
                TakeQuizPage.lectureTitle := Quiz.lectureTitle quiz;
                TakeQuizPage.totalQuestions := Quiz.totalQuestions quiz;
                TakeQuizPage.classId := Quiz.classId quiz;
                TakeQuizPage.className := Class.name <$> classInfo;
                TakeQuizPage.classSubject := Class.subject <$> classInfo;
                TakeQuizPage.userName := userName s;
                TakeQuizPage.classContext := bool_decide (is_Some classId) |},
           db)
        end
    end
  | _ =>
    (redirect_login (lit "Access denied. Only students can take quizzes."), db)
  end.

(** [q => ({ question: q.question, options: q.options })] *)
Definition questionForClient (q : Question.t) : jsobject :=
  [ ("question"%string, of_text (Question.question q));
    ("options"%string, of_map (Question.options q)) ].

(** [GET /api/quiz/:quizId] *)
Definition api_quiz (db : DB) (s : Session) (quizId : oid) : Response * DB :=
  match userType s with
  | student =>
    match findQuiz db quizId with
    | None => (failure 404 (lit "Quiz not found."), db)
    | Some quiz =>
      let questionsForClient := map questionForClient (Quiz.questions quiz) in
      (quiz_json
         {| QuizPayload._id := Quiz._id quiz;
            QuizPayload.lectureTitle := Quiz.lectureTitle quiz;
            QuizPayload.totalQuestions := Quiz.totalQuestions quiz;
            QuizPayload.questions := questionsForClient |},
       db)
    end
  | _ =>
    (failure 403 (lit "Access denied. Only students can access quiz questions."), db)
  end.

(** ** Scoring *)

(** What the loop over [studentAnswers] accumulates. *)
Record Tally := {
  score : Z;
  detailedAnswers : list DetailedAnswer.t;
  enhancedQuestionDetails : list QuestionDetail.t
}.

Definition tally0 : Tally :=
  {| score := 0; detailedAnswers := []; enhancedQuestionDetails := [] |}.

(** The body of [studentAnswers.forEach(sAnswer => ...)]. *)
Definition score_answer (quiz : Quiz.t) (acc : Tally) (sAnswer : Answer.t)
  : Tally :=
  match question_at (Quiz.questions quiz) (Answer.questionIndex sAnswer) with
  | Some correspondingQuestion =>
    let isCorrect :=
      strict_eq (Answer.selectedOption sAnswer)
                (Question.correct_answer correspondingQuestion) in
    {| score := if isCorrect then score acc + 1 else score acc;
       detailedAnswers := detailedAnswers acc ++
         [ {| DetailedAnswer.questionIndex := Answer.questionIndex sAnswer;
              DetailedAnswer.question := Answer.question sAnswer;
              DetailedAnswer.selectedOption := Answer.selectedOption sAnswer;
              DetailedAnswer.correctOption :=
                Question.correct_answer correspondingQuestion;
              DetailedAnswer.isCorrect := isCorrect |} ];
       enhancedQuestionDetails := enhancedQuestionDetails acc ++
         [ {| QuestionDetail.questionIndex := Answer.questionIndex sAnswer;
              QuestionDetail.questionText :=
                Question.question correspondingQuestion;
              QuestionDetail.options := Question.options correspondingQuestion;
              QuestionDetail.studentAnswer := Answer.selectedOption sAnswer;
              QuestionDetail.correctAnswer :=
                Question.correct_answer correspondingQuestion;
              QuestionDetail.isCorrect := isCorrect |} ] |}
  | None => acc
  end.

Definition score_answers (quiz : Quiz.t) (studentAnswers : list Answer.t)
  : Tally :=
  fold_left (score_answer quiz) studentAnswers tally0.

(** [(totalQuestions > 0) ? (score / totalQuestions) * 100 : 0] *)
Definition percentage_of (score totalQuestions : Z) : float :=
  if 0 <? totalQuestions
  then (number score / number totalQuestions * 100)%float
  else 0%float.

(** [POST /api/quiz/submit/:quizId] *)
Definition submit_quiz (db : DB) (s : Session) (quizId : oid)
    (studentAnswers : list Answer.t) (timeTakenSeconds : Z)
    (now : Z) (created : InsertOutcome) : Response * DB :=
  match userType s with
  | student =>
    let studentId := userId s in
    let studentName := userName s in
    match findQuiz db quizId with
    | None => (failure 404 (lit "Quiz not found for scoring."), db)
    | Some quiz =>
      let enrolled :=
        match Quiz.classId quiz with
        | Some c => bool_decide (is_Some (findEnrollment db studentId c))
        | None => true
        end in
      if negb enrolled
      then (failure 403 (lit "You are not enrolled in the class for this quiz."), db)
      else
        match findResult db quizId studentId with
        | Some _ => (failure 400 (lit "You have already submitted this quiz."), db)
        | None =>
          let totalQuestions := Quiz.totalQuestions quiz in
          let tally := score_answers quiz studentAnswers in
          let percentage := percentage_of (score tally) totalQuestions in
          match created with
          | insert_failed message =>
            (failure 500 (lit "Failed to submit quiz: " ++ message), db)
          | inserted newId =>
            let newQuizResult :=
              {| QuizResult._id := newId;
                 QuizResult.quizId := quizId;
                 QuizResult.lectureId := Quiz.lectureId quiz;
                 QuizResult.classId := Quiz.classId quiz;
                 QuizResult.studentId := studentId;
                 QuizResult.studentName := studentName;
                 QuizResult.score := score tally;
                 QuizResult.totalQuestions := totalQuestions;
                 QuizResult.percentage := percentage;
                 QuizResult.timeTakenSeconds := timeTakenSeconds;
                 QuizResult.submissionDate := now;
                 QuizResult.answers := detailedAnswers tally |} in
            let classInfo :=
              match Quiz.classId quiz with
              | Some c => findClass db c
              | None => None
              end in
            (scored_json
               {| Scored.message := lit "Quiz submitted and scored successfully!";
                  Scored.score := score tally;
                  Scored.totalQuestions := totalQuestions;
                  Scored.percentage := percentage;
                  Scored.timeTakenSeconds := timeTakenSeconds;
                  Scored.quizResultId := newId;
                  Scored.lectureId := Quiz.lectureId quiz;
                  Scored.classId := Quiz.classId quiz;
                  Scored.className := Class.name <$> classInfo;
                  Scored.quizTitle := Quiz.lectureTitle quiz;
                  Scored.questionDetails := enhancedQuestionDetails tally;
                  Scored.quizId := quizId |},
             {| lectureCollection := lectureCollection db;
                quizCollection := quizCollection db;
                quizResultCollection := quizResultCollection db ++ [newQuizResult];
                classCollection := classCollection db;
                classStudentCollection := classStudentCollection db |})
          end
        end
    end
  | _ =>
    (failure 403 (lit "Access denied. Only students can submit quizzes."), db)
  end.

(** ** Quiz generation *)

Inductive Label := LA | LB | LC | LD.

Definition label_str (l : Label) : jsstring :=
  match l with
  | LA => lit "A"
  | LB => lit "B"
  | LC => lit "C"
  | LD => lit "D"
  end.

(** [['A', 'B', 'C', 'D']] *)
Definition labels : list jsstring := map label_str [LA; LB; LC; LD].

(** An element of the array the model sent. *)
Inductive Element :=
| null_element
(** a number, a string, a boolean or an array: a read of any of the
    five fields yields [undefined] *)
| other_element
| object_element (q : Question.t).

(** What [JSON.parse] makes of the model's text once a code fence is
    stripped: it throws, or yields a value that is not an array, or an
    array. *)
Inductive ParseOutcome :=
| parse_throws (message : jsstring)
| parsed_non_array
| parsed_array (generatedQuiz : list Element).

(** The outcome of [model.generateContent] and [response.text()]. *)
Inductive ModelOutcome :=
| api_error (message : jsstring)
| api_response (p : ParseOutcome).

(** The explanation substituted for a wrong option that has none. *)
Definition fallback_explanation (correct_answer : jsstring) : jsstring :=
  lit "This option is incorrect. The correct answer is " ++ correct_answer
  ++ lit ". Please review the lecture material for more details.".

(** The body of the inner [['A','B','C','D'].forEach(option => ...)] on
    the value [e] of [q.explanations]: [e] after it, or [None] when
    [e[option].trim()] throws. *)
Definition fill_wrong (correct_answer : jsstring) (e : json)
    (opt : jsstring) : option json :=
  if bool_decide (opt = correct_answer) then Some e
  else
    match text_test (get_property e opt) with
    | is_text _ => Some e
    | no_text =>
      Some (set_property e opt (j_string (fallback_explanation correct_answer)))
    | trim_throws => None
    end.

Fixpoint fill_all (correct_answer : jsstring) (opts : list jsstring)
    (e : json) : option json :=
  match opts with
  | [] => Some e
  | opt :: r =>
    match fill_wrong correct_answer e opt with
    | Some e' => fill_all correct_answer r e'
    | None => None
    end
  end.

(** The explanations of a question after the inner loop and the
    assignment [q.explanations[q.correct_answer] = ""]. *)
Definition fix_explanations (correct_answer : jsstring) (e : json)
  : option json :=
  match fill_all correct_answer labels e with
  | Some e' => Some (set_property e' correct_answer (j_string []))
  | None => None
  end.

Definition missing_required (q : Question.t) : bool :=
  negb (truthy (Question.question q))
  || negb (bool_decide (is_Some (Question.options q)))
  || negb (truthy (Question.correct_answer q))
  || negb (truthy_json (Question.explanations q))
  || negb (truthy_json (Question.correctAnswerExplanation q)).

(** [['A', 'B', 'C', 'D'].includes(q.correct_answer)] *)
Definition is_label (v : option jsstring) : bool :=
  match v with
  | Some s => bool_decide (s ∈ labels)
  | None => false
  end.

Definition set_explanations (q : Question.t) (e : option json) : Question.t :=
  {| Question.question := Question.question q;
     Question.options := Question.options q;
     Question.correct_answer := Question.correct_answer q;
     Question.correctAnswerExplanation := Question.correctAnswerExplanation q;
     Question.explanations := e |}.

Definition missing_fields (index : nat) : jsstring :=
  lit "Question " ++ str_of_nat (index + 1)
  ++ lit " is missing required fields (including explanations)".

Definition invalid_correct_answer (index : nat) : jsstring :=
  lit "Question " ++ str_of_nat (index + 1) ++ lit " has invalid correct_answer".

(** The body of [generatedQuiz.forEach((q, index) => ...)] for an
    element that is an object: the message of the error it throws, or
    the question as it leaves the loop. *)
Definition validate_question (index : nat) (q : Question.t)
  : jsstring + Question.t :=
  if missing_required q then inl (missing_fields index)
  else if negb (is_label (Question.correct_answer q))
  then inl (invalid_correct_answer index)
  else
    match Question.correct_answer q, Question.explanations q with
    | Some correct_answer, Some e =>
      match fix_explanations correct_answer e with
      | Some e' => inr (set_explanations q (Some e'))
      | None => inl (trim_is_not_a_function "q.explanations[option]")
      end
    | _, _ => inr q (* not reached: both fields passed the tests above *)
    end.

(** The body of the loop for any element: [q.question] throws when [q]
    is [null]. *)
Definition validate_element (index : nat) (q : Element)
  : jsstring + Question.t :=
  match q with
  | null_element =>
    inl (lit "Cannot read properties of null (reading 'question')")
  | other_element => inl (missing_fields index)
  | object_element q => validate_question index q
  end.

Fixpoint validate_elements (index : nat) (generatedQuiz : list Element)
  : jsstring + list Question.t :=
  match generatedQuiz with
  | [] => inr []
  | q :: r =>
    match validate_element index q with
    | inl message => inl message
    | inr q' =>
      match validate_elements (S index) r with
      | inl message => inl message
      | inr r' => inr (q' :: r')
      end
    end
  end.

(** The loop over an array of objects. *)
Definition validate_questions (index : nat) (qs : list Question.t)
  : jsstring + list Question.t :=
  validate_elements index (map object_element qs).

(** The [try] block that parses and validates the model's response. *)
Definition validate_response (p : ParseOutcome) : jsstring + list Question.t :=
  match p with
  | parse_throws message => inl message
  | parsed_non_array => inl (lit "Response is not an array")
  | parsed_array [] => inl (lit "No questions generated")
  | parsed_array generatedQuiz => validate_elements 0 generatedQuiz
  end.

(** [findByIdAndUpdate(id, ...)] on the lecture collection. *)
Fixpoint update_by_id (id : oid) (f : Lecture.t -> Lecture.t)
    (ls : list Lecture.t) : list Lecture.t :=
  match ls with
  | [] => []
  | l :: r =>
    if Nat.eqb (Lecture._id l) id then f l :: r
    else l :: update_by_id id f r
  end.

Definition update_lecture (db : DB) (id : oid) (f : Lecture.t -> Lecture.t)
  : DB :=
  {| lectureCollection := update_by_id id f (lectureCollection db);
     quizCollection := quizCollection db;
     quizResultCollection := quizResultCollection db;
     classCollection := classCollection db;
     classStudentCollection := classStudentCollection db |}.

(** [{ processingStatus: 'processing', lastProcessed: new Date() }] *)
Definition mark_processing (now : Z) (l : Lecture.t) : Lecture.t :=
  {| Lecture._id := Lecture._id l;
     Lecture.title := Lecture.title l;
     Lecture.professorId := Lecture.professorId l;
     Lecture.extractedText := Lecture.extractedText l;
     Lecture.classId := Lecture.classId l;
     Lecture.className := Lecture.className l;
     Lecture.processingStatus := processing;
     Lecture.quizGenerated := Lecture.quizGenerated l;
     Lecture.quizGenerationError := Lecture.quizGenerationError l;
     Lecture.quizzesCount := Lecture.quizzesCount l;
     Lecture.lastProcessed := Some now |}.

(** [{ processingStatus: 'failed', quizGenerated: false,
       quizGenerationError: message }] *)
Definition mark_failed (message : jsstring) (l : Lecture.t) : Lecture.t :=
  {| Lecture._id := Lecture._id l;
     Lecture.title := Lecture.title l;
     Lecture.professorId := Lecture.professorId l;
     Lecture.extractedText := Lecture.extractedText l;
     Lecture.classId := Lecture.classId l;
     Lecture.className := Lecture.className l;
     Lecture.processingStatus := failed;
     Lecture.quizGenerated := false;
     Lecture.quizGenerationError := Some message;
     Lecture.quizzesCount := Lecture.quizzesCount l;
     Lecture.lastProcessed := Lecture.lastProcessed l |}.

(** [{ quizGenerated: true, processingStatus: 'completed',
       quizzesCount: 1, lastProcessed: new Date() }] *)
Definition mark_completed (now : Z) (l : Lecture.t) : Lecture.t :=
  {| Lecture._id := Lecture._id l;
     Lecture.title := Lecture.title l;
     Lecture.professorId := Lecture.professorId l;
     Lecture.extractedText := Lecture.extractedText l;
     Lecture.classId := Lecture.classId l;
     Lecture.className := Lecture.className l;
     Lecture.processingStatus := completed;
     Lecture.quizGenerated := true;
     Lecture.quizGenerationError := Lecture.quizGenerationError l;
     Lecture.quizzesCount := 1;
     Lecture.lastProcessed := Some now |}.

Definition add_quiz (db : DB) (quiz : Quiz.t) : DB :=
  {| lectureCollection := lectureCollection db;
     quizCollection := quizCollection db ++ [quiz];
     quizResultCollection := quizResultCollection db;
     classCollection := classCollection db;
     classStudentCollection := classStudentCollection db |}.

(** [v || null] for a value that is a string or absent; [null] reads as
    absent. *)
Definition or_null (v : option jsstring) : option jsstring :=
  if truthy v then v else None.

(** [!extractedText || extractedText.length < 50] *)
Definition too_short (extractedText : option jsstring) : bool :=
  negb (truthy extractedText)
  || match extractedText with
     | Some s => Z.of_nat (length s) <? 50
     | None => true
     end.

(** [POST /generate_quiz/:id] *)
Definition generate_quiz (db : DB) (s : Session) (lectureId : oid)
    (now : Z) (ai : ModelOutcome) (created : InsertOutcome)
  : Response * DB :=
  match findLecture db lectureId with
  | None => (failure 404 (lit "Lecture not found"), db)
  | Some lecture =>
    if is_teacher (userType s)
       && negb (Nat.eqb (Lecture.professorId lecture) (userId s))
    then
      (failure 403
         (lit "Access denied. You can only generate quizzes for your own lectures."),
       db)
    else
      match findQuizOfLecture db lectureId with
      | Some _ =>
        (failure 400 (lit "Quiz already generated for this lecture"), db)
      | None =>
        let db1 := update_lecture db lectureId (mark_processing now) in
        let extractedText := Lecture.extractedText lecture in
        if too_short extractedText
        then
          (failure 400 (lit "Extracted text is too short or missing for quiz generation."),
           update_lecture db1 lectureId
             (mark_failed (lit "Text too short for quiz generation")))
        else
          match ai with
          | api_error message =>
            let db2 := update_lecture db1 lectureId
                         (mark_failed (lit "Enhanced AI API Error: " ++ message)) in
            if includes (lit "quota") message || includes (lit "limit") message
            then (failure 429 (lit "API quota exceeded. Please try again later."), db2)
            else
              (failure 500
                 (lit "Failed to generate enhanced quiz. Please check your API key and try again."),
               db2)
          | api_response p =>
            match validate_response p with
            | inl message =>
              (failure 500 (lit "Failed to parse enhanced AI response. Please try again."),
               update_lecture db1 lectureId
                 (mark_failed (lit "Enhanced AI response parsing failed: " ++ message)))
            | inr generatedQuiz =>
              match created with
              | insert_failed message =>
                (failure 500 (lit "Failed to save enhanced quiz to database: " ++ message),
                 update_lecture db1 lectureId
                   (mark_failed (lit "Enhanced database save error: " ++ message)))
              | inserted newId =>
                let newQuiz :=
                  {| Quiz._id := newId;
                     Quiz.lectureId := lectureId;
                     Quiz.lectureTitle := Lecture.title lecture;
                     Quiz.questions := generatedQuiz;
                     Quiz.totalQuestions := Z.of_nat (length generatedQuiz);
                     Quiz.generatedDate := now;
                     Quiz.createdBy := userId s;
                     Quiz.classId := Lecture.classId lecture;
                     Quiz.className := or_null (Lecture.className lecture) |} in
                (generated_json
                   {| Generated.message :=
                        lit "Enhanced quiz generated successfully with "
                        ++ str_of_nat (length generatedQuiz)
                        ++ lit " questions and detailed explanations!";
                      Generated.quizId := newId;
                      Generated.totalQuestions := Z.of_nat (length generatedQuiz);
                      Generated.title := Lecture.title lecture;
                      Generated.className := Lecture.className lecture;
                      Generated.explanationsGenerated := true |},
                 update_lecture (add_quiz db1 newQuiz) lectureId
                   (mark_completed now))
              end
            end
          end
      end
  end.

(** ** Explanation lookup *)

(** The message of the [TypeError] that reading a property of
    [undefined] throws (Node's wording). *)
Definition cannot_read_of_undefined (property : jsstring) : jsstring :=
  lit "Cannot read properties of undefined (reading '" ++ property ++ lit "')".

(** What separates a stored explanation from the explanation of the
    correct answer appended to it: two line feeds, U+1F4A1 and the
    heading. *)
Definition why_correct (correct_answer : option jsstring) : jsstring :=
  [10; 10; 55357; 56481]%N ++ lit " **Why " ++ interp correct_answer
  ++ lit " is correct:** ".

(** The stored entry [question.explanations[wrongAnswer]]. *)
Definition stored_explanation (q : Question.t) (wrongAnswer : Label)
  : option json :=
  match Question.explanations q with
  | Some e => get_property e (label_str wrongAnswer)
  | None => None
  end.

(** [!!(question.explanations && Object.keys(question.explanations).length > 0)] *)
Definition has_keys (explanations : option json) : bool :=
  match explanations with
  | Some e => truthy_json (Some e) && Nat.ltb 0 (length (own_values e))
  | None => false
  end.

(** [POST /api/explanation/get].  The handler tests the stored entry,
    then the explanation of the correct answer, and reads the options
    after that; whatever throws on the way is answered with status
    500. *)
Definition get_explanation (db : DB) (s : Session) (quizId : oid)
    (questionIndex : Z) (wrongAnswer : Label) : Response * DB :=
  match userType s with
  | student =>
    match findQuiz db quizId with
    | None => (failure 404 (lit "Quiz not found."), db)
    | Some quiz =>
      match question_at (Quiz.questions quiz) questionIndex with
      | None => (failure 404 (lit "Question not found."), db)
      | Some question =>
        let correct_answer := Question.correct_answer question in
        let thrown (message : jsstring) :=
          (failure 500 (lit "Failed to retrieve explanation: " ++ message), db) in
        let answer (explanation : gmap jsstring jsstring -> jsstring)
                   (explanationType : string) (hasCorrectExplanation : bool) :=
          match Question.options question with
          | None => thrown (cannot_read_of_undefined (interp correct_answer))
          | Some options =>
            (explained_json
               {| Explained.explanation := explanation options;
                  Explained.explanationType := explanationType;
                  Explained.correctAnswer := correct_answer;
                  Explained.correctOption := options !! interp correct_answer;
                  Explained.wrongOption := options !! label_str wrongAnswer;
                  Explained.hasDetailedExplanations :=
                    has_keys (Question.explanations question);
                  Explained.hasCorrectExplanation := hasCorrectExplanation |},
             db)
          end in
        match text_test (stored_explanation question wrongAnswer),
              text_test (Question.correctAnswerExplanation question) with
        | trim_throws, _ =>
          thrown (trim_is_not_a_function "question.explanations[wrongAnswer]")
        | _, trim_throws =>
          thrown (trim_is_not_a_function "question.correctAnswerExplanation")
        | is_text explanation, is_text correctAnswerExplanation =>
          answer (fun _ => explanation ++ why_correct correct_answer
                           ++ correctAnswerExplanation)
                 "detailed"%string true
        | is_text explanation, no_text =>
          answer (fun _ => explanation) "detailed"%string false
        | no_text, is_text correctAnswerExplanation =>
          answer (fun options =>
                    lit "The correct answer is " ++ interp correct_answer
                    ++ lit ") " ++ interp (options !! interp correct_answer)
                    ++ lit "." ++ [10; 10]%N ++ correctAnswerExplanation)
                 "basic"%string true
        | no_text, no_text =>
          answer (fun options =>
                    lit "The correct answer is " ++ interp correct_answer
                    ++ lit ") " ++ interp (options !! interp correct_answer)
                    ++ lit ". Please review the lecture material for detailed understanding.")
                 "basic"%string false
        end
      end
    end
  | _ => (failure 403 (lit "Access denied. Students only."), db)
  end.

(** * What the specification says

    The predicates the properties below are stated with. *)

(** The specification's reading of a score: the answers [a] of the
    submitted list whose [selectedOption] is the [correct_answer] of the
    question at [a.questionIndex]. *)
Definition answered_correctly (quiz : Quiz.t) (a : Answer.t) : Prop :=
  match question_at (Quiz.questions quiz) (Answer.questionIndex a) with
  | Some q => Answer.selectedOption a = Question.correct_answer q
  | None => False
  end.

#[global] Instance answered_correctly_dec quiz a :
  Decision (answered_correctly quiz a).
Proof. unfold answered_correctly. destruct (question_at _ _); apply _. Defined.

Definition spec_score (quiz : Quiz.t) (answers : list Answer.t) : Z :=
  Z.of_nat (length (filter (answered_correctly quiz) answers)).

(** An answer whose [questionIndex] is an index of the stored questions. *)
Definition in_range (quiz : Quiz.t) (a : Answer.t) : Prop :=
  0 <= Answer.questionIndex a < Z.of_nat (length (Quiz.questions quiz)).

#[global] Instance in_range_dec quiz a : Decision (in_range quiz a).
Proof. unfold in_range. apply _. Defined.

(** The student passes the enrollment check of a quiz: the quiz has no
    class, or the student has an active enrollment in its class. *)
Definition enrollment_ok (db : DB) (s : Session) (quiz : Quiz.t) : Prop :=
  forall c, Quiz.classId quiz = Some c ->
            is_Some (findEnrollment db (userId s) c).

(** The fields of a question that the answer key and the explanations
    live in. *)
Definition answer_fields : list string :=
  ["correct_answer"; "explanations"; "correctAnswerExplanation"]%string.

(** The ownership check lets the requester through. *)
Definition may_generate (s : Session) (lecture : Lecture.t) : Prop :=
  userType s = teacher -> Lecture.professorId lecture = userId s.

(** What the specification asks of a stored question: the correct
    label's explanation is the empty string and every other label has
    an explanation string that is not empty. *)
Definition explanations_complete (q : Question.t) : Prop :=
  exists correct_answer e,
    Question.correct_answer q = Some correct_answer
    /\ correct_answer ∈ labels
    /\ Question.explanations q = Some e
    /\ get_property e correct_answer = Some (j_string [])
    /\ forall l, l ∈ labels -> l <> correct_answer ->
                 exists text, get_property e l = Some (j_string text)
                              /\ text <> [].

(** A stored value that is a text with more than white space in it. *)
Definition present_and_non_blank (v : option json) (text : jsstring) : Prop :=
  v = Some (j_string text) /\ trim text <> [].

(** A stored value that is not there, or falsy, or a text of white
    space only. *)
Definition absent_or_blank (v : option json) : Prop :=
  truthy_json v = false \/ exists text, v = Some (j_string text) /\ trim text = [].

(** A stored value that is a text if it is anything: not a number other
    than zero, not [true], not an object or an array. *)
Definition text_or_nothing (v : option json) : Prop :=
  truthy_json v = true -> exists text, v = Some (j_string text).

(** The explanations of the model's question are an object. *)
Definition explanations_object (q : Question.t) : Prop :=
  exists fields, Question.explanations q = Some (j_object fields).

(** How a validated question [q'] comes from a model's question [q]
    whose explanations are an object: only the explanations change, and
    among them only the entries of the four labels; a wrong label keeps
    the model's text when that is more than white space and gets the
    sentence naming the correct label otherwise. *)
Definition explanations_filled (q q' : Question.t) : Prop :=
  exists correct_answer fields fields',
    Question.correct_answer q = Some correct_answer
    /\ Question.explanations q = Some (j_object fields)
    /\ q' = set_explanations q (Some (j_object fields'))
    /\ (forall k, k ∉ labels -> get_own fields' k = get_own fields k)
    /\ forall l, l ∈ labels -> l <> correct_answer ->
         (exists text, present_and_non_blank (get_own fields l) text
                       /\ get_own fields' l = Some (j_string text))
         \/ (absent_or_blank (get_own fields l)
             /\ get_own fields' l
                = Some (j_string
                          (lit "This option is incorrect. The correct answer is "
                           ++ correct_answer
                           ++ lit ". Please review the lecture material for more details."))).


(** * A worked database *)

Module Ex.

Definition options : gmap jsstring jsstring :=
  list_to_map [ (lit "A", lit "the mitochondrion");
                (lit "B", lit "the nucleus");
                (lit "C", lit "the ribosome");
                (lit "D", lit "the membrane") ].

(** The explanations as the model sent them: a text for A, a text for
    B, white space for C and nothing for D. *)
Definition model_explanations : json :=
  j_object [ (lit "A", j_string (lit "The mitochondrion makes ATP."));
             (lit "B", j_string (lit "The nucleus holds the genome."));
             (lit "C", j_string [32; 9; 160]%N) ].

Definition model_question (correct : Label) : Question.t :=
  {| Question.question := Some (lit "Which organelle is meant?");
     Question.options := Some options;
     Question.correct_answer := Some (label_str correct);
     Question.correctAnswerExplanation := Some (j_string (lit "See section 2."));
     Question.explanations := Some model_explanations |}.

Definition stored_question (correct : Label) : Question.t :=
  set_explanations (model_question correct)
    (fix_explanations (label_str correct) model_explanations).

(** A question whose explanations the model sent as one sentence
    instead of an object. *)
Definition lazy_question : Question.t :=
  set_explanations (model_question LB) (Some (j_string (lit "see the lecture"))).

Definition long_text : jsstring :=
  lit "The nucleus stores the genetic material of the cell and directs it.".

Definition lecture3 : Lecture.t :=
  {| Lecture._id := 3; Lecture.title := lit "Cells";
     Lecture.professorId := 100;
     Lecture.extractedText := Some long_text;
     Lecture.classId := Some 1%nat; Lecture.className := Some (lit "Biology");
     Lecture.processingStatus := completed; Lecture.quizGenerated := true;
     Lecture.quizGenerationError := None; Lecture.quizzesCount := 1;
     Lecture.lastProcessed := Some 10 |}.

Definition lecture4 : Lecture.t :=
  {| Lecture._id := 4; Lecture.title := lit "Atoms";
     Lecture.professorId := 100;
     Lecture.extractedText := Some (lit "Too short.");
     Lecture.classId := Some 2%nat; Lecture.className := Some (lit "Chemistry");
     Lecture.processingStatus := pending; Lecture.quizGenerated := false;
     Lecture.quizGenerationError := None; Lecture.quizzesCount := 0;
     Lecture.lastProcessed := None |}.

Definition lecture5 : Lecture.t :=
  {| Lecture._id := 5; Lecture.title := lit "Cells, continued";
     Lecture.professorId := 100;
     Lecture.extractedText := Some long_text;
     Lecture.classId := Some 1%nat; Lecture.className := Some (lit "Biology");
     Lecture.processingStatus := pending; Lecture.quizGenerated := false;
     Lecture.quizGenerationError := None; Lecture.quizzesCount := 0;
     Lecture.lastProcessed := None |}.

(** Ten questions; the first has correct label B, the second C. *)
Definition quiz7 : Quiz.t :=
  {| Quiz._id := 7; Quiz.lectureId := 3; Quiz.lectureTitle := lit "Cells";
     Quiz.questions :=
       stored_question LB :: stored_question LC
       :: repeat (stored_question LA) 8;
     Quiz.totalQuestions := 10; Quiz.generatedDate := 10;
     Quiz.createdBy := 100;
     Quiz.classId := Some 1%nat; Quiz.className := Some (lit "Biology") |}.

Definition carols_result : QuizResult.t :=
  {| QuizResult._id := 30; QuizResult.quizId := 7; QuizResult.lectureId := 3;
     QuizResult.classId := Some 1%nat; QuizResult.studentId := 202;
     QuizResult.studentName := lit "Carol"; QuizResult.score := 0;
     QuizResult.totalQuestions := 10; QuizResult.percentage := 0%float;
     QuizResult.timeTakenSeconds := 60; QuizResult.submissionDate := 15;
     QuizResult.answers := [] |}.

(** Alice and Carol are enrolled in class 1; Bob is enrolled in class 2
    and his enrollment in class 1 is no longer active. *)
Definition db : DB :=
  {| lectureCollection := [lecture3; lecture4; lecture5];
     quizCollection := [quiz7];
     quizResultCollection := [carols_result];
     classCollection :=
       [ {| Class._id := 1; Class.name := lit "Biology";
            Class.subject := lit "Science" |};
         {| Class._id := 2; Class.name := lit "Chemistry";
            Class.subject := lit "Science" |} ];
     classStudentCollection :=
       [ {| Enrollment.studentId := 200; Enrollment.classId := 1;
            Enrollment.isActive := true |};
         {| Enrollment.studentId := 201; Enrollment.classId := 1;
            Enrollment.isActive := false |};
         {| Enrollment.studentId := 201; Enrollment.classId := 2;
            Enrollment.isActive := true |};
         {| Enrollment.studentId := 202; Enrollment.classId := 1;
            Enrollment.isActive := true |} ] |}.




Definition prof : Session :=
  {| userId := 100; userName := lit "Prof"; userType := teacher |}.
Definition alice : Session :=
  {| userId := 200; userName := lit "Alice"; userType := student |}.
Definition bob : Session :=
  {| userId := 201; userName := lit "Bob"; userType := student |}.
Definition carol : Session :=
  {| userId := 202; userName := lit "Carol"; userType := student |}.

Definition answer (i : Z) (l : Label) : Answer.t :=
  {| Answer.questionIndex := i; Answer.question := None;
     Answer.selectedOption := Some (label_str l) |}.

(** A successful generation for lecture 5. *)
Definition generation : Response * DB :=
  generate_quiz db prof 5 20
    (api_response (parsed_array [object_element (model_question LB)]))
    (inserted 8).

Definition generation_report : Generated.t :=
  match fst generation with
  | generated_json r => r
  | _ => {| Generated.message := []; Generated.quizId := 0;
            Generated.totalQuestions := 0; Generated.title := [];
            Generated.className := None;
            Generated.explanationsGenerated := false |}
  end.

End Ex.

(** * The rest of the lifecycle

    Handlers and helpers of [src/index.js] beside the ones above, with
    the same conventions. *)

(** The reply of a route below: one of the responses above, or the
    payload of its success. *)
Inductive Reply (A : Type) :=
| refused (r : Response)
| succeeded (payload : A).

Arguments refused {A} r.
Arguments succeeded {A} payload.

(** ** Deleting a lecture *)

(** [findByIdAndDelete(id)] on the lecture collection. *)
Fixpoint delete_by_id (id : oid) (ls : list Lecture.t) : list Lecture.t :=
  match ls with
  | [] => []
  | l :: r =>
    if Nat.eqb (Lecture._id l) id then r else l :: delete_by_id id r
  end.

(** [POST /delete_lecture/:id]; the payload is the message. *)
Definition delete_lecture (db : DB) (s : Session) (lectureId : oid)
  : Reply jsstring * DB :=
  match findLecture db lectureId with
  | None => (refused (failure 404 (lit "Lecture not found")), db)
  | Some lecture =>
    if is_teacher (userType s)
       && negb (Nat.eqb (Lecture.professorId lecture) (userId s))
    then
      (refused (failure 403
                  (lit "Access denied. You can only delete your own lectures.")),
       db)
    else
      (succeeded (lit "Lecture deleted successfully"),
       {| lectureCollection := delete_by_id lectureId (lectureCollection db);
          quizCollection :=
            filter (fun q => Quiz.lectureId q <> lectureId) (quizCollection db);
          quizResultCollection :=
            filter (fun r => QuizResult.lectureId r <> lectureId)
                   (quizResultCollection db);
          classCollection := classCollection db;
          classStudentCollection := classStudentCollection db |})
  end.

(** ** The retention sweep *)

(** [15 * 24 * 60 * 60 * 1000] milliseconds. *)
Definition fifteen_days : Z := 15 * 24 * 60 * 60 * 1000.

(** [cleanupOldQuizResults()], run at instant [now] ([Date.now()]):
    [deleteMany({ submissionDate: { $lt: fifteenDaysAgo } })]. *)
Definition cleanupOldQuizResults (db : DB) (now : Z) : DB :=
  let fifteenDaysAgo := now - fifteen_days in
  {| lectureCollection := lectureCollection db;
     quizCollection := quizCollection db;
     quizResultCollection :=
       filter (fun r => ~ QuizResult.submissionDate r < fifteenDaysAgo)
              (quizResultCollection db);
     classCollection := classCollection db;
     classStudentCollection := classStudentCollection db |}.

(** ** The status of a quiz's explanations *)

Module ExplanationStats.
Record t := {
  hasEnhancedExplanations : bool;
  totalQuestions : nat;
  questionsWithExplanations : nat;
  questionsWithCorrectExplanations : nat;
  enhancementLevel : string;
  generatedDate : Z
}.
End ExplanationStats.

(** [values.some(v => v && v.trim() !== '')]: [None] when the test
    throws before it has held. *)
Fixpoint some_text (values : list json) : option bool :=
  match values with
  | [] => Some false
  | v :: r =>
    match text_test (Some v) with
    | is_text _ => Some true
    | no_text => some_text r
    | trim_throws => None
    end
  end.

(** [q.explanations && Object.keys(q.explanations).some(key =>
      q.explanations[key] && q.explanations[key].trim() !== '')] *)
Definition has_explanation (q : Question.t) : option bool :=
  match Question.explanations q with
  | Some e => if truthy_json (Some e) then some_text (own_values e) else Some false
  | None => Some false
  end.

(** [q.correctAnswerExplanation && q.correctAnswerExplanation.trim() !== ''] *)
Definition has_correct_explanation (q : Question.t) : option bool :=
  match text_test (Question.correctAnswerExplanation q) with
  | is_text _ => Some true
  | no_text => Some false
  | trim_throws => None
  end.

(** [l.filter(f).length], or [None] when [f] throws. *)
Fixpoint count_where {X} (f : X -> option bool) (l : list X) : option nat :=
  match l with
  | [] => Some 0%nat
  | x :: r =>
    match f x with
    | None => None
    | Some b =>
      match count_where f r with
      | None => None
      | Some n => Some (if b then S n else n)
      end
    end
  end.

(** [GET /api/quiz/:quizId/explanations-status]; it reads the session
    of no one and writes nothing. *)
Definition explanations_status (db : DB) (quizId : oid)
  : Reply ExplanationStats.t :=
  match findQuiz db quizId with
  | None => refused (failure 404 (lit "Quiz not found."))
  | Some quiz =>
    let thrown (message : jsstring) :=
      refused (failure 500 (lit "Failed to check explanation status: "
                            ++ message)) in
    match count_where has_explanation (Quiz.questions quiz) with
    | None => thrown (trim_is_not_a_function "q.explanations[key]")
    | Some questionsWithExplanations =>
      match count_where has_correct_explanation (Quiz.questions quiz) with
      | None => thrown (trim_is_not_a_function "q.correctAnswerExplanation")
      | Some questionsWithCorrectExplanations =>
        let hasEnhancedExplanations := Nat.ltb 0 questionsWithExplanations in
        succeeded
          {| ExplanationStats.hasEnhancedExplanations := hasEnhancedExplanations;
             ExplanationStats.totalQuestions := length (Quiz.questions quiz);
             ExplanationStats.questionsWithExplanations :=
               questionsWithExplanations;
             ExplanationStats.questionsWithCorrectExplanations :=
               questionsWithCorrectExplanations;
             ExplanationStats.enhancementLevel :=
               if Nat.eqb questionsWithExplanations (length (Quiz.questions quiz))
               then "full"%string
               else if Nat.ltb 0 questionsWithExplanations
                    then "partial"%string
                    else "none"%string;
             ExplanationStats.generatedDate := Quiz.generatedDate quiz |}
      end
    end
  end.

(** ** Uploaded files *)

(** [allowedMimes] of [fileFilter]. *)
Definition allowedMimes : list jsstring :=
  [ lit "application/pdf";
    lit "application/vnd.ms-powerpoint";
    lit "application/vnd.openxmlformats-officedocument.presentationml.presentation";
    lit "application/msword";
    lit "application/vnd.openxmlformats-officedocument.wordprocessingml.document" ].

(** [fileFilter]: whether the file is accepted ([cb(null, true)]). *)
Definition fileFilter (mimetype : jsstring) : bool :=
  bool_decide (mimetype ∈ allowedMimes).

(** [typeMap] of [getFileType]. *)
Definition typeMap : gmap jsstring jsstring :=
  list_to_map
    [ (lit "application/pdf", lit "pdf");
      (lit "application/msword", lit "docx");
      (lit "application/vnd.openxmlformats-officedocument.wordprocessingml.document",
       lit "docx");
      (lit "application/vnd.ms-powerpoint", lit "pptx");
      (lit "application/vnd.openxmlformats-officedocument.presentationml.presentation",
       lit "pptx") ].

(** [typeMap[mimetype] || 'unknown'], for a [mimetype] that does not name
    a property of [Object.prototype] (for one that does, the code
    returns the inherited function). *)
Definition getFileType (mimetype : jsstring) : jsstring :=
  match typeMap !! mimetype with
  | Some (c :: t) => c :: t
  | _ => lit "unknown"
  end.

(** The extractor [extractTextFromFile] hands the file to. *)
Inductive Extractor := PDF | Word | PowerPoint.

(** The [switch] of [extractTextFromFile]; [None] is the default case,
    which throws "Unsupported file type". *)
Definition extractor_of (mimetype : jsstring) : option Extractor :=
  if bool_decide (mimetype = lit "application/pdf") then Some PDF
  else if bool_decide (mimetype = lit "application/msword") then Some Word
  else if bool_decide
            (mimetype = lit "application/vnd.openxmlformats-officedocument.wordprocessingml.document")
  then Some Word
  else if bool_decide (mimetype = lit "application/vnd.ms-powerpoint")
  then Some PowerPoint
  else if bool_decide
            (mimetype = lit "application/vnd.openxmlformats-officedocument.presentationml.presentation")
  then Some PowerPoint
  else None.

Module SlideContent.
Record t := { text : option jsstring }.
End SlideContent.

Module Slide.
Record t := { content : option (list SlideContent.t) }.
End Slide.

(** What [toJson(filePath)] does: it throws, or returns data whose
    [slides] are an array ([None] when the data or its [slides] are
    missing). *)
Inductive PptxOutcome :=
| toJson_throws
| toJson_returns (slides : option (list Slide.t)).

(** The body of [slide.content.forEach(content => ...)]. *)
Definition add_content (extractedText : jsstring) (c : SlideContent.t)
  : jsstring :=
  if truthy (SlideContent.text c)
  then extractedText ++ interp (SlideContent.text c) ++ [10]%N
  else extractedText.

(** The body of [data.slides.forEach((slide, index) => ...)]. *)
Definition add_slide (extractedText : jsstring) (index : nat)
    (slide : Slide.t) : jsstring :=
  let extractedText :=
    extractedText ++ [10]%N ++ lit "--- Slide " ++ str_of_nat (index + 1)
    ++ lit " ---" ++ [10]%N in
  match Slide.content slide with
  | Some cs => fold_left add_content cs extractedText
  | None => extractedText
  end.

Fixpoint add_slides (extractedText : jsstring) (index : nat)
    (slides : list Slide.t) : jsstring :=
  match slides with
  | [] => extractedText
  | slide :: r => add_slides (add_slide extractedText index slide) (S index) r
  end.

(** [extractTextFromPowerPoint], given what [toJson] does. *)
Definition extractTextFromPowerPoint (o : PptxOutcome) : jsstring :=
  match o with
  | toJson_throws =>
    lit "PowerPoint file uploaded successfully. Text extraction failed, but content is available."
  | toJson_returns slides =>
    let extractedText :=
      match slides with
      | Some l => add_slides [] 0 l
      | None => []
      end in
    if is_empty extractedText
    then lit "No text found in PowerPoint file"
    else extractedText
  end.

(** ** The score classes and the performance breakdown *)

(** The helper [getScoreClass]. *)
Definition getScoreClass (percentage : float) : string :=
  if (90 <=? percentage)%float then "excellent"%string
  else if (70 <=? percentage)%float then "good"%string
  else if (50 <=? percentage)%float then "average"%string
  else "poor"%string.

Module Breakdown.
Record t := {
  excellent : nat;
  good : nat;
  average : nat;
  needsImprovement : nat
}.
End Breakdown.

(** [performanceBreakdown] of [GET /api/student/performance-data], over
    the student's results. *)
Definition performanceBreakdown (studentResults : list QuizResult.t)
  : Breakdown.t :=
  let p := QuizResult.percentage in
  {| Breakdown.excellent :=
       length (List.filter (fun r => (90 <=? p r)%float) studentResults);
     Breakdown.good :=
       length (List.filter (fun r => (70 <=? p r)%float && (p r <? 90)%float)
                           studentResults);
     Breakdown.average :=
       length (List.filter (fun r => (50 <=? p r)%float && (p r <? 70)%float)
                           studentResults);
     Breakdown.needsImprovement :=
       length (List.filter (fun r => (p r <? 50)%float) studentResults) |}.

(** ** Predicates of the further properties *)

(** A stored answer record agrees with the question it was scored
    against. *)
Definition detail_matches_key (quiz : Quiz.t) (d : DetailedAnswer.t) : Prop :=
  exists q,
    question_at (Quiz.questions quiz) (DetailedAnswer.questionIndex d) = Some q
    /\ DetailedAnswer.correctOption d = Question.correct_answer q
    /\ DetailedAnswer.isCorrect d
       = strict_eq (DetailedAnswer.selectedOption d) (Question.correct_answer q).

(** The stored record and the record sent back describe the same
    answer. *)
Definition same_answer (d : DetailedAnswer.t) (e : QuestionDetail.t) : Prop :=
  DetailedAnswer.questionIndex d = QuestionDetail.questionIndex e
  /\ DetailedAnswer.selectedOption d = QuestionDetail.studentAnswer e
  /\ DetailedAnswer.correctOption d = QuestionDetail.correctAnswer e
  /\ DetailedAnswer.isCorrect d = QuestionDetail.isCorrect e.

Definition tally_consistent (quiz : Quiz.t) (t : Tally) : Prop :=
  score t
  = Z.of_nat (length (List.filter DetailedAnswer.isCorrect (detailedAnswers t)))
  /\ Forall (detail_matches_key quiz) (detailedAnswers t)
  /\ Forall2 same_answer (detailedAnswers t) (enhancedQuestionDetails t).

(** Every stored result refers to a stored quiz with its [quizId], and
    carries the [lectureId] of that quiz. *)
Definition results_refer_to_quizzes (db : DB) : Prop :=
  forall r, r ∈ quizResultCollection db ->
            exists q, q ∈ quizCollection db
                      /\ Quiz._id q = QuizResult.quizId r
                      /\ Quiz.lectureId q = QuizResult.lectureId r.

(** A question as it leaves the validation loop. *)
Definition validated (q : Question.t) : Prop :=
  exists index q0, validate_question index q0 = inr q.

(** The stored texts of a question are texts: no explanation value and
    no explanation of the correct answer is a truthy value other than a
    string. *)
Definition stored_texts (q : Question.t) : Prop :=
  (forall e, Question.explanations q = Some e ->
             Forall (fun v => text_or_nothing (Some v)) (own_values e))
  /\ text_or_nothing (Question.correctAnswerExplanation q).

(** An object all of whose values are strings. *)
Definition object_of_strings (e : json) : Prop :=
  exists fields,
    e = j_object fields
    /\ Forall (fun kv => exists text, kv.2 = j_string text) fields.

(** The question follows the format the prompt asks the model for:
    [explanations] is an object of strings and
    [correctAnswerExplanation] is a string. *)
Definition texts_are_strings (q : Question.t) : Prop :=
  (exists e, Question.explanations q = Some e /\ object_of_strings e)
  /\ exists text, Question.correctAnswerExplanation q = Some (j_string text).

(** The test [f] holds of [x], without throwing. *)
Definition holds {X} (f : X -> option bool) (x : X) : bool :=
  match f x with
  | Some true => true
  | _ => false
  end.

(** * Properties *)

(** ** Scoring *)

Lemma question_at_Some qs i q :
  question_at qs i = Some q -> 0 <= i < Z.of_nat (length qs).
Proof.
  unfold question_at. destruct (Z.ltb_spec i 0) as [Hneg|Hpos]; [discriminate|].
  intros Hlt%lookup_lt_Some. lia.
Qed.

Lemma question_at_None qs i :
  ~ (0 <= i < Z.of_nat (length qs)) -> question_at qs i = None.
Proof.
  intros Hout. unfold question_at.
  destruct (Z.ltb_spec i 0); [reflexivity|].
  apply lookup_ge_None. lia.
Qed.

Lemma question_at_in_range qs i :
  0 <= i < Z.of_nat (length qs) -> is_Some (question_at qs i).
Proof.
  intros [Hlo Hhi]. unfold question_at.
  destruct (Z.ltb_spec i 0); [lia|].
  apply lookup_lt_is_Some. lia.
Qed.

(** One step of the loop changes the score by one or not at all. *)
Lemma score_answer_score quiz acc a :
  score (score_answer quiz acc a) =
  score acc + (if decide (answered_correctly quiz a) then 1 else 0).
Proof.
  destruct (decide (answered_correctly quiz a)) as [Hc|Hc];
    unfold answered_correctly in Hc; unfold score_answer, strict_eq;
    destruct (question_at _ _) as [q|]; simpl.
  - rewrite bool_decide_eq_true_2 by assumption. reflexivity.
  - contradiction.
  - rewrite bool_decide_eq_false_2 by assumption. lia.
  - lia.
Qed.

Lemma score_fold quiz answers acc :
  score (fold_left (score_answer quiz) answers acc) =
  score acc + spec_score quiz answers.
Proof.
  unfold spec_score. revert acc.
  induction answers as [|a answers IH]; intros acc; simpl.
  - lia.
  - rewrite IH, score_answer_score, filter_cons.
    destruct (decide (answered_correctly quiz a)); simpl length; lia.
Qed.

Lemma score_answers_spec quiz answers :
  score (score_answers quiz answers) = spec_score quiz answers.
Proof. unfold score_answers. rewrite score_fold. reflexivity. Qed.

(** An answer out of range leaves the whole tally as it was. *)
Lemma score_answer_out_of_range quiz acc a :
  ~ in_range quiz a -> score_answer quiz acc a = acc.
Proof.
  intros Hout. unfold score_answer.
  rewrite question_at_None by exact Hout. reflexivity.
Qed.

Lemma fold_skips_out_of_range quiz answers acc :
  fold_left (score_answer quiz) (filter (in_range quiz) answers) acc =
  fold_left (score_answer quiz) answers acc.
Proof.
  revert acc. induction answers as [|a answers IH]; intros acc; simpl.
  - reflexivity.
  - rewrite filter_cons. destruct (decide (in_range quiz a)) as [Hin|Hout].
    + simpl. apply IH.
    + rewrite (score_answer_out_of_range _ _ _ Hout). apply IH.
Qed.

(** The guards that precede the scoring loop, passed. *)
Lemma submit_quiz_scores db s quizId answers t now newId quiz :
  userType s = student ->
  findQuiz db quizId = Some quiz ->
  enrollment_ok db s quiz ->
  findResult db quizId (userId s) = None ->
  exists r res,
    submit_quiz db s quizId answers t now (inserted newId)
    = (scored_json r,
       {| lectureCollection := lectureCollection db;
          quizCollection := quizCollection db;
          quizResultCollection := quizResultCollection db ++ [res];
          classCollection := classCollection db;
          classStudentCollection := classStudentCollection db |})
    /\ Scored.score r = score (score_answers quiz answers)
    /\ Scored.totalQuestions r = Quiz.totalQuestions quiz
    /\ Scored.percentage r
       = percentage_of (score (score_answers quiz answers))
                       (Quiz.totalQuestions quiz)
    /\ Scored.questionDetails r
       = enhancedQuestionDetails (score_answers quiz answers)
    /\ QuizResult.score res = Scored.score r
    /\ QuizResult.totalQuestions res = Scored.totalQuestions r
    /\ QuizResult.percentage res = Scored.percentage r
    /\ QuizResult.answers res = detailedAnswers (score_answers quiz answers)
    /\ QuizResult.quizId res = quizId
    /\ QuizResult.studentId res = userId s.
Proof.
  intros Hs Hq Henr Hres. unfold submit_quiz. rewrite Hs, Hq, Hres.
  assert (Hok : match Quiz.classId quiz with
                | Some c => bool_decide (is_Some (findEnrollment db (userId s) c))
                | None => true
                end = true).
  { destruct (Quiz.classId quiz) as [c|] eqn:Hc; [|reflexivity].
    apply bool_decide_eq_true_2, Henr. exact Hc. }
  rewrite Hok. simpl.
  eexists _, _. split; [reflexivity|]. simpl. repeat split; reflexivity.
Qed.

(** C1.  Whenever a submission reaches the scoring loop (a student, an
    existing quiz, the enrollment check passed, no earlier result), the
    request succeeds and the score it returns and stores is the number
    of submitted answers whose [selectedOption] equals the
    [correct_answer] of the question at their [questionIndex]; answers
    whose index is out of range change neither the score nor the
    per-answer details; the percentage is
    [score / totalQuestions * 100] in double arithmetic when
    [totalQuestions > 0] and [0] otherwise. *)
Theorem C1_score_is_count_of_correct_answers
    db s quizId answers t now newId quiz :
  userType s = student ->
  findQuiz db quizId = Some quiz ->
  enrollment_ok db s quiz ->
  findResult db quizId (userId s) = None ->
  exists r db',
    submit_quiz db s quizId answers t now (inserted newId)
    = (scored_json r, db')
    /\ Scored.score r = spec_score quiz answers
    /\ score_answers quiz (filter (in_range quiz) answers)
       = score_answers quiz answers
    /\ Scored.totalQuestions r = Quiz.totalQuestions quiz
    /\ (0 < Quiz.totalQuestions quiz ->
        Scored.percentage r
        = (number (Scored.score r) / number (Quiz.totalQuestions quiz)
           * 100)%float)
    /\ (Quiz.totalQuestions quiz = 0 -> Scored.percentage r = 0%float)
    /\ exists res,
        quizResultCollection db' = quizResultCollection db ++ [res]
        /\ QuizResult.score res = spec_score quiz answers
        /\ QuizResult.percentage res = Scored.percentage r.
Proof.
  intros Hs Hq Henr Hres.
  destruct (submit_quiz_scores db s quizId answers t now newId quiz
              Hs Hq Henr Hres)
    as (r & res & Hrun & Hscore & Htot & Hpct & _ & Hrs & _ & Hrp & _).
  eexists r, _. split; [exact Hrun|].
  rewrite Hscore, score_answers_spec in *.
  repeat split.
  - unfold score_answers. apply fold_skips_out_of_range.
  - exact Htot.
  - intros Hpos. rewrite Hpct. unfold percentage_of.
    destruct (Z.ltb_spec 0 (Quiz.totalQuestions quiz)); [reflexivity | lia].
  - intros Hzero. rewrite Hpct, Hzero. reflexivity.
  - exists res. simpl. repeat split; [exact Hrs | exact Hrp].
Qed.

(** C9.  The loop counts entries, not questions: an answer that names
    an existing question and carries its correct option adds one to the
    score each time it occurs in the list, so [n] copies of it score
    [n]; and there are a quiz and an answer list whose score exceeds
    the number of distinct questions answered and whose percentage
    exceeds 100. *)
Theorem C9_score_counts_repeated_answers :
  (forall quiz a q rest (n : nat),
      question_at (Quiz.questions quiz) (Answer.questionIndex a) = Some q ->
      Answer.selectedOption a = Question.correct_answer q ->
      score (score_answers quiz (a :: a :: rest))
      = 2 + score (score_answers quiz rest)
      /\ score (score_answers quiz (repeat a n)) = Z.of_nat n)
  /\ exists quiz answers,
      Z.of_nat (length (remove_dups (map Answer.questionIndex
                                         (filter (in_range quiz) answers))))
      < score (score_answers quiz answers)
      /\ (100 <? percentage_of (score (score_answers quiz answers))
                               (Quiz.totalQuestions quiz))%float = true.
Proof.
  split.
  - intros quiz a q rest n Hq Hsel.
    assert (Hc : answered_correctly quiz a).
    { unfold answered_correctly. rewrite Hq. exact Hsel. }
    split.
    + rewrite !score_answers_spec. unfold spec_score.
      rewrite !filter_cons. destruct (decide (answered_correctly quiz a));
        [simpl length; lia | contradiction].
    + rewrite score_answers_spec. unfold spec_score.
      induction n as [|n IH]; [reflexivity|].
      simpl repeat. rewrite filter_cons.
      destruct (decide (answered_correctly quiz a)); [|contradiction].
      simpl length. lia.
  - pose (q := {| Question.question := Some (lit "2 + 2 = ?");
                  Question.options := None;
                  Question.correct_answer := Some (lit "B");
                  Question.correctAnswerExplanation := None;
                  Question.explanations := None |}).
    pose (a := {| Answer.questionIndex := 0;
                  Answer.question := None;
                  Answer.selectedOption := Some (lit "B") |}).
    exists {| Quiz._id := 1%nat; Quiz.lectureId := 1%nat;
              Quiz.lectureTitle := lit "Sums";
              Quiz.questions := [q]; Quiz.totalQuestions := 1;
              Quiz.generatedDate := 0; Quiz.createdBy := 1%nat;
              Quiz.classId := None; Quiz.className := None |}, [a; a].
    split; vm_compute; reflexivity.
Qed.

(** ** Delivery *)

Lemma api_quiz_student db s quizId quiz :
  userType s = student ->
  findQuiz db quizId = Some quiz ->
  api_quiz db s quizId
  = (quiz_json
       {| QuizPayload._id := Quiz._id quiz;
          QuizPayload.lectureTitle := Quiz.lectureTitle quiz;
          QuizPayload.totalQuestions := Quiz.totalQuestions quiz;
          QuizPayload.questions := map questionForClient (Quiz.questions quiz) |},
     db).
Proof. intros Hs Hq. unfold api_quiz. rewrite Hs, Hq. reflexivity. Qed.

(** C2.  For a student and an existing quiz, the questions endpoint
    answers with one object per stored question, in order, whose only
    properties are [question] and [options], holding the stored
    question text and options map; none of [correct_answer],
    [explanations] and [correctAnswerExplanation] is a property of any
    of them.  The database is left as it was. *)
Theorem C2_questions_are_sanitized db s quizId quiz :
  userType s = student ->
  findQuiz db quizId = Some quiz ->
  exists payload,
    api_quiz db s quizId = (quiz_json payload, db)
    /\ Forall2
         (fun q o =>
            keys o = ["question"; "options"]%string
            /\ get o "question" = Some (of_text (Question.question q))
            /\ get o "options" = Some (of_map (Question.options q))
            /\ forall f, f ∈ answer_fields -> get o f = None)
         (Quiz.questions quiz) (QuizPayload.questions payload).
Proof.
  intros Hs Hq. eexists. split; [apply api_quiz_student; eassumption|].
  simpl. induction (Quiz.questions quiz) as [|q qs IH]; constructor; [|exact IH].
  repeat split. intros f Hf. unfold answer_fields in Hf.
  repeat (apply elem_of_cons in Hf as [->|Hf]; [reflexivity|]).
  inversion Hf.
Qed.

Lemma enrollment_ok_true db s quiz :
  enrollment_ok db s quiz ->
  match Quiz.classId quiz with
  | Some c => bool_decide (is_Some (findEnrollment db (userId s) c))
  | None => true
  end = true.
Proof.
  intros Henr. destruct (Quiz.classId quiz) as [c|] eqn:Hc; [|reflexivity].
  apply bool_decide_eq_true_2, Henr. exact Hc.
Qed.

Lemma not_enrolled_false db (s : Session) c :
  findEnrollment db (userId s) c = None ->
  bool_decide (is_Some (findEnrollment db (userId s) c)) = false.
Proof.
  intros Hnone. apply bool_decide_eq_false_2. rewrite Hnone.
  intros [x Hx]. discriminate.
Qed.

(** The page route without a class in the query: a quiz of a class the
    student is not enrolled in is refused. *)
Lemma take_quiz_not_enrolled db s quizId quiz c :
  userType s = student ->
  findQuiz db quizId = Some quiz ->
  Quiz.classId quiz = Some c ->
  findEnrollment db (userId s) c = None ->
  take_quiz db s quizId None
  = (send 403 (lit "You are not enrolled in this class."), db).
Proof.
  intros Hs Hq Hc Hnone. unfold take_quiz.
  rewrite Hs, Hq, Hc, not_enrolled_false by exact Hnone. reflexivity.
Qed.

Lemma take_quiz_already_taken db s quizId quiz r0 :
  userType s = student ->
  findQuiz db quizId = Some quiz ->
  enrollment_ok db s quiz ->
  findResult db quizId (userId s) = Some r0 ->
  take_quiz db s quizId None
  = (redirect_already_taken (Quiz.lectureTitle quiz), db).
Proof.
  intros Hs Hq Henr Hres. unfold take_quiz.
  rewrite Hs, Hq, (enrollment_ok_true _ _ _ Henr), Hres. reflexivity.
Qed.

Lemma submit_quiz_not_enrolled db s quizId answers t now created quiz c :
  userType s = student ->
  findQuiz db quizId = Some quiz ->
  Quiz.classId quiz = Some c ->
  findEnrollment db (userId s) c = None ->
  submit_quiz db s quizId answers t now created
  = (failure 403 (lit "You are not enrolled in the class for this quiz."), db).
Proof.
  intros Hs Hq Hc Hnone. unfold submit_quiz.
  rewrite Hs, Hq, Hc, not_enrolled_false by exact Hnone. reflexivity.
Qed.

Lemma submit_quiz_duplicate db s quizId answers t now created quiz r0 :
  userType s = student ->
  findQuiz db quizId = Some quiz ->
  enrollment_ok db s quiz ->
  findResult db quizId (userId s) = Some r0 ->
  submit_quiz db s quizId answers t now created
  = (failure 400 (lit "You have already submitted this quiz."), db).
Proof.
  intros Hs Hq Henr Hres. unfold submit_quiz.
  rewrite Hs, Hq, (enrollment_ok_true _ _ _ Henr), Hres. reflexivity.
Qed.

(** A submission either stores a result and reports the score, or
    fails and leaves the database as it was. *)
Lemma submit_quiz_fails_or_scores db s quizId answers t now created :
  (exists status message,
      submit_quiz db s quizId answers t now created
      = (failure status message, db))
  \/ (exists r db',
         submit_quiz db s quizId answers t now created = (scored_json r, db')
         /\ findResult db quizId (userId s) = None).
Proof.
  unfold submit_quiz.
  destruct (userType s); try (left; eexists _, _; reflexivity).
  destruct (findQuiz db quizId) as [quiz|]; [|left; eexists _, _; reflexivity].
  destruct (negb _); [left; eexists _, _; reflexivity|].
  destruct (findResult db quizId (userId s)) as [r0|];
    [left; eexists _, _; reflexivity|].
  destruct created; [|left; eexists _, _; reflexivity].
  right. eexists _, _. split; reflexivity.
Qed.

(** C10.  The questions endpoint checks neither enrollment nor an
    earlier attempt: for every student and existing quiz it answers
    with the sanitized questions, whatever the enrollments and results
    in the database.  The page route and the submit route do check:
    both refuse a student who is not enrolled in the quiz's class, and
    when a result of the student for the quiz exists the page route
    redirects and the submit route refuses. *)
Theorem C10_questions_endpoint_has_no_gate db s quizId quiz :
  userType s = student ->
  findQuiz db quizId = Some quiz ->
  api_quiz db s quizId
  = (quiz_json
       {| QuizPayload._id := Quiz._id quiz;
          QuizPayload.lectureTitle := Quiz.lectureTitle quiz;
          QuizPayload.totalQuestions := Quiz.totalQuestions quiz;
          QuizPayload.questions := map questionForClient (Quiz.questions quiz) |},
     db)
  /\ (forall c answers t now created,
         Quiz.classId quiz = Some c ->
         findEnrollment db (userId s) c = None ->
         take_quiz db s quizId None
         = (send 403 (lit "You are not enrolled in this class."), db)
         /\ submit_quiz db s quizId answers t now created
            = (failure 403 (lit "You are not enrolled in the class for this quiz."), db))
  /\ (forall r0 answers t now created,
         enrollment_ok db s quiz ->
         findResult db quizId (userId s) = Some r0 ->
         take_quiz db s quizId None
         = (redirect_already_taken (Quiz.lectureTitle quiz), db)
         /\ submit_quiz db s quizId answers t now created
            = (failure 400 (lit "You have already submitted this quiz."), db)).
Proof.
  intros Hs Hq. split; [apply api_quiz_student; assumption|]. split.
  - intros c answers t now created Hc Hnone. split.
    + eapply take_quiz_not_enrolled; eassumption.
    + eapply submit_quiz_not_enrolled; eassumption.
  - intros r0 answers t now created Henr Hres. split.
    + eapply take_quiz_already_taken; eassumption.
    + eapply submit_quiz_duplicate; eassumption.
Qed.

(** C5.  When a result of the student for the quiz exists, a
    submission fails and the database is left exactly as it was, so no
    second result is stored; when the submission is otherwise in order
    (a student, an existing quiz, the enrollment check passed) the
    failure is the duplicate-submission conflict. *)
Theorem C5_duplicate_submission_rejected
    db s quizId answers t now created r0 :
  findResult db quizId (userId s) = Some r0 ->
  (exists status message,
      submit_quiz db s quizId answers t now created
      = (failure status message, db))
  /\ (forall quiz,
         userType s = student ->
         findQuiz db quizId = Some quiz ->
         enrollment_ok db s quiz ->
         submit_quiz db s quizId answers t now created
         = (failure 400 (lit "You have already submitted this quiz."), db)).
Proof.
  intros Hres. split.
  - destruct (submit_quiz_fails_or_scores db s quizId answers t now created)
      as [Hfail | (r & db' & _ & Hnone)]; [exact Hfail|].
    rewrite Hres in Hnone. discriminate.
  - intros quiz Hs Hq Henr. eapply submit_quiz_duplicate; eassumption.
Qed.

(** ** Generation *)

Lemma may_generate_false s lecture :
  may_generate s lecture ->
  is_teacher (userType s)
  && negb (Nat.eqb (Lecture.professorId lecture) (userId s)) = false.
Proof.
  unfold may_generate. intros Hown.
  destruct (userType s); simpl; try reflexivity.
  rewrite Hown by reflexivity. rewrite Nat.eqb_refl. reflexivity.
Qed.

(** A generation request either stores a quiz and reports it, or fails;
    when a quiz of the lecture exists it fails without touching the
    database. *)
Lemma generate_quiz_existing db s lectureId now ai created q0 :
  findQuizOfLecture db lectureId = Some q0 ->
  exists status message,
    generate_quiz db s lectureId now ai created = (failure status message, db).
Proof.
  intros Hex. unfold generate_quiz.
  destruct (findLecture db lectureId) as [lecture|];
    [|eexists _, _; reflexivity].
  destruct (_ && _); [eexists _, _; reflexivity|].
  rewrite Hex. eexists _, _; reflexivity.
Qed.

Lemma generate_quiz_conflict db s lectureId now ai created q0 lecture :
  findQuizOfLecture db lectureId = Some q0 ->
  findLecture db lectureId = Some lecture ->
  may_generate s lecture ->
  generate_quiz db s lectureId now ai created
  = (failure 400 (lit "Quiz already generated for this lecture"), db).
Proof.
  intros Hex Hl Hown. unfold generate_quiz.
  rewrite Hl, (may_generate_false _ _ Hown), Hex. reflexivity.
Qed.

(** C3.  When a quiz of the lecture exists, a generation request fails
    and the database is left exactly as it was: no second quiz, and the
    lecture keeps its [processingStatus]; when the lecture is found and
    the requester passes the ownership check, the failure is the
    conflict "Quiz already generated for this lecture". *)
Theorem C3_at_most_one_quiz_per_lecture
    db s lectureId now ai created q0 :
  findQuizOfLecture db lectureId = Some q0 ->
  (exists status message,
      generate_quiz db s lectureId now ai created
      = (failure status message, db))
  /\ (forall lecture,
         findLecture db lectureId = Some lecture ->
         may_generate s lecture ->
         generate_quiz db s lectureId now ai created
         = (failure 400 (lit "Quiz already generated for this lecture"), db)).
Proof.
  intros Hex. split.
  - eapply generate_quiz_existing; eassumption.
  - intros lecture Hl Hown. eapply generate_quiz_conflict; eassumption.
Qed.

Lemma update_by_id_find id f ls :
  (forall l, Lecture._id (f l) = Lecture._id l) ->
  find (fun l => Nat.eqb (Lecture._id l) id) (update_by_id id f ls)
  = f <$> find (fun l => Nat.eqb (Lecture._id l) id) ls.
Proof.
  intros Hid. induction ls as [|l ls IH]; simpl; [reflexivity|].
  destruct (Nat.eqb (Lecture._id l) id) eqn:Heq; simpl.
  - rewrite Hid, Heq. reflexivity.
  - rewrite Heq. exact IH.
Qed.

Lemma findLecture_update db id f :
  (forall l, Lecture._id (f l) = Lecture._id l) ->
  findLecture (update_lecture db id f) id = f <$> findLecture db id.
Proof. intros Hid. unfold findLecture. simpl. apply update_by_id_find, Hid. Qed.

Lemma too_short_true text :
  text = None \/ (exists t, text = Some t /\ (length t < 50)%nat) ->
  too_short text = true.
Proof.
  unfold too_short. intros [-> | (t & -> & Hlen)]; [reflexivity|].
  apply orb_true_iff. right. apply Z.ltb_lt. lia.
Qed.

(** C7.  For a lecture that is found, passes the ownership check and
    has no quiz, whose extracted text is missing or shorter than 50 code
    units, generation fails with the validation error; afterwards the
    lecture has [processingStatus] [failed], [quizGenerated] false and
    the error "Text too short for quiz generation"; the quiz collection
    and every other collection are as before. *)
Theorem C7_short_text_fails_generation
    db s lectureId now ai created lecture :
  findLecture db lectureId = Some lecture ->
  may_generate s lecture ->
  findQuizOfLecture db lectureId = None ->
  Lecture.extractedText lecture = None
  \/ (exists t, Lecture.extractedText lecture = Some t /\ (length t < 50)%nat) ->
  exists db' lecture',
    generate_quiz db s lectureId now ai created
    = (failure 400 (lit "Extracted text is too short or missing for quiz generation."),
       db')
    /\ quizCollection db' = quizCollection db
    /\ quizResultCollection db' = quizResultCollection db
    /\ classCollection db' = classCollection db
    /\ classStudentCollection db' = classStudentCollection db
    /\ findLecture db' lectureId = Some lecture'
    /\ Lecture.processingStatus lecture' = failed
    /\ Lecture.quizGenerated lecture' = false
    /\ Lecture.quizGenerationError lecture'
       = Some (lit "Text too short for quiz generation").
Proof.
  intros Hl Hown Hnone Hshort. unfold generate_quiz.
  rewrite Hl, (may_generate_false _ _ Hown), Hnone, (too_short_true _ Hshort).
  eexists _, _. split; [reflexivity|].
  rewrite !findLecture_update, Hl by reflexivity.
  repeat split; reflexivity.
Qed.

(** *** Reads and writes of properties *)

Lemma get_set_own_eq {V} (fields : list (jsstring * V)) k v :
  get_own (set_own fields k v) k = Some v.
Proof.
  induction fields as [|[k' v'] r IH]; simpl.
  - rewrite bool_decide_eq_true_2 by reflexivity. reflexivity.
  - destruct (decide (k' = k)) as [->|Hne].
    + rewrite bool_decide_eq_true_2 by reflexivity. simpl.
      rewrite bool_decide_eq_true_2 by reflexivity. reflexivity.
    + rewrite bool_decide_eq_false_2 by exact Hne. simpl.
      rewrite bool_decide_eq_false_2 by exact Hne. exact IH.
Qed.

Lemma get_set_own_ne {V} (fields : list (jsstring * V)) k k' v :
  k' <> k -> get_own (set_own fields k v) k' = get_own fields k'.
Proof.
  intros Hkk. induction fields as [|[k0 v0] r IH]; simpl.
  - rewrite bool_decide_eq_false_2 by congruence. reflexivity.
  - destruct (decide (k0 = k)) as [->|Hne].
    + rewrite bool_decide_eq_true_2 by reflexivity. simpl.
      rewrite !bool_decide_eq_false_2 by congruence. reflexivity.
    + rewrite bool_decide_eq_false_2 by exact Hne. simpl.
      rewrite IH. reflexivity.
Qed.

Lemma set_own_same {V} (fields : list (jsstring * V)) k v :
  get_own fields k = Some v -> set_own fields k v = fields.
Proof.
  induction fields as [|[k0 v0] r IH]; simpl; [discriminate|].
  destruct (decide (k0 = k)) as [->|Hne].
  - rewrite bool_decide_eq_true_2 by reflexivity. intros [= ->]. reflexivity.
  - rewrite bool_decide_eq_false_2 by exact Hne. intros Hr.
    rewrite IH by exact Hr. reflexivity.
Qed.

Lemma get_set_property_eq e k v :
  container e -> get_property (set_property e k v) k = Some v.
Proof. destruct e; simpl; try contradiction; intros _; apply get_set_own_eq. Qed.

Lemma get_set_property_ne e k k' v :
  k' <> k -> get_property (set_property e k v) k' = get_property e k'.
Proof.
  intros Hne. destruct e; simpl; try reflexivity; apply get_set_own_ne, Hne.
Qed.

Lemma set_property_same e k v :
  get_property e k = Some v -> set_property e k v = e.
Proof.
  destruct e; simpl; try discriminate; intros Hg;
    rewrite set_own_same by exact Hg; reflexivity.
Qed.

Lemma set_property_container e k v :
  container e -> container (set_property e k v).
Proof. destruct e; simpl; tauto. Qed.

Lemma set_property_primitive e k v : ~ container e -> set_property e k v = e.
Proof. destruct e; simpl; try reflexivity; intros Hc; destruct Hc; exact I. Qed.

Lemma get_property_primitive e k : ~ container e -> get_property e k = None.
Proof. destruct e; simpl; try reflexivity; intros Hc; destruct Hc; exact I. Qed.

Lemma container_truthy e : container e -> truthy_json (Some e) = true.
Proof. destruct e; simpl; try contradiction; reflexivity. Qed.

Lemma container_dec e : container e \/ ~ container e.
Proof. destruct e; simpl; tauto. Qed.

(** *** The test [v && v.trim() !== ''] *)

Lemma is_empty_false (t : jsstring) : is_empty t = false <-> t <> [].
Proof. destruct t; simpl; split; congruence. Qed.

Lemma is_empty_true (t : jsstring) : is_empty t = true <-> t = [].
Proof. destruct t; simpl; split; congruence. Qed.

Lemma text_test_is_text v text :
  text_test v = is_text text <-> present_and_non_blank v text.
Proof.
  unfold text_test, present_and_non_blank. split.
  - destruct v as [[| | |s| |]|]; try (destruct (truthy_json _); discriminate).
    destruct (is_empty (trim s)) eqn:He; [discriminate|].
    intros [= ->]. split; [reflexivity | apply is_empty_false, He].
  - intros [-> Hnb]. apply is_empty_false in Hnb. rewrite Hnb. reflexivity.
Qed.

Lemma text_test_no_text v : text_test v = no_text <-> absent_or_blank v.
Proof.
  unfold text_test, absent_or_blank. split.
  - destruct v as [[| | |s| |]|];
      try (destruct (truthy_json _) eqn:Ht; [discriminate | left; reflexivity]).
    destruct (is_empty (trim s)) eqn:He; [|discriminate].
    intros _. right. exists s. split; [reflexivity | apply is_empty_true, He].
  - intros [Hf | (text & -> & Hb)].
    + destruct v as [[| | |s| |]|]; try (rewrite Hf; reflexivity).
      simpl in Hf. apply negb_false_iff, is_empty_true in Hf. subst s.
      reflexivity.
    + rewrite Hb. reflexivity.
Qed.

Lemma text_test_throws v : text_test v = trim_throws <-> ~ text_or_nothing v.
Proof.
  unfold text_test, text_or_nothing. split.
  - destruct v as [[| | |s| |]|];
      try (destruct (truthy_json _) eqn:Ht; [|discriminate];
           intros _ Hs; destruct (Hs eq_refl) as [? [=]]).
    destruct (is_empty (trim s)); discriminate.
  - intros Hn. destruct v as [[| | |s| |]|];
      try (destruct (truthy_json _) eqn:Ht; [reflexivity|];
           contradiction Hn; intros [=]).
    contradiction Hn. intros _. exists s. reflexivity.
Qed.

Lemma trim_keeps s c d :
  head s = Some c -> last s = Some d ->
  is_whitespace c = false -> is_whitespace d = false ->
  trim s = s.
Proof.
  intros Hhead Hlast Hc Hd. unfold trim, trimEnd.
  assert (Hstart : trimStart s = s).
  { destruct s as [|c' r]; [discriminate|]. injection Hhead as ->.
    simpl. rewrite Hc. reflexivity. }
  rewrite Hstart. apply last_Some in Hlast as [s' ->].
  rewrite rev_unit. simpl. rewrite Hd. simpl. rewrite rev_involutive.
  reflexivity.
Qed.

(** *** Validation of the model's questions *)

Lemma labels_NoDup : NoDup labels.
Proof. compute_done. Qed.

(** The inner loop and the final assignment, for a fixed correct label. *)
Section FixExplanations.

Variable ca : jsstring.

Lemma fallback_explanation_nonempty : fallback_explanation ca <> [].
Proof. unfold fallback_explanation. simpl. discriminate. Qed.

Lemma fallback_explanation_not_blank : trim (fallback_explanation ca) <> [].
Proof.
  rewrite (trim_keeps _ 84%N 46%N).
  - apply fallback_explanation_nonempty.
  - reflexivity.
  - unfold fallback_explanation. rewrite !last_app. reflexivity.
  - reflexivity.
  - reflexivity.
Qed.

Lemma fill_wrong_lookup_ne e opt e' k :
  fill_wrong ca e opt = Some e' -> k <> opt ->
  get_property e' k = get_property e k.
Proof.
  unfold fill_wrong. destruct (bool_decide _); [intros [= <-]; reflexivity|].
  destruct (text_test _); intros [= <-] Hne;
    [reflexivity | apply get_set_property_ne, Hne].
Qed.

Lemma fill_wrong_container e opt e' :
  fill_wrong ca e opt = Some e' -> container e -> container e'.
Proof.
  unfold fill_wrong. destruct (bool_decide _); [intros [= <-]; tauto|].
  destruct (text_test _); intros [= <-] Hc;
    [exact Hc | apply set_property_container, Hc].
Qed.

Lemma fill_wrong_primitive e opt e' :
  fill_wrong ca e opt = Some e' -> ~ container e -> e' = e.
Proof.
  unfold fill_wrong. destruct (bool_decide _); [intros [= <-]; reflexivity|].
  destruct (text_test _); intros [= <-] Hc;
    [reflexivity | apply set_property_primitive, Hc].
Qed.

Lemma fill_all_notin opts e e' k :
  fill_all ca opts e = Some e' -> k ∉ opts ->
  get_property e' k = get_property e k.
Proof.
  revert e. induction opts as [|o opts IH]; intros e; simpl.
  - intros [= <-]. reflexivity.
  - destruct (fill_wrong ca e o) as [e1|] eqn:H1; [|discriminate].
    intros Hr Hnotin. apply not_elem_of_cons in Hnotin as [Hne Hnotin].
    rewrite (IH _ Hr Hnotin). eapply fill_wrong_lookup_ne; eassumption.
Qed.

Lemma fill_all_container opts e e' :
  fill_all ca opts e = Some e' -> container e -> container e'.
Proof.
  revert e. induction opts as [|o opts IH]; intros e; simpl.
  - intros [= <-]. tauto.
  - destruct (fill_wrong ca e o) as [e1|] eqn:H1; [|discriminate].
    intros Hr Hc. apply (IH _ Hr). eapply fill_wrong_container; eassumption.
Qed.

Lemma fill_all_primitive opts e e' :
  fill_all ca opts e = Some e' -> ~ container e -> e' = e.
Proof.
  revert e. induction opts as [|o opts IH]; intros e; simpl.
  - intros [= <-]. reflexivity.
  - destruct (fill_wrong ca e o) as [e1|] eqn:H1; [|discriminate].
    intros Hr Hc. rewrite (fill_wrong_primitive _ _ _ H1 Hc) in Hr.
    apply (IH _ Hr Hc).
Qed.

(** What the inner loop leaves at a wrong label. *)
Lemma fill_all_lookup opts e e' k :
  NoDup opts -> fill_all ca opts e = Some e' -> container e ->
  k ∈ opts -> k <> ca ->
  match text_test (get_property e k) with
  | is_text _ => get_property e' k = get_property e k
  | no_text => get_property e' k = Some (j_string (fallback_explanation ca))
  | trim_throws => False
  end.
Proof.
  revert e. induction opts as [|o opts IH]; intros e Hnd Hrun Hc Hin Hne.
  - inversion Hin.
  - apply NoDup_cons in Hnd as [Hnotin Hnd]. simpl in Hrun.
    destruct (fill_wrong ca e o) as [e1|] eqn:H1; [|discriminate].
    apply elem_of_cons in Hin as [->|Hin].
    + rewrite (fill_all_notin _ _ _ _ Hrun Hnotin).
      revert H1. unfold fill_wrong.
      rewrite bool_decide_eq_false_2 by exact Hne.
      destruct (text_test (get_property e o)); intros [= <-].
      * reflexivity.
      * apply get_set_property_eq, Hc.
    + assert (Hko : k <> o) by (intros ->; contradiction).
      rewrite <- (fill_wrong_lookup_ne _ _ _ _ H1 Hko).
      apply IH; try assumption.
      eapply fill_wrong_container; eassumption.
Qed.

(** The inner loop changes nothing where every wrong label has a text. *)
Lemma fill_all_fixed opts e :
  (forall l, l ∈ opts -> l <> ca ->
             exists text, text_test (get_property e l) = is_text text) ->
  fill_all ca opts e = Some e.
Proof.
  induction opts as [|o opts IH]; intros Hall; simpl; [reflexivity|].
  assert (H1 : fill_wrong ca e o = Some e).
  { unfold fill_wrong. destruct (decide (o = ca)) as [->|Hne].
    - rewrite bool_decide_eq_true_2 by reflexivity. reflexivity.
    - rewrite bool_decide_eq_false_2 by exact Hne.
      destruct (Hall o) as [text ->]; [left | exact Hne | reflexivity]. }
  rewrite H1. apply IH. intros l Hl. apply Hall. right. exact Hl.
Qed.

Lemma fix_explanations_inv e e' :
  fix_explanations ca e = Some e' ->
  exists e1, fill_all ca labels e = Some e1
             /\ e' = set_property e1 ca (j_string []).
Proof.
  unfold fix_explanations. destruct (fill_all ca labels e) as [e1|];
    [|discriminate].
  intros [= <-]. exists e1. split; reflexivity.
Qed.

Lemma fix_explanations_container e e' :
  fix_explanations ca e = Some e' -> container e -> container e'.
Proof.
  intros (e1 & H1 & ->)%fix_explanations_inv Hc.
  apply set_property_container. eapply fill_all_container; eassumption.
Qed.

Lemma fix_explanations_primitive e e' :
  fix_explanations ca e = Some e' -> ~ container e -> e' = e.
Proof.
  intros (e1 & H1 & ->)%fix_explanations_inv Hc.
  rewrite (fill_all_primitive _ _ _ H1 Hc). apply set_property_primitive, Hc.
Qed.

Lemma fix_explanations_correct e e' :
  fix_explanations ca e = Some e' -> container e ->
  get_property e' ca = Some (j_string []).
Proof.
  intros (e1 & H1 & ->)%fix_explanations_inv Hc.
  apply get_set_property_eq. eapply fill_all_container; eassumption.
Qed.

Lemma fix_explanations_wrong e e' l :
  fix_explanations ca e = Some e' -> container e ->
  l ∈ labels -> l <> ca ->
  match text_test (get_property e l) with
  | is_text _ => get_property e' l = get_property e l
  | no_text => get_property e' l = Some (j_string (fallback_explanation ca))
  | trim_throws => False
  end.
Proof.
  intros (e1 & H1 & ->)%fix_explanations_inv Hc Hin Hne.
  rewrite get_set_property_ne by exact Hne.
  apply (fill_all_lookup labels); try assumption. apply labels_NoDup.
Qed.

Lemma fix_explanations_other e e' k :
  fix_explanations ca e = Some e' -> k ∉ labels -> k <> ca ->
  get_property e' k = get_property e k.
Proof.
  intros (e1 & H1 & ->)%fix_explanations_inv Hk Hne.
  rewrite get_set_property_ne by exact Hne.
  eapply fill_all_notin; eassumption.
Qed.

(** After the loop every wrong label has a text. *)
Lemma fix_explanations_texts e e' l :
  fix_explanations ca e = Some e' -> container e ->
  l ∈ labels -> l <> ca ->
  exists text, present_and_non_blank (get_property e' l) text.
Proof.
  intros Hfix Hc Hin Hne.
  pose proof (fix_explanations_wrong e e' l Hfix Hc Hin Hne) as Hl.
  destruct (text_test (get_property e l)) as [text| |] eqn:Ht.
  - exists text. rewrite Hl. apply text_test_is_text, Ht.
  - exists (fallback_explanation ca). rewrite Hl.
    split; [reflexivity | apply fallback_explanation_not_blank].
  - contradiction.
Qed.

(** The loop is idempotent. *)
Lemma fix_explanations_idem e e' :
  fix_explanations ca e = Some e' -> fix_explanations ca e' = Some e'.
Proof.
  intros Hfix. destruct (container_dec e) as [Hc|Hp].
  - unfold fix_explanations. rewrite fill_all_fixed.
    + rewrite set_property_same; [reflexivity|].
      eapply fix_explanations_correct; eassumption.
    + intros l Hl Hne.
      destruct (fix_explanations_texts e e' l Hfix Hc Hl Hne) as [text Ht].
      exists text. apply text_test_is_text, Ht.
  - pose proof (fix_explanations_primitive _ _ Hfix Hp) as ->. exact Hfix.
Qed.

End FixExplanations.

Lemma validate_question_inv index q q' :
  validate_question index q = inr q' ->
  exists ca e e' options,
    Question.correct_answer q = Some ca
    /\ ca ∈ labels
    /\ Question.explanations q = Some e
    /\ Question.options q = Some options
    /\ missing_required q = false
    /\ fix_explanations ca e = Some e'
    /\ q' = set_explanations q (Some e').
Proof.
  unfold validate_question.
  destruct (missing_required q) eqn:Hmiss; [discriminate|].
  destruct (is_label (Question.correct_answer q)) eqn:Hlab; [|discriminate].
  simpl. unfold is_label in Hlab.
  destruct (Question.correct_answer q) as [ca|] eqn:Hca; [|discriminate].
  apply bool_decide_eq_true_1 in Hlab.
  pose proof Hmiss as Hmiss'.
  unfold missing_required in Hmiss. rewrite !orb_false_iff in Hmiss.
  destruct Hmiss as ((((_ & Ho) & _) & He) & _).
  apply negb_false_iff in He.
  apply negb_false_iff, bool_decide_eq_true_1 in Ho. destruct Ho as [o Ho].
  destruct (Question.explanations q) as [e|] eqn:Hexp; [|discriminate].
  destruct (fix_explanations ca e) as [e'|] eqn:Hfix; [|discriminate].
  intros [= <-]. exists ca, e, e', o. repeat split; assumption.
Qed.

(** A question whose explanations are an object leaves the loop with
    its explanations filled in and complete. *)
Lemma validate_question_object index q q' :
  validate_question index q = inr q' -> explanations_object q ->
  explanations_filled q q' /\ explanations_complete q'.
Proof.
  intros (ca & e & e' & o & Hca & Hlab & He & _ & _ & Hfix & ->)%validate_question_inv
         [fields Hf].
  rewrite He in Hf. injection Hf as ->.
  assert (Hc : container (j_object fields)) by exact I.
  pose proof (fix_explanations_container ca _ _ Hfix Hc) as Hc'.
  assert (Hobj : exists fields', e' = j_object fields').
  { apply fix_explanations_inv in Hfix as (e1 & H1 & ->).
    assert (He1 : exists f1, e1 = j_object f1).
    { clear -H1. revert H1. generalize labels. intros opts.
      revert fields. induction opts as [|o opts IH]; intros fields; simpl.
      - intros [= <-]. eexists; reflexivity.
      - unfold fill_wrong. destruct (bool_decide _); [apply IH|].
        destruct (text_test _); [apply IH | apply IH | discriminate]. }
    destruct He1 as [f1 ->]. eexists; reflexivity. }
  destruct Hobj as [fields' ->]. split.
  - exists ca, fields, fields'. split; [exact Hca|]. split; [exact He|].
    split; [reflexivity|]. split.
    + intros k Hk.
      apply (fix_explanations_other ca _ _ k Hfix Hk).
      intros ->. contradiction.
    + intros l Hl Hne.
      pose proof (fix_explanations_wrong ca _ _ l Hfix Hc Hl Hne) as Hw.
      simpl in Hw.
      destruct (text_test (get_own fields l)) as [text| |] eqn:Ht.
      * left. exists text. split; [apply text_test_is_text, Ht|].
        rewrite Hw. apply text_test_is_text in Ht as [-> _]. reflexivity.
      * right. split; [apply text_test_no_text, Ht | exact Hw].
      * contradiction.
  - exists ca, (j_object fields'). cbn. split; [exact Hca|].
    split; [exact Hlab|]. split; [reflexivity|]. split.
    + apply (fix_explanations_correct ca _ _ Hfix Hc).
    + intros l Hl Hne.
      destruct (fix_explanations_texts ca _ _ l Hfix Hc Hl Hne)
        as (text & Ht & Hnb).
      exists text. split; [exact Ht|]. intros ->. apply Hnb. reflexivity.
Qed.

(** A question whose explanations are a string, a number or [true]
    leaves the loop as it came, with no explanation at any label. *)
Lemma validate_question_primitive index q q' e :
  validate_question index q = inr q' ->
  Question.explanations q = Some e -> ~ container e ->
  q' = q /\ ~ explanations_complete q'.
Proof.
  intros (ca & e0 & e' & o & Hca & Hlab & He & _ & _ & Hfix & ->)%validate_question_inv
         He' Hp.
  rewrite He in He'. injection He' as ->.
  rewrite (fix_explanations_primitive ca _ _ Hfix Hp).
  assert (Hq : set_explanations q (Some e) = q).
  { destruct q; cbn in *. subst. reflexivity. }
  rewrite Hq. split; [reflexivity|].
  intros (ca' & e1 & _ & _ & He1 & Hzero & _).
  rewrite He in He1. injection He1 as <-.
  rewrite get_property_primitive in Hzero by exact Hp. discriminate.
Qed.

Lemma validate_element_inv index el q' :
  validate_element index el = inr q' ->
  exists q, el = object_element q /\ validate_question index q = inr q'.
Proof.
  destruct el as [| |q]; simpl; try discriminate.
  intros Hv. exists q. split; [reflexivity | exact Hv].
Qed.

Lemma validate_elements_inv index els qs' :
  validate_elements index els = inr qs' ->
  Forall2 (fun el q' => exists i q, el = object_element q
                                    /\ validate_question i q = inr q')
          els qs'.
Proof.
  revert index qs'. induction els as [|el els IH]; intros index qs'; simpl.
  - intros [= <-]. constructor.
  - destruct (validate_element index el) as [?|q'] eqn:Hq; [discriminate|].
    destruct (validate_elements (S index) els) as [?|r'] eqn:Hr; [discriminate|].
    intros [= <-]. constructor; [|eapply IH, Hr].
    destruct (validate_element_inv _ _ _ Hq) as (q & -> & Hv).
    exists index, q. split; [reflexivity | exact Hv].
Qed.

Lemma validate_response_inv p qs' :
  validate_response p = inr qs' ->
  exists els, p = parsed_array els /\ els <> [] /\ qs' <> []
              /\ Forall2 (fun el q' => exists i q, el = object_element q
                                       /\ validate_question i q = inr q')
                         els qs'.
Proof.
  destruct p as [m| |els]; simpl; try discriminate.
  destruct els as [|el els]; [discriminate|].
  intros Hv. exists (el :: els). split; [reflexivity|]. split; [discriminate|].
  pose proof (validate_elements_inv 0 _ _ Hv) as Hall.
  split; [|exact Hall]. inversion Hall. discriminate.
Qed.

(** What a successful generation tells about the request and does to
    the quiz collection. *)
Lemma generate_quiz_inv db s lectureId now ai created r db' :
  generate_quiz db s lectureId now ai created = (generated_json r, db') ->
  exists generatedQuiz quiz,
    ai = api_response (parsed_array generatedQuiz)
    /\ quizCollection db' = quizCollection db ++ [quiz]
    /\ Quiz._id quiz = Generated.quizId r
    /\ Quiz.lectureId quiz = lectureId
    /\ Generated.totalQuestions r = Z.of_nat (length (Quiz.questions quiz))
    /\ Generated.explanationsGenerated r = true
    /\ Quiz.questions quiz <> []
    /\ Forall2 (fun el q' => exists i q, el = object_element q
                                         /\ validate_question i q = inr q')
               generatedQuiz (Quiz.questions quiz).
Proof.
  unfold generate_quiz.
  destruct (findLecture db lectureId) as [lecture|]; [|discriminate].
  destruct (_ && _); [discriminate|].
  destruct (findQuizOfLecture db lectureId); [discriminate|].
  destruct (too_short _); [discriminate|].
  destruct ai as [m|p].
  { destruct (_ || _); discriminate. }
  destruct (validate_response p) as [m|qs'] eqn:Hv; [discriminate|].
  destruct created as [newId|m]; [|discriminate].
  intros [= <- <-].
  destruct (validate_response_inv _ _ Hv) as (els & -> & _ & Hne & Hall).
  eexists els, _. split; [reflexivity|]. split; [reflexivity|].
  cbn. repeat split; assumption.
Qed.

(** C4.  The validation loop lets through explanations that are not an
    object.  The model answers lecture 5 with one question whose
    [explanations] is the string "see the lecture"; the loop's
    assignments to the properties of that string are dropped, the
    request succeeds and reports [explanationsGenerated], and the
    stored question has no explanation at any of the four labels: not a
    text at A, C and D, and not the empty string at the correct label
    B.  The invariant of the specification does not hold of it. *)
Theorem C4_explanations_that_are_no_object_pass_validation :
  exists r db' quiz q,
    generate_quiz Ex.db Ex.prof 5 20
      (api_response (parsed_array [object_element Ex.lazy_question]))
      (inserted 8)
    = (generated_json r, db')
    /\ Generated.explanationsGenerated r = true
    /\ findQuiz db' 8 = Some quiz
    /\ Quiz.questions quiz = [q]
    /\ Question.correct_answer q = Some (lit "B")
    /\ Question.explanations q = Some (j_string (lit "see the lecture"))
    /\ stored_explanation q LA = None
    /\ stored_explanation q LB = None
    /\ stored_explanation q LC = None
    /\ stored_explanation q LD = None
    /\ ~ explanations_complete q.
Proof.
  eexists _, _, _, _. split; [vm_compute; reflexivity|].
  split; [reflexivity|]. split; [vm_compute; reflexivity|].
  split; [reflexivity|]. repeat (split; [reflexivity|]).
  intros (ca & e & _ & _ & He & Hzero & _).
  injection He as <-. discriminate Hzero.
Qed.

Lemma find_app_None {X} (f : X -> bool) l l' :
  find f l = None -> find f (l ++ l') = find f l'.
Proof.
  induction l as [|x l IH]; simpl; [reflexivity|].
  destruct (f x); [discriminate | exact IH].
Qed.

(** X4.  After a successful generation a second request for the same lecture
    by the same requester is the conflict, and changes nothing. *)
Lemma generate_quiz_twice db s lectureId now ai created r db'
    now2 ai2 created2 :
  generate_quiz db s lectureId now ai created = (generated_json r, db') ->
  generate_quiz db' s lectureId now2 ai2 created2
  = (failure 400 (lit "Quiz already generated for this lecture"), db').
Proof.
  unfold generate_quiz at 1.
  destruct (findLecture db lectureId) as [lecture|] eqn:Hl; [|discriminate].
  destruct (_ && _) eqn:Hown; [discriminate|].
  destruct (findQuizOfLecture db lectureId) eqn:Hnone; [discriminate|].
  destruct (too_short _); [discriminate|].
  destruct ai as [m|p].
  { destruct (_ || _); discriminate. }
  destruct (validate_response p) as [m|qs']; [discriminate|].
  destruct created as [newId|m]; [|discriminate].
  intros [= <- <-]. unfold generate_quiz.
  rewrite findLecture_update by reflexivity.
  unfold findLecture at 1. simpl lectureCollection.
  rewrite update_by_id_find by reflexivity.
  fold (findLecture db lectureId). rewrite Hl. simpl.
  rewrite Hown.
  unfold findQuizOfLecture in *. simpl quizCollection.
  rewrite find_app_None by exact Hnone. simpl.
  rewrite Nat.eqb_refl. reflexivity.
Qed.

(** ** Explanation lookup *)

Lemma get_explanation_question db s quizId i w quiz q :
  userType s = student ->
  findQuiz db quizId = Some quiz ->
  question_at (Quiz.questions quiz) i = Some q ->
  get_explanation db s quizId i w
  = let thrown (message : jsstring) :=
      (failure 500 (lit "Failed to retrieve explanation: " ++ message), db) in
    let answer (explanation : gmap jsstring jsstring -> jsstring)
               (explanationType : string) (hasCorrectExplanation : bool) :=
      match Question.options q with
      | None => thrown (cannot_read_of_undefined
                          (interp (Question.correct_answer q)))
      | Some options =>
        (explained_json
           {| Explained.explanation := explanation options;
              Explained.explanationType := explanationType;
              Explained.correctAnswer := Question.correct_answer q;
              Explained.correctOption :=
                options !! interp (Question.correct_answer q);
              Explained.wrongOption := options !! label_str w;
              Explained.hasDetailedExplanations :=
                has_keys (Question.explanations q);
              Explained.hasCorrectExplanation := hasCorrectExplanation |},
         db)
      end in
    match text_test (stored_explanation q w),
          text_test (Question.correctAnswerExplanation q) with
    | trim_throws, _ =>
      thrown (trim_is_not_a_function "question.explanations[wrongAnswer]")
    | _, trim_throws =>
      thrown (trim_is_not_a_function "question.correctAnswerExplanation")
    | is_text explanation, is_text c =>
      answer (fun _ => explanation
                       ++ why_correct (Question.correct_answer q) ++ c)
             "detailed"%string true
    | is_text explanation, no_text =>
      answer (fun _ => explanation) "detailed"%string false
    | no_text, is_text c =>
      answer (fun options =>
                lit "The correct answer is "
                ++ interp (Question.correct_answer q)
                ++ lit ") "
                ++ interp (options !! interp (Question.correct_answer q))
                ++ lit "." ++ [10; 10]%N ++ c)
             "basic"%string true
    | no_text, no_text =>
      answer (fun options =>
                lit "The correct answer is "
                ++ interp (Question.correct_answer q)
                ++ lit ") "
                ++ interp (options !! interp (Question.correct_answer q))
                ++ lit ". Please review the lecture material for detailed understanding.")
             "basic"%string false
    end.
Proof.
  intros Hs Hq Hi. unfold get_explanation. rewrite Hs, Hq, Hi. reflexivity.
Qed.



(** ** The properties at the worked database *)

(** The scenario of the specification: ten questions, answers B for
    question 0 (correct) and A for question 1 (whose key is C). *)
Example scenario_one_of_ten :
  exists r db',
    submit_quiz Ex.db Ex.alice 7 [Ex.answer 0 LB; Ex.answer 1 LA] 90 40
                (inserted 31) = (scored_json r, db')
    /\ Scored.score r = 1 /\ Scored.totalQuestions r = 10
    /\ Scored.percentage r = 10%float.
Proof. eexists _, _. split; [reflexivity|]. vm_compute. auto. Qed.

Example scenario_short_text :
  exists db' l,
    generate_quiz Ex.db Ex.prof 4 20 (api_error []) (inserted 8)
    = (failure 400 (lit "Extracted text is too short or missing for quiz generation."), db')
    /\ findLecture db' 4 = Some l
    /\ Lecture.processingStatus l = failed
    /\ quizCollection db' = quizCollection Ex.db.
Proof. eexists _, _. split; [reflexivity|]. vm_compute. auto. Qed.

(** The stored explanations of a validated question: the model's text
    for A, the empty string for the correct label B, the fallback for
    the blank C and the missing D. *)
Example scenario_validation :
  validate_questions 0 [Ex.model_question LB] = inr [Ex.stored_question LB]
  /\ stored_explanation (Ex.stored_question LB) LA
     = Some (j_string (lit "The mitochondrion makes ATP."))
  /\ stored_explanation (Ex.stored_question LB) LB = Some (j_string [])
  /\ stored_explanation (Ex.stored_question LB) LC
     = Some (j_string (lit "This option is incorrect. The correct answer is B. Please review the lecture material for more details."))
  /\ stored_explanation (Ex.stored_question LB) LD
     = Some (j_string (lit "This option is incorrect. The correct answer is B. Please review the lecture material for more details.")).
Proof. vm_compute. auto 6. Qed.

(** What the loop throws besides its own two errors: a [null] element
    and a number where the explanation of a wrong option should be end
    the loop with a [TypeError]; the entry of the correct label is
    never tested. *)
Example scenario_type_errors :
  validate_elements 0 [object_element (Ex.model_question LB); null_element]
  = inl (lit "Cannot read properties of null (reading 'question')")
  /\ validate_questions 0
       [set_explanations (Ex.model_question LB)
          (Some (j_object [(lit "A", j_number 5)]))]
     = inl (lit "q.explanations[option].trim is not a function")
  /\ exists qs,
      validate_questions 0
        [set_explanations (Ex.model_question LA)
           (Some (j_object [(lit "A", j_number 5)]))]
      = inr qs.
Proof. split; [reflexivity|]. split; [reflexivity|]. eexists. reflexivity. Qed.

Lemma C1_witness :
  exists r db',
    submit_quiz Ex.db Ex.alice 7 [Ex.answer 0 LB; Ex.answer 1 LA; Ex.answer 12 LA]
                90 40 (inserted 31) = (scored_json r, db')
    /\ Scored.score r
       = spec_score Ex.quiz7 [Ex.answer 0 LB; Ex.answer 1 LA; Ex.answer 12 LA].
Proof.
  destruct (C1_score_is_count_of_correct_answers Ex.db Ex.alice 7%nat
              [Ex.answer 0 LB; Ex.answer 1 LA; Ex.answer 12 LA] 90 40 31%nat
              Ex.quiz7)
    as (r & db' & Hrun & Hscore & _).
  - reflexivity.
  - reflexivity.
  - intros c Hc. vm_compute in Hc. injection Hc as <-. vm_compute. eauto.
  - reflexivity.
  - exists r, db'. split; assumption.
Defined.

Lemma C2_witness :
  exists payload,
    api_quiz Ex.db Ex.alice 7 = (quiz_json payload, Ex.db)
    /\ Forall (fun o => keys o = ["question"; "options"]%string)
              (QuizPayload.questions payload).
Proof.
  destruct (C2_questions_are_sanitized Ex.db Ex.alice 7%nat Ex.quiz7)
    as (payload & Hrun & Hall); [reflexivity | reflexivity |].
  exists payload. split; [exact Hrun|].
  induction Hall as [|q o qs os Hqo _ IH]; constructor; [apply Hqo | exact IH].
Defined.

Lemma C3_witness :
  generate_quiz Ex.db Ex.prof 3 20 (api_error []) (inserted 8)
  = (failure 400 (lit "Quiz already generated for this lecture"), Ex.db).
Proof.
  apply (proj2 (C3_at_most_one_quiz_per_lecture Ex.db Ex.prof 3%nat 20
                  (api_error []) (inserted 8) Ex.quiz7 eq_refl) Ex.lecture3).
  - reflexivity.
  - intros _. reflexivity.
Defined.

Lemma C5_witness :
  submit_quiz Ex.db Ex.carol 7 [Ex.answer 0 LB] 90 40 (inserted 31)
  = (failure 400 (lit "You have already submitted this quiz."), Ex.db).
Proof.
  apply (proj2 (C5_duplicate_submission_rejected Ex.db Ex.carol 7%nat
                  [Ex.answer 0 LB] 90 40 (inserted 31) Ex.carols_result
                  eq_refl) Ex.quiz7).
  - reflexivity.
  - reflexivity.
  - intros c Hc. vm_compute in Hc. injection Hc as <-. vm_compute. eauto.
Defined.

Lemma C7_witness :
  exists db' lecture',
    generate_quiz Ex.db Ex.prof 4 20 (api_error []) (inserted 8)
    = (failure 400 (lit "Extracted text is too short or missing for quiz generation."),
       db')
    /\ quizCollection db' = quizCollection Ex.db
    /\ findLecture db' 4 = Some lecture'
    /\ Lecture.processingStatus lecture' = failed.
Proof.
  destruct (C7_short_text_fails_generation Ex.db Ex.prof 4%nat 20
              (api_error []) (inserted 8) Ex.lecture4)
    as (db' & l' & Hrun & Hq & _ & _ & _ & Hl & Hst & _).
  - reflexivity.
  - intros _. reflexivity.
  - reflexivity.
  - right. eexists. split; [reflexivity|]. vm_compute. lia.
  - exists db', l'. repeat split; assumption.
Defined.


Lemma C9_witness :
  score (score_answers Ex.quiz7 (repeat (Ex.answer 0 LB) 25)) = 25.
Proof.
  apply (proj1 C9_score_counts_repeated_answers Ex.quiz7 (Ex.answer 0 LB)
           (Ex.stored_question LB) [] 25%nat); reflexivity.
Defined.

Lemma C10_witness :
  findEnrollment Ex.db (userId Ex.bob) 1 = None
  /\ exists payload,
      api_quiz Ex.db Ex.bob 7 = (quiz_json payload, Ex.db)
      /\ length (QuizPayload.questions payload) = 10%nat.
Proof.
  split; [reflexivity|].
  eexists. split.
  - apply (C10_questions_endpoint_has_no_gate Ex.db Ex.bob 7%nat Ex.quiz7);
      reflexivity.
  - reflexivity.
Defined.

(** ** Enrollment gating *)

(** Where the gate holds: the submit route, and the page route when the
    query names no class, refuse a student who has no active enrollment
    in the quiz's class, and leave the database as it was. *)
Lemma enrollment_gate_without_query
    db s quizId quiz c answers t now created :
  userType s = student ->
  findQuiz db quizId = Some quiz ->
  Quiz.classId quiz = Some c ->
  findEnrollment db (userId s) c = None ->
  take_quiz db s quizId None
  = (send 403 (lit "You are not enrolled in this class."), db)
  /\ submit_quiz db s quizId answers t now created
     = (failure 403 (lit "You are not enrolled in the class for this quiz."), db).
Proof.
  intros Hs Hq Hc Hnone. split.
  - eapply take_quiz_not_enrolled; eassumption.
  - eapply submit_quiz_not_enrolled; eassumption.
Qed.

(** Where it does not: the page route checks the class named in the
    query, when there is one, instead of the quiz's class.  A student
    enrolled in any class [c'] gets the page of a quiz of a class [c]
    they are not enrolled in by sending [?classId=c']. *)
Lemma take_quiz_checks_query_class db s quizId quiz c' e :
  userType s = student ->
  findQuiz db quizId = Some quiz ->
  findEnrollment db (userId s) c' = Some e ->
  findResult db quizId (userId s) = None ->
  exists page,
    take_quiz db s quizId (Some c') = (render_takeQuiz page, db)
    /\ TakeQuizPage._id page = Quiz._id quiz
    /\ TakeQuizPage.classId page = Quiz.classId quiz.
Proof.
  intros Hs Hq He Hres. unfold take_quiz. rewrite Hs, Hq, He, Hres.
  rewrite bool_decide_eq_true_2 by (eexists; reflexivity). simpl.
  eexists. split; [reflexivity|]. split; reflexivity.
Qed.

(** C6, at the input where the code departs from it.  Quiz 7 belongs to
    class 1, in which Bob has no active enrollment; Bob is enrolled in
    class 2.  The submit route refuses him, and so does the page route
    when the query names no class; with [?classId=2] the page route
    renders the quiz page for him. *)
Theorem C6_page_route_checks_the_query_class :
  Quiz.classId Ex.quiz7 = Some 1%nat
  /\ findEnrollment Ex.db (userId Ex.bob) 1 = None
  /\ submit_quiz Ex.db Ex.bob 7 [Ex.answer 0 LB] 90 40 (inserted 31)
     = (failure 403 (lit "You are not enrolled in the class for this quiz."),
        Ex.db)
  /\ take_quiz Ex.db Ex.bob 7 None
     = (send 403 (lit "You are not enrolled in this class."), Ex.db)
  /\ take_quiz Ex.db Ex.bob 7 (Some 2%nat)
     = (render_takeQuiz
          {| TakeQuizPage._id := 7;
             TakeQuizPage.lectureTitle := lit "Cells";
             TakeQuizPage.totalQuestions := 10;
             TakeQuizPage.classId := Some 1%nat;
             TakeQuizPage.className := Some (lit "Biology");
             TakeQuizPage.classSubject := Some (lit "Science");
             TakeQuizPage.userName := lit "Bob";
             TakeQuizPage.classContext := true |},
        Ex.db).
Proof. repeat split; reflexivity. Qed.

(** * Further properties *)

(** ** The tally of a submission *)

Lemma score_answer_consistent quiz acc a :
  tally_consistent quiz acc -> tally_consistent quiz (score_answer quiz acc a).
Proof.
  intros (Hscore & Hkey & Hsame). unfold score_answer.
  destruct (question_at _ _) as [q|] eqn:Hq; [|repeat split; assumption].
  repeat split; cbn [score detailedAnswers enhancedQuestionDetails].
  - rewrite List.filter_app, length_app. cbn [List.filter DetailedAnswer.isCorrect].
    destruct (strict_eq _ _); cbn [length]; lia.
  - apply Forall_app. split; [exact Hkey|]. constructor; [|constructor].
    exists q. repeat split. exact Hq.
  - apply Forall2_app; [exact Hsame|]. constructor; [|constructor].
    repeat split.
Qed.

Lemma fold_consistent quiz answers acc :
  tally_consistent quiz acc ->
  tally_consistent quiz (fold_left (score_answer quiz) answers acc).
Proof.
  revert acc. induction answers as [|a answers IH]; intros acc Hacc; simpl.
  - exact Hacc.
  - apply IH, score_answer_consistent, Hacc.
Qed.

Lemma fold_detail_indices quiz answers acc :
  map DetailedAnswer.questionIndex
      (detailedAnswers (fold_left (score_answer quiz) answers acc))
  = map DetailedAnswer.questionIndex (detailedAnswers acc)
    ++ map Answer.questionIndex (filter (in_range quiz) answers).
Proof.
  revert acc. induction answers as [|a answers IH]; intros acc; simpl.
  - symmetry. apply app_nil_r.
  - rewrite IH, filter_cons. unfold score_answer.
    destruct (decide (in_range quiz a)) as [Hin|Hout].
    + destruct (question_at_in_range _ _ Hin) as [q Hq]. rewrite Hq.
      cbn [detailedAnswers]. rewrite map_app, <- app_assoc. reflexivity.
    + rewrite question_at_None by exact Hout. reflexivity.
Qed.

Lemma score_answers_consistent quiz answers :
  let t := score_answers quiz answers in
  score t
  = Z.of_nat (length (List.filter DetailedAnswer.isCorrect (detailedAnswers t)))
  /\ map DetailedAnswer.questionIndex (detailedAnswers t)
     = map Answer.questionIndex (filter (in_range quiz) answers)
  /\ Forall (detail_matches_key quiz) (detailedAnswers t)
  /\ Forall2 same_answer (detailedAnswers t) (enhancedQuestionDetails t)
  /\ 0 <= score t <= Z.of_nat (length (detailedAnswers t))
  /\ (length (detailedAnswers t) <= length answers)%nat.
Proof.
  intros t.
  assert (Hcons : tally_consistent quiz t).
  { apply fold_consistent. repeat split; constructor. }
  assert (Hidx := fold_detail_indices quiz answers tally0).
  fold (score_answers quiz answers) in Hidx. fold t in Hidx. simpl in Hidx.
  destruct Hcons as (Hscore & Hkey & Hsame).
  split; [exact Hscore|]. split; [exact Hidx|].
  split; [exact Hkey|]. split; [exact Hsame|].
  assert (Hlen : length (detailedAnswers t)
                 = length (filter (in_range quiz) answers)).
  { rewrite <- (length_map DetailedAnswer.questionIndex), Hidx.
    apply length_map. }
  split.
  - rewrite Hscore. split; [lia|].
    apply inj_le, List.filter_length_le.
  - rewrite Hlen. apply length_filter.
Qed.

Lemma NoDup_bounded_length (l : list Z) (n : nat) :
  NoDup l -> (forall x, x ∈ l -> 0 <= x < Z.of_nat n) -> (length l <= n)%nat.
Proof.
  intros Hnd Hb.
  assert (Hsub : Z.to_nat <$> l ⊆+ seq 0 n).
  { apply NoDup_submseteq.
    - apply NoDup_fmap_2_strong; [|exact Hnd].
      intros x y Hx Hy Heq. apply Hb in Hx, Hy. lia.
    - intros k Hk. apply list_elem_of_fmap in Hk as (x & -> & Hx).
      apply Hb in Hx. apply elem_of_seq. lia. }
  apply submseteq_length in Hsub.
  rewrite length_fmap, length_seq in Hsub. exact Hsub.
Qed.

(** X1.  What is stored with a result hangs together: the score is the
    number of stored answer records flagged correct; there is one
    record, in submission order, for each submitted answer whose index
    is in range; each record carries the key of the question at its
    index and is flagged correct exactly when the selected option is
    that key; and the records sent back to the student describe the
    same answers. *)
Theorem tally_is_consistent quiz answers :
  let t := score_answers quiz answers in
  score t
  = Z.of_nat (length (List.filter DetailedAnswer.isCorrect (detailedAnswers t)))
  /\ map DetailedAnswer.questionIndex (detailedAnswers t)
     = map Answer.questionIndex (filter (in_range quiz) answers)
  /\ Forall (detail_matches_key quiz) (detailedAnswers t)
  /\ Forall2 same_answer (detailedAnswers t) (enhancedQuestionDetails t)
  /\ 0 <= score t <= Z.of_nat (length (detailedAnswers t))
  /\ (length (detailedAnswers t) <= length answers)%nat.
Proof. apply score_answers_consistent. Qed.

(** X2.  With one answer per question the score cannot exceed the number of
    questions: if no two submitted answers carry the same
    [questionIndex], the score is at most the number of stored
    questions. *)
Theorem score_bounded_by_questions quiz answers :
  NoDup (map Answer.questionIndex answers) ->
  score (score_answers quiz answers)
  <= Z.of_nat (length (Quiz.questions quiz)).
Proof.
  intros Hnd.
  destruct (score_answers_consistent quiz answers)
    as (_ & Hidx & _ & _ & Hle & _).
  etransitivity; [apply Hle|]. apply inj_le.
  rewrite <- (length_map DetailedAnswer.questionIndex), Hidx.
  apply NoDup_bounded_length.
  - change (NoDup (Answer.questionIndex <$> filter (in_range quiz) answers)).
    apply (sublist_NoDup _ (Answer.questionIndex <$> answers)); [exact Hnd|].
    apply fmap_sublist, sublist_filter.
  - intros x Hx.
    change (x ∈ Answer.questionIndex <$> filter (in_range quiz) answers) in Hx.
    apply list_elem_of_fmap in Hx as (a & -> & Ha).
    apply list_elem_of_filter in Ha as [Ha _]. exact Ha.
Qed.

Lemma score_bounded_by_questions_witness :
  score (score_answers Ex.quiz7 [Ex.answer 0 LB; Ex.answer 1 LC; Ex.answer 40 LA])
  <= 10.
Proof.
  apply (score_bounded_by_questions Ex.quiz7
           [Ex.answer 0 LB; Ex.answer 1 LC; Ex.answer 40 LA]).
  compute_done.
Defined.

(** ** One attempt, sequentially *)

(** What a successful submission tells about the request and does to
    the database. *)
Lemma submit_quiz_inv db s quizId answers t now created r db' :
  submit_quiz db s quizId answers t now created = (scored_json r, db') ->
  exists quiz res,
    userType s = student
    /\ findQuiz db quizId = Some quiz
    /\ enrollment_ok db s quiz
    /\ findResult db quizId (userId s) = None
    /\ created = inserted (Scored.quizResultId r)
    /\ QuizResult.quizId res = quizId
    /\ QuizResult.studentId res = userId s
    /\ QuizResult.lectureId res = Quiz.lectureId quiz
    /\ QuizResult.submissionDate res = now
    /\ db' = {| lectureCollection := lectureCollection db;
                quizCollection := quizCollection db;
                quizResultCollection := quizResultCollection db ++ [res];
                classCollection := classCollection db;
                classStudentCollection := classStudentCollection db |}.
Proof.
  unfold submit_quiz.
  destruct (userType s) eqn:Hs; try discriminate.
  destruct (findQuiz db quizId) as [quiz|] eqn:Hq; [|discriminate].
  destruct (negb _) eqn:Henr; [discriminate|].
  destruct (findResult db quizId (userId s)) eqn:Hres; [discriminate|].
  destruct created as [newId|m]; [|discriminate].
  intros [= <- <-]. eexists quiz, _.
  split; [reflexivity|]. split; [reflexivity|]. split.
  { intros c Hc. rewrite Hc in Henr. apply negb_false_iff in Henr.
    apply bool_decide_eq_true_1 in Henr. exact Henr. }
  repeat split; reflexivity.
Qed.

Lemma find_app_Some {X} (f : X -> bool) l l' x :
  find f l = Some x -> find f (l ++ l') = Some x.
Proof.
  induction l as [|y l IH]; simpl; [discriminate|].
  destruct (f y); [trivial | exact IH].
Qed.

Lemma submit_quiz_then db s quizId answers t now created r db' :
  submit_quiz db s quizId answers t now created = (scored_json r, db') ->
  exists quiz res,
    userType s = student
    /\ findQuiz db' quizId = Some quiz
    /\ enrollment_ok db' s quiz
    /\ findResult db' quizId (userId s) = Some res
    /\ quizResultCollection db' = quizResultCollection db ++ [res].
Proof.
  intros Hrun.
  destruct (submit_quiz_inv _ _ _ _ _ _ _ _ _ Hrun)
    as (quiz & res & Hs & Hq & Henr & Hnone & _ & Hrq & Hrs & _ & _ & ->).
  exists quiz, res. repeat split; try assumption.
  unfold findResult in *. cbn [quizResultCollection].
  rewrite find_app_None by exact Hnone. simpl.
  rewrite Hrq, Hrs, !Nat.eqb_refl. reflexivity.
Qed.

(** X3.  A student gets one attempt: after a submission has been scored, any
    further submission by the same session for the same quiz is refused
    as a duplicate, the page route redirects to "already taken", and
    neither changes the database. *)
Theorem second_attempt_is_refused
    db s quizId answers t now created r db' answers2 t2 now2 created2 :
  submit_quiz db s quizId answers t now created = (scored_json r, db') ->
  submit_quiz db' s quizId answers2 t2 now2 created2
  = (failure 400 (lit "You have already submitted this quiz."), db')
  /\ take_quiz db' s quizId None
     = (redirect_already_taken (Scored.quizTitle r), db').
Proof.
  intros Hrun.
  destruct (submit_quiz_then _ _ _ _ _ _ _ _ _ Hrun)
    as (quiz & res & Hs & Hq & Henr & Hres & _).
  split.
  - eapply submit_quiz_duplicate; eassumption.
  - rewrite (take_quiz_already_taken db' s quizId quiz res) by assumption.
    destruct (submit_quiz_inv _ _ _ _ _ _ _ _ _ Hrun)
      as (quiz0 & res0 & _ & Hq0 & _ & _ & _ & _ & _ & _ & _ & ->).
    unfold findQuiz in Hq, Hq0. cbn [quizCollection] in Hq.
    rewrite Hq0 in Hq. injection Hq as <-.
    revert Hrun. unfold submit_quiz. rewrite Hs. fold (findQuiz db quizId).
    unfold findQuiz. rewrite Hq0.
    destruct (negb _); [discriminate|].
    destruct (findResult db quizId (userId s)); [discriminate|].
    destruct created; [|discriminate].
    intros [= <- _]. reflexivity.
Qed.

Lemma second_attempt_is_refused_witness :
  let db' := snd (submit_quiz Ex.db Ex.alice 7 [Ex.answer 0 LB] 90 40
                              (inserted 31)) in
  submit_quiz db' Ex.alice 7 [Ex.answer 0 LB; Ex.answer 1 LC] 95 50
              (inserted 32)
  = (failure 400 (lit "You have already submitted this quiz."), db').
Proof.
  intros db'.
  refine (proj1 (second_attempt_is_refused Ex.db Ex.alice 7%nat
                   [Ex.answer 0 LB] 90 40 (inserted 31)
                   (match fst (submit_quiz Ex.db Ex.alice 7 [Ex.answer 0 LB]
                                           90 40 (inserted 31)) with
                    | scored_json r => r
                    | _ => {| Scored.message := []; Scored.score := 0;
                              Scored.totalQuestions := 0;
                              Scored.percentage := 0%float;
                              Scored.timeTakenSeconds := 0;
                              Scored.quizResultId := 0;
                              Scored.lectureId := 0; Scored.classId := None;
                              Scored.className := None; Scored.quizTitle := [];
                              Scored.questionDetails := []; Scored.quizId := 0 |}
                    end)
                   db' [Ex.answer 0 LB; Ex.answer 1 LC] 95 50 (inserted 32) _)).
  vm_compute. reflexivity.
Defined.

(** ** Generation, whatever the model does *)

Lemma generate_quiz_twice_witness :
  generate_quiz (snd Ex.generation) Ex.prof 5 21
                (api_response (parsed_array [object_element (Ex.model_question LC)]))
                (inserted 9)
  = (failure 400 (lit "Quiz already generated for this lecture"),
     snd Ex.generation).
Proof.
  apply (generate_quiz_twice Ex.db Ex.prof 5%nat 20
           (api_response (parsed_array [object_element (Ex.model_question LB)]))
           (inserted 8)
           Ex.generation_report (snd Ex.generation)).
  vm_compute. reflexivity.
Defined.

Lemma update_by_id_find_ne id id' f ls :
  id' <> id ->
  (forall l, Lecture._id (f l) = Lecture._id l) ->
  find (fun l => Nat.eqb (Lecture._id l) id') (update_by_id id f ls)
  = find (fun l => Nat.eqb (Lecture._id l) id') ls.
Proof.
  intros Hne Hid. induction ls as [|l ls IH]; simpl; [reflexivity|].
  destruct (Nat.eqb (Lecture._id l) id) eqn:Heq; simpl.
  - rewrite Hid. apply Nat.eqb_eq in Heq.
    destruct (Nat.eqb_spec (Lecture._id l) id'); [congruence | reflexivity].
  - rewrite IH. reflexivity.
Qed.

Lemma findLecture_update_ne db id id' f :
  id' <> id ->
  (forall l, Lecture._id (f l) = Lecture._id l) ->
  findLecture (update_lecture db id f) id' = findLecture db id'.
Proof. intros Hne Hid. unfold findLecture. simpl. apply update_by_id_find_ne; assumption. Qed.

(** The database after a generation request that got past the guards:
    the lecture is marked as processing and then as failed with some
    error, or a quiz is added and the lecture marked as completed. *)
Lemma generate_quiz_past_guards db s lectureId now ai created lecture :
  findLecture db lectureId = Some lecture ->
  may_generate s lecture ->
  findQuizOfLecture db lectureId = None ->
  let db1 := update_lecture db lectureId (mark_processing now) in
  (exists status message err,
      generate_quiz db s lectureId now ai created
      = (failure status message,
         update_lecture db1 lectureId (mark_failed err)))
  \/ (exists r quiz,
         generate_quiz db s lectureId now ai created
         = (generated_json r,
            update_lecture (add_quiz db1 quiz) lectureId (mark_completed now))
         /\ Quiz.lectureId quiz = lectureId
         /\ Quiz._id quiz = Generated.quizId r).
Proof.
  intros Hl Hown Hnone db1. unfold generate_quiz.
  rewrite Hl, (may_generate_false _ _ Hown), Hnone. fold db1.
  destruct (too_short _); [left; eexists _, _, _; reflexivity|].
  destruct ai as [m|p].
  { destruct (_ || _); left; eexists _, _, _; reflexivity. }
  destruct (validate_response p) as [m|qs]; [left; eexists _, _, _; reflexivity|].
  destruct created as [newId|m]; [|left; eexists _, _, _; reflexivity].
  right. eexists _, _. split; [reflexivity|]. split; reflexivity.
Qed.

(** X5.  Generation never leaves a lecture in mid-air.  For a request that
    gets past the guards (the lecture is found, the ownership check
    passes, the lecture has no quiz), whatever the model answers and
    whether or not the insert works: afterwards the lecture is either
    [completed] with [quizGenerated] set and exactly one quiz of this
    lecture appended, or [failed] with [quizGenerated] cleared, an error
    recorded and the quiz collection untouched; it is never left
    [processing].  No other lecture and no other collection changes. *)
Theorem generation_settles db s lectureId now ai created lecture :
  findLecture db lectureId = Some lecture ->
  may_generate s lecture ->
  findQuizOfLecture db lectureId = None ->
  let out := generate_quiz db s lectureId now ai created in
  exists lecture',
    findLecture (snd out) lectureId = Some lecture'
    /\ ((exists r quiz,
            fst out = generated_json r
            /\ quizCollection (snd out) = quizCollection db ++ [quiz]
            /\ Quiz.lectureId quiz = lectureId
            /\ Lecture.processingStatus lecture' = completed
            /\ Lecture.quizGenerated lecture' = true)
        \/ (exists status message err,
               fst out = failure status message
               /\ quizCollection (snd out) = quizCollection db
               /\ Lecture.processingStatus lecture' = failed
               /\ Lecture.quizGenerated lecture' = false
               /\ Lecture.quizGenerationError lecture' = Some err))
    /\ (forall id, id <> lectureId ->
                   findLecture (snd out) id = findLecture db id)
    /\ quizResultCollection (snd out) = quizResultCollection db
    /\ classCollection (snd out) = classCollection db
    /\ classStudentCollection (snd out) = classStudentCollection db.
Proof.
  intros Hl Hown Hnone out.
  destruct (generate_quiz_past_guards db s lectureId now ai created lecture
              Hl Hown Hnone)
    as [(st & msg & err & Hrun) | (r & quiz & Hrun & Hlid & _)];
    subst out; rewrite Hrun; cbn [fst snd].
  - eexists. split.
    { rewrite !findLecture_update, Hl by reflexivity. reflexivity. }
    split; [right; eexists st, msg, err; repeat split|].
    split; [|repeat split].
    intros id Hne. rewrite !findLecture_update_ne by (reflexivity || assumption).
    reflexivity.
  - eexists. split.
    { rewrite findLecture_update by reflexivity.
      change (findLecture (add_quiz ?d ?q) ?i) with (findLecture d i).
      rewrite findLecture_update, Hl by reflexivity. reflexivity. }
    split; [left; eexists r, quiz; repeat split; assumption|].
    split; [|repeat split].
    intros id Hne. rewrite findLecture_update_ne by (reflexivity || assumption).
    change (findLecture (add_quiz ?d ?q) ?i) with (findLecture d i).
    rewrite findLecture_update_ne by (reflexivity || assumption).
    reflexivity.
Qed.

Lemma generation_settles_witness :
  exists lecture',
    findLecture (snd (generate_quiz Ex.db Ex.prof 5 20
                        (api_error (lit "quota exceeded")) (inserted 8))) 5
    = Some lecture'
    /\ Lecture.processingStatus lecture' = failed.
Proof.
  destruct (generation_settles Ex.db Ex.prof 5%nat 20
              (api_error (lit "quota exceeded")) (inserted 8) Ex.lecture5)
    as (l' & Hl & [(r & quiz & Hout & _) | (st & msg & err & _ & _ & Hst & _)] & _).
  - reflexivity.
  - intros _. reflexivity.
  - reflexivity.
  - vm_compute in Hout. discriminate.
  - exists l'. split; assumption.
Defined.

(** ** Deleting a lecture *)

Lemma delete_by_id_length id ls l :
  find (fun l => Nat.eqb (Lecture._id l) id) ls = Some l ->
  S (length (delete_by_id id ls)) = length ls.
Proof.
  induction ls as [|x ls IH]; simpl; [discriminate|].
  destruct (Nat.eqb (Lecture._id x) id); [reflexivity|].
  intros Hf. simpl. rewrite IH by exact Hf. reflexivity.
Qed.

Lemma delete_by_id_find_ne id id' ls :
  id' <> id ->
  find (fun l => Nat.eqb (Lecture._id l) id') (delete_by_id id ls)
  = find (fun l => Nat.eqb (Lecture._id l) id') ls.
Proof.
  intros Hne. induction ls as [|x ls IH]; simpl; [reflexivity|].
  destruct (Nat.eqb_spec (Lecture._id x) id) as [Heq|Hneq]; simpl.
  - destruct (Nat.eqb_spec (Lecture._id x) id'); [congruence | reflexivity].
  - rewrite IH. reflexivity.
Qed.

Lemma delete_lecture_inv db s lectureId m db' :
  delete_lecture db s lectureId = (succeeded m, db') ->
  exists lecture,
    findLecture db lectureId = Some lecture
    /\ db' = {| lectureCollection :=
                  delete_by_id lectureId (lectureCollection db);
                quizCollection :=
                  filter (fun q => Quiz.lectureId q <> lectureId)
                         (quizCollection db);
                quizResultCollection :=
                  filter (fun r => QuizResult.lectureId r <> lectureId)
                         (quizResultCollection db);
                classCollection := classCollection db;
                classStudentCollection := classStudentCollection db |}.
Proof.
  unfold delete_lecture.
  destruct (findLecture db lectureId) as [lecture|]; [|discriminate].
  destruct (_ && _); [discriminate|].
  intros [= <- <-]. exists lecture. split; reflexivity.
Qed.

Lemma findQuizOfLecture_after_delete lectureId (qs : list Quiz.t) :
  find (fun q => Nat.eqb (Quiz.lectureId q) lectureId)
       (filter (fun q => Quiz.lectureId q <> lectureId) qs) = None.
Proof.
  induction qs as [|q qs IH]; [reflexivity|].
  rewrite filter_cons.
  destruct (decide (Quiz.lectureId q <> lectureId)) as [Hq|Hq]; [|exact IH].
  simpl. destruct (Nat.eqb_spec (Quiz.lectureId q) lectureId);
    [contradiction | exact IH].
Qed.

(** X6.  Deleting a lecture takes its quizzes and results with it and
    nothing else: after a successful deletion no quiz and no result
    refers to the lecture; the quizzes and results of other lectures are
    all still there, in their order; one lecture document is gone and
    every lecture with another identifier is as before; classes and
    enrollments are untouched. *)
Theorem delete_lecture_cascades db s lectureId m db' :
  delete_lecture db s lectureId = (succeeded m, db') ->
  findQuizOfLecture db' lectureId = None
  /\ (forall q, q ∈ quizCollection db'
                <-> q ∈ quizCollection db /\ Quiz.lectureId q <> lectureId)
  /\ (forall r, r ∈ quizResultCollection db'
                <-> r ∈ quizResultCollection db
                    /\ QuizResult.lectureId r <> lectureId)
  /\ quizCollection db' `sublist_of` quizCollection db
  /\ quizResultCollection db' `sublist_of` quizResultCollection db
  /\ S (length (lectureCollection db')) = length (lectureCollection db)
  /\ (forall id, id <> lectureId -> findLecture db' id = findLecture db id)
  /\ classCollection db' = classCollection db
  /\ classStudentCollection db' = classStudentCollection db.
Proof.
  intros Hrun. destruct (delete_lecture_inv _ _ _ _ _ Hrun) as (l & Hl & ->).
  cbn [quizCollection quizResultCollection lectureCollection
       classCollection classStudentCollection].
  split; [apply findQuizOfLecture_after_delete|].
  split; [intros q; rewrite list_elem_of_filter; tauto|].
  split; [intros r; rewrite list_elem_of_filter; tauto|].
  split; [apply sublist_filter|]. split; [apply sublist_filter|].
  split; [eapply delete_by_id_length; exact Hl|].
  split; [|split; reflexivity].
  intros id Hne. apply delete_by_id_find_ne, Hne.
Qed.

Lemma delete_lecture_cascades_witness :
  findQuizOfLecture (snd (delete_lecture Ex.db Ex.prof 3)) 3 = None
  /\ quizResultCollection (snd (delete_lecture Ex.db Ex.prof 3)) = [].
Proof.
  split.
  - apply (delete_lecture_cascades Ex.db Ex.prof 3%nat
             (lit "Lecture deleted successfully")
             (snd (delete_lecture Ex.db Ex.prof 3))).
    reflexivity.
  - reflexivity.
Defined.

(** X7.  Who is refused.  A deletion is refused only when the lecture does
    not exist (404) or when the session is a teacher's and the lecture
    belongs to someone else (403), and a refusal changes nothing.  The
    ownership check is made for teacher sessions only: for a session of
    any other type an existing lecture is deleted whoever owns it. *)
Theorem delete_lecture_refusals db s lectureId :
  (forall r db',
      delete_lecture db s lectureId = (refused r, db') ->
      db' = db
      /\ ((r = failure 404 (lit "Lecture not found")
           /\ findLecture db lectureId = None)
          \/ (r = failure 403
                    (lit "Access denied. You can only delete your own lectures.")
              /\ userType s = teacher
              /\ exists lecture,
                  findLecture db lectureId = Some lecture
                  /\ Lecture.professorId lecture <> userId s)))
  /\ (forall lecture,
         findLecture db lectureId = Some lecture ->
         userType s <> teacher ->
         exists db',
           delete_lecture db s lectureId
           = (succeeded (lit "Lecture deleted successfully"), db')).
Proof.
  split.
  - intros r db'. unfold delete_lecture.
    destruct (findLecture db lectureId) as [lecture|].
    + destruct (userType s); simpl; try discriminate.
      destruct (Nat.eqb_spec (Lecture.professorId lecture) (userId s));
        simpl; [discriminate|].
      intros [= <- <-]. split; [reflexivity|]. right.
      split; [reflexivity|]. split; [reflexivity|].
      exists lecture. split; [reflexivity | assumption].
    + intros [= <- <-]. split; [reflexivity|]. left. split; reflexivity.
  - intros lecture Hl Hnt. unfold delete_lecture. rewrite Hl.
    destruct (userType s); try contradiction; simpl;
      eexists; reflexivity.
Qed.

(** ** The retention sweep *)

Lemma cleanup_results db now :
  quizResultCollection (cleanupOldQuizResults db now)
  = filter (fun r => ~ QuizResult.submissionDate r < now - fifteen_days)
           (quizResultCollection db).
Proof. reflexivity. Qed.

(** X8.  The sweep removes exactly the results submitted more than fifteen
    days before it runs: a result is there afterwards if and only if it
    was there before and is not older than that; the order of the
    remaining results and every other collection are unchanged. *)
Theorem cleanup_keeps_recent_results db now :
  let db' := cleanupOldQuizResults db now in
  (forall r, r ∈ quizResultCollection db'
             <-> r ∈ quizResultCollection db
                 /\ now - 1296000000 <= QuizResult.submissionDate r)
  /\ quizResultCollection db' `sublist_of` quizResultCollection db
  /\ lectureCollection db' = lectureCollection db
  /\ quizCollection db' = quizCollection db
  /\ classCollection db' = classCollection db
  /\ classStudentCollection db' = classStudentCollection db.
Proof.
  intros db'. subst db'. rewrite cleanup_results.
  split; [|split; [apply sublist_filter | repeat split]].
  intros r. rewrite list_elem_of_filter. unfold fifteen_days. split.
  - intros [Hnew Hin]. split; [exact Hin | lia].
  - intros [Hin Hnew]. split; [lia | exact Hin].
Qed.

(** X9.  Sweeps compose: a sweep after a sweep leaves what one sweep at the
    later of the two instants leaves.  In particular a sweep is
    idempotent, and after a sweep an earlier-dated one finds nothing to
    remove. *)
Theorem cleanup_composes db t1 t2 :
  cleanupOldQuizResults (cleanupOldQuizResults db t1) t2
  = cleanupOldQuizResults db (Z.max t1 t2).
Proof.
  unfold cleanupOldQuizResults.
  cbn [lectureCollection quizCollection quizResultCollection
       classCollection classStudentCollection].
  f_equal. rewrite list_filter_filter. apply list_filter_iff.
  intros r. lia.
Qed.

(** X10.  The one-attempt rule lasts as long as the result does.  If every
    result of the student for the quiz is older than fifteen days when
    the sweep runs, then after the sweep a new submission by that
    student (still enrolled, the quiz still there) is scored and stored
    like a first one. *)
Theorem resubmission_after_sweep
    db s quizId quiz now answers t now' newId :
  userType s = student ->
  findQuiz db quizId = Some quiz ->
  enrollment_ok db s quiz ->
  (forall r, r ∈ quizResultCollection db ->
             QuizResult.quizId r = quizId ->
             QuizResult.studentId r = userId s ->
             QuizResult.submissionDate r < now - fifteen_days) ->
  exists r res,
    submit_quiz (cleanupOldQuizResults db now) s quizId answers t now'
                (inserted newId)
    = (scored_json r,
       {| lectureCollection := lectureCollection db;
          quizCollection := quizCollection db;
          quizResultCollection :=
            quizResultCollection (cleanupOldQuizResults db now) ++ [res];
          classCollection := classCollection db;
          classStudentCollection := classStudentCollection db |})
    /\ QuizResult.studentId res = userId s
    /\ QuizResult.quizId res = quizId
    /\ Scored.score r = score (score_answers quiz answers).
Proof.
  intros Hs Hq Henr Hold.
  assert (Hnone : findResult (cleanupOldQuizResults db now) quizId (userId s)
                  = None).
  { unfold findResult. rewrite cleanup_results.
    induction (quizResultCollection db) as [|r rs IH]; [reflexivity|].
    rewrite filter_cons.
    destruct (decide (~ QuizResult.submissionDate r < now - fifteen_days))
      as [Hnew|_].
    - simpl.
      destruct (Nat.eqb_spec (QuizResult.quizId r) quizId) as [Hrq|_];
        [|apply IH; intros r' Hr'; apply Hold; right; exact Hr'].
      destruct (Nat.eqb_spec (QuizResult.studentId r) (userId s)) as [Hrs|_];
        [|apply IH; intros r' Hr'; apply Hold; right; exact Hr'].
      exfalso. apply Hnew, Hold; [left | exact Hrq | exact Hrs].
    - apply IH. intros r' Hr'. apply Hold. right. exact Hr'. }
  destruct (submit_quiz_scores (cleanupOldQuizResults db now) s quizId answers
              t now' newId quiz Hs Hq Henr Hnone)
    as (r & res & Hrun & Hscore & _ & _ & _ & _ & _ & _ & _ & Hrq & Hrs).
  exists r, res. repeat split; assumption.
Qed.

Lemma resubmission_after_sweep_witness :
  exists r db',
    submit_quiz (cleanupOldQuizResults Ex.db 1296000016) Ex.carol 7
                [Ex.answer 0 LB] 30 1296000020 (inserted 33)
    = (scored_json r, db').
Proof.
  destruct (resubmission_after_sweep Ex.db Ex.carol 7%nat Ex.quiz7 1296000016
              [Ex.answer 0 LB] 30 1296000020 33%nat)
    as (r & res & Hrun & _).
  - reflexivity.
  - reflexivity.
  - intros c Hc. vm_compute in Hc. injection Hc as <-. vm_compute. eauto.
  - intros r0 Hr0 _ _. apply list_elem_of_singleton in Hr0. subst r0.
    vm_compute. reflexivity.
  - eexists r, _. exact Hrun.
Defined.

(** ** Referential integrity *)

Lemma find_Some_elem_of {X} (f : X -> bool) l x :
  find f l = Some x -> x ∈ l /\ f x = true.
Proof.
  induction l as [|y l IH]; simpl; [discriminate|].
  destruct (f y) eqn:Hy.
  - intros [= <-]. split; [left | exact Hy].
  - intros Hf. destruct (IH Hf) as [Hin Hx]. split; [right; exact Hin | exact Hx].
Qed.

Lemma generate_quiz_collections db s lectureId now ai created :
  let db' := snd (generate_quiz db s lectureId now ai created) in
  quizResultCollection db' = quizResultCollection db
  /\ classCollection db' = classCollection db
  /\ classStudentCollection db' = classStudentCollection db
  /\ exists new, quizCollection db' = quizCollection db ++ new
                 /\ (length new <= 1)%nat.
Proof.
  unfold generate_quiz.
  destruct (findLecture db lectureId) as [lecture|];
    [|repeat split; exists []; split; [symmetry; apply app_nil_r | simpl; lia]].
  destruct (_ && _);
    [repeat split; exists []; split; [symmetry; apply app_nil_r | simpl; lia]|].
  destruct (findQuizOfLecture db lectureId);
    [repeat split; exists []; split; [symmetry; apply app_nil_r | simpl; lia]|].
  destruct (too_short _);
    [repeat split; exists []; split; [symmetry; apply app_nil_r | simpl; lia]|].
  destruct ai as [m|p].
  { destruct (_ || _);
      repeat split; exists []; (split; [symmetry; apply app_nil_r | simpl; lia]). }
  destruct (validate_response p) as [m|qs];
    [repeat split; exists []; split; [symmetry; apply app_nil_r | simpl; lia]|].
  destruct created as [newId|m];
    [|repeat split; exists []; split; [symmetry; apply app_nil_r | simpl; lia]].
  repeat split. eexists [_]. split; [reflexivity | simpl; lia].
Qed.

Lemma delete_lecture_refused_unchanged db s lectureId r db' :
  delete_lecture db s lectureId = (refused r, db') -> db' = db.
Proof.
  unfold delete_lecture.
  destruct (findLecture db lectureId); [|intros [= _ <-]; reflexivity].
  destruct (_ && _); [intros [= _ <-]; reflexivity | discriminate].
Qed.

Lemma generate_quiz_keeps_integrity db s lectureId now ai created :
  results_refer_to_quizzes db ->
  results_refer_to_quizzes (snd (generate_quiz db s lectureId now ai created)).
Proof.
  intros Hinv.
  destruct (generate_quiz_collections db s lectureId now ai created)
    as (Hres & _ & _ & new & Hq & _).
  intros r Hr. rewrite Hres in Hr. destruct (Hinv r Hr) as (q & Hin & Hid & Hl).
  exists q. rewrite Hq. split; [apply elem_of_app; left; exact Hin|].
  split; assumption.
Qed.

Lemma submit_quiz_keeps_integrity db s quizId answers t now created :
  results_refer_to_quizzes db ->
  results_refer_to_quizzes (snd (submit_quiz db s quizId answers t now created)).
Proof.
  intros Hinv.
  destruct (submit_quiz_fails_or_scores db s quizId answers t now created)
    as [(st & m & Hrun) | (r & db' & Hrun & _)]; rewrite Hrun; [exact Hinv|].
  destruct (submit_quiz_inv _ _ _ _ _ _ _ _ _ Hrun)
    as (quiz & res & _ & Hq & _ & _ & _ & Hrq & _ & Hrl & _ & ->).
  intros r0 Hr0. cbn [snd quizResultCollection quizCollection] in *.
  apply elem_of_app in Hr0 as [Hold | Hnew].
  - exact (Hinv r0 Hold).
  - apply list_elem_of_singleton in Hnew. subst r0.
    destruct (find_Some_elem_of _ _ _ Hq) as [Hin Hid].
    apply Nat.eqb_eq in Hid.
    exists quiz. split; [exact Hin|]. split; congruence.
Qed.

Lemma delete_lecture_keeps_integrity db s lectureId :
  results_refer_to_quizzes db ->
  results_refer_to_quizzes (snd (delete_lecture db s lectureId)).
Proof.
  intros Hinv.
  destruct (delete_lecture db s lectureId) as [[r|m] db'] eqn:Hrun.
  - rewrite (delete_lecture_refused_unchanged _ _ _ _ _ Hrun). exact Hinv.
  - destruct (delete_lecture_inv _ _ _ _ _ Hrun) as (l & _ & ->).
    intros r0 Hr0. cbn [snd quizResultCollection quizCollection] in *.
    apply list_elem_of_filter in Hr0 as [Hne Hr0].
    destruct (Hinv r0 Hr0) as (q & Hin & Hid & Hl).
    exists q. split; [|split; assumption].
    apply list_elem_of_filter. split; [congruence | exact Hin].
Qed.

Lemma cleanup_keeps_integrity db now :
  results_refer_to_quizzes db ->
  results_refer_to_quizzes (cleanupOldQuizResults db now).
Proof.
  intros Hinv r Hr. rewrite cleanup_results in Hr.
  apply list_elem_of_filter in Hr as [_ Hr]. exact (Hinv r Hr).
Qed.

Lemma read_only_routes db s quizId classId i w :
  snd (take_quiz db s quizId classId) = db
  /\ snd (api_quiz db s quizId) = db
  /\ snd (get_explanation db s quizId i w) = db.
Proof.
  split; [|split].
  - unfold take_quiz. destruct (userType s); try reflexivity.
    destruct (findQuiz db quizId); [|reflexivity].
    destruct (negb _); [reflexivity|].
    destruct (findResult db quizId (userId s)); reflexivity.
  - unfold api_quiz. destruct (userType s); try reflexivity.
    destruct (findQuiz db quizId); reflexivity.
  - unfold get_explanation. destruct (userType s); try reflexivity.
    destruct (findQuiz db quizId) as [quiz|]; [|reflexivity].
    destruct (question_at _ _) as [q|]; [|reflexivity].
    cbv zeta.
    destruct (text_test (stored_explanation q w)),
             (text_test (Question.correctAnswerExplanation q)),
             (Question.options q); reflexivity.
Qed.

(** X11.  No request leaves a dangling result.  If every stored result refers
    to a stored quiz and carries that quiz's [lectureId], the same holds
    after any generation request, any submission, any lecture deletion
    and any retention sweep, whatever their arguments and outcome; the
    page route, the questions endpoint and the explanation lookup do not
    write at all. *)
Theorem referential_integrity_is_kept db :
  results_refer_to_quizzes db ->
  (forall s lectureId now ai created,
      results_refer_to_quizzes
        (snd (generate_quiz db s lectureId now ai created)))
  /\ (forall s quizId answers t now created,
         results_refer_to_quizzes
           (snd (submit_quiz db s quizId answers t now created)))
  /\ (forall s lectureId,
         results_refer_to_quizzes (snd (delete_lecture db s lectureId)))
  /\ (forall now, results_refer_to_quizzes (cleanupOldQuizResults db now))
  /\ (forall s quizId classId i w,
         snd (take_quiz db s quizId classId) = db
         /\ snd (api_quiz db s quizId) = db
         /\ snd (get_explanation db s quizId i w) = db).
Proof.
  intros Hinv. repeat apply conj; intros.
  - apply generate_quiz_keeps_integrity, Hinv.
  - apply submit_quiz_keeps_integrity, Hinv.
  - apply delete_lecture_keeps_integrity, Hinv.
  - apply cleanup_keeps_integrity, Hinv.
  - apply read_only_routes.
Qed.

Lemma Ex_db_integrity : results_refer_to_quizzes Ex.db.
Proof.
  intros r Hr. apply list_elem_of_singleton in Hr. subst r.
  exists Ex.quiz7. split; [left|]. split; reflexivity.
Qed.

Lemma referential_integrity_is_kept_witness :
  results_refer_to_quizzes (snd (delete_lecture Ex.db Ex.prof 3)).
Proof.
  apply (referential_integrity_is_kept Ex.db Ex_db_integrity).
Defined.

(** ** Validation of the model's questions, continued *)

Lemma fill_all_throws ca opts e :
  NoDup opts -> fill_all ca opts e = None ->
  exists l, l ∈ opts /\ l <> ca
            /\ text_test (get_property e l) = trim_throws.
Proof.
  revert e. induction opts as [|o opts IH]; intros e Hnd; simpl; [discriminate|].
  apply NoDup_cons in Hnd as [Hnotin Hnd].
  destruct (fill_wrong ca e o) as [e1|] eqn:H1.
  - intros Hr. destruct (IH e1 Hnd Hr) as (l & Hl & Hne & Ht).
    exists l. split; [right; exact Hl|]. split; [exact Hne|].
    rewrite <- (fill_wrong_lookup_ne ca e o e1 l H1); [exact Ht|].
    intros ->. contradiction.
  - intros _. exists o. split; [left|]. revert H1. unfold fill_wrong.
    destruct (decide (o = ca)) as [->|Hne].
    + rewrite bool_decide_eq_true_2 by reflexivity. discriminate.
    + rewrite bool_decide_eq_false_2 by exact Hne.
      destruct (text_test (get_property e o)); try discriminate.
      intros _. split; [exact Hne | reflexivity].
Qed.

(** The four ways the body of the loop throws. *)
Lemma validate_element_throws index el message :
  validate_element index el = inl message ->
  (el = null_element
   /\ message = lit "Cannot read properties of null (reading 'question')")
  \/ ((el = other_element
       \/ exists q, el = object_element q /\ missing_required q = true)
      /\ message
         = lit "Question " ++ str_of_nat (index + 1)
           ++ lit " is missing required fields (including explanations)")
  \/ (exists q,
         el = object_element q /\ missing_required q = false
         /\ is_label (Question.correct_answer q) = false
         /\ message
            = lit "Question " ++ str_of_nat (index + 1)
              ++ lit " has invalid correct_answer")
  \/ (exists q ca e l,
         el = object_element q /\ missing_required q = false
         /\ Question.correct_answer q = Some ca /\ ca ∈ labels
         /\ Question.explanations q = Some e
         /\ l ∈ labels /\ l <> ca
         /\ ~ text_or_nothing (get_property e l)
         /\ message = lit "q.explanations[option].trim is not a function").
Proof.
  destruct el as [| |q]; simpl.
  - intros [= <-]. left. split; reflexivity.
  - intros [= <-]. right. left. split; [left|]; reflexivity.
  - unfold validate_question.
    destruct (missing_required q) eqn:Hmiss.
    { intros [= <-]. right. left.
      split; [right; exists q; split; [reflexivity | exact Hmiss] | reflexivity]. }
    destruct (is_label (Question.correct_answer q)) eqn:Hlab; simpl.
    2:{ intros [= <-]. right. right. left. exists q.
        split; [reflexivity|]. split; [exact Hmiss|].
        split; [exact Hlab | reflexivity]. }
    unfold is_label in Hlab.
    destruct (Question.correct_answer q) as [ca|] eqn:Hca; [|discriminate].
    apply bool_decide_eq_true_1 in Hlab.
    destruct (Question.explanations q) as [e|] eqn:He; [|discriminate].
    unfold fix_explanations.
    destruct (fill_all ca labels e) as [e1|] eqn:Hfill; [discriminate|].
    intros [= <-]. right. right. right.
    destruct (fill_all_throws ca labels e labels_NoDup Hfill)
      as (l & Hl & Hne & Ht).
    exists q, ca, e, l. repeat split; try assumption.
    apply text_test_throws, Ht.
Qed.

(** X13.  When validation rejects the model's array, it is at the first
    element the body of the loop does not accept, and the message says
    why: a [null] element and a truthy explanation of a wrong option
    that is not a string end the loop with a [TypeError], whose message
    names no question; an element that lacks one of the five fields (or
    is no object at all) and a correct answer outside A to D are
    reported with the position of the question, counting from one. *)
Theorem validation_reports_first_error index els message :
  validate_elements index els = inl message ->
  exists i el,
    els !! i = Some el
    /\ (forall j el', (j < i)%nat -> els !! j = Some el' ->
                      exists q q', el' = object_element q
                                   /\ validate_question (index + j) q = inr q')
    /\ ((el = null_element
         /\ message = lit "Cannot read properties of null (reading 'question')")
        \/ ((el = other_element
             \/ exists q, el = object_element q /\ missing_required q = true)
            /\ message
               = lit "Question " ++ str_of_nat (index + i + 1)
                 ++ lit " is missing required fields (including explanations)")
        \/ (exists q,
               el = object_element q /\ missing_required q = false
               /\ is_label (Question.correct_answer q) = false
               /\ message
                  = lit "Question " ++ str_of_nat (index + i + 1)
                    ++ lit " has invalid correct_answer")
        \/ (exists q ca e l,
               el = object_element q /\ missing_required q = false
               /\ Question.correct_answer q = Some ca /\ ca ∈ labels
               /\ Question.explanations q = Some e
               /\ l ∈ labels /\ l <> ca
               /\ ~ text_or_nothing (get_property e l)
               /\ message = lit "q.explanations[option].trim is not a function")).
Proof.
  revert index. induction els as [|el els IH]; intros index;
    cbn [validate_elements]; [discriminate|].
  destruct (validate_element index el) as [m|q'] eqn:Hel.
  - intros [= <-]. exists 0%nat, el. split; [reflexivity|].
    split; [intros j el' Hj; lia|].
    rewrite Nat.add_0_r. apply validate_element_throws, Hel.
  - destruct (validate_elements (S index) els) as [m|] eqn:Hr; [|discriminate].
    intros [= <-]. destruct (IH _ Hr) as (i & el1 & Hi & Hbefore & Hmsg).
    exists (S i), el1. split; [exact Hi|]. split.
    + intros [|j] el' Hj Hel'.
      * injection Hel' as <-. rewrite Nat.add_0_r.
        destruct (validate_element_inv _ _ _ Hel) as (q & -> & Hq).
        exists q, q'. split; [reflexivity | exact Hq].
      * replace (index + S j)%nat with (S index + j)%nat by lia.
        apply (Hbefore j); [lia | exact Hel'].
    + replace (index + S i + 1)%nat with (S index + i + 1)%nat by lia.
      exact Hmsg.
Qed.

Lemma validation_reports_first_error_witness :
  exists i el,
    [object_element (Ex.model_question LA);
     object_element (Ex.stored_question LB);
     object_element (set_explanations (Ex.model_question LC) None)] !! i
    = Some el
    /\ i = 2%nat.
Proof.
  destruct (validation_reports_first_error 0
              [object_element (Ex.model_question LA);
               object_element (Ex.stored_question LB);
               object_element (set_explanations (Ex.model_question LC) None)]
              (lit "Question 3 is missing required fields (including explanations)"))
    as (i & el & Hel & Hbefore & Hmsg).
  - vm_compute. reflexivity.
  - exists i, el. split; [exact Hel|].
    destruct i as [|[|[|i]]]; try reflexivity.
    + destruct Hmsg as [[_ Hm] | [[_ Hm] | [(q & _ & _ & _ & Hm)
                                            | (q & ca & e & l & _ & _ & _ & _ & _ & _ & _ & _ & Hm)]]];
        vm_compute in Hm; discriminate.
    + destruct Hmsg as [[_ Hm] | [[_ Hm] | [(q & _ & _ & _ & Hm)
                                            | (q & ca & e & l & _ & _ & _ & _ & _ & _ & _ & _ & Hm)]]];
        vm_compute in Hm; discriminate.
    + discriminate.
Defined.

Lemma set_explanations_same q e :
  Question.explanations q = Some e -> set_explanations q (Some e) = q.
Proof. destruct q; cbn. intros ->. reflexivity. Qed.

(** What a validated question looks like. *)
Lemma validated_inv q :
  validated q ->
  exists ca e options,
    Question.correct_answer q = Some ca
    /\ ca ∈ labels
    /\ Question.explanations q = Some e
    /\ Question.options q = Some options
    /\ missing_required q = false
    /\ fix_explanations ca e = Some e.
Proof.
  intros (index & q0 & Hv).
  destruct (validate_question_inv _ _ _ Hv)
    as (ca & e & e' & o & Hca & Hlab & He & Ho & Hmiss & Hfix & ->).
  exists ca, e', o. cbn. repeat split; try assumption.
  - unfold missing_required in *. cbn.
    rewrite !orb_false_iff in *.
    destruct Hmiss as ((((H1 & H2) & H3) & H4) & H5).
    repeat split; try assumption.
    apply negb_false_iff. rewrite He in H4. apply negb_false_iff in H4.
    destruct (container_dec e) as [Hc|Hp].
    + apply container_truthy. eapply fix_explanations_container; eassumption.
    + rewrite (fix_explanations_primitive _ _ _ Hfix Hp). exact H4.
  - eapply fix_explanations_idem, Hfix.
Qed.

Lemma validate_elements_validated index els qs' :
  validate_elements index els = inr qs' -> Forall validated qs'.
Proof.
  intros Hall%validate_elements_inv.
  induction Hall as [|el q' els qs' (i & q & _ & Hq) _ IH]; constructor;
    [exists i, q; exact Hq | exact IH].
Qed.

Lemma validate_question_fixpoint index q :
  validated q -> validate_question index q = inr q.
Proof.
  intros Hv. destruct (validated_inv q Hv)
    as (ca & e & o & Hca & Hlab & He & Ho & Hmiss & Hfix).
  unfold validate_question. rewrite Hmiss, Hca. simpl.
  rewrite bool_decide_eq_true_2 by exact Hlab. simpl.
  rewrite He, Hfix, (set_explanations_same q e He). reflexivity.
Qed.

(** X14.  Validation is idempotent: a list of questions that came out of the
    validation loop goes through it again unchanged, whatever index the
    loop starts at.  A stored quiz re-validated is the stored quiz. *)
Theorem validation_is_idempotent index qs qs' index' :
  validate_questions index qs = inr qs' ->
  validate_questions index' qs' = inr qs'.
Proof.
  unfold validate_questions.
  intros Hv. apply validate_elements_validated in Hv.
  revert index'. induction Hv as [|q qs'' Hq _ IH]; intros index'; simpl.
  - reflexivity.
  - rewrite (validate_question_fixpoint index' q Hq), IH. reflexivity.
Qed.

Lemma validation_is_idempotent_witness :
  validate_questions 5 [Ex.stored_question LB] = inr [Ex.stored_question LB].
Proof.
  apply (validation_is_idempotent 0 [Ex.model_question LB]).
  vm_compute. reflexivity.
Defined.

(** ** The status of a quiz's explanations *)

Lemma filter_length_all {X} (f : X -> bool) l :
  length (List.filter f l) = length l <-> Forall (fun x => f x = true) l.
Proof.
  induction l as [|x l IH]; simpl.
  - split; [constructor | reflexivity].
  - pose proof (List.filter_length_le f l) as Hle.
    destruct (f x) eqn:Hx; simpl; split.
    + intros [= Hlen]. constructor; [exact Hx | apply IH, Hlen].
    + intros [_ Hall]%Forall_cons. f_equal. apply IH, Hall.
    + intros Hlen. lia.
    + intros [Hx' _]%Forall_cons. congruence.
Qed.

Lemma filter_length_zero {X} (f : X -> bool) l :
  length (List.filter f l) = 0%nat <-> Forall (fun x => f x = false) l.
Proof.
  induction l as [|x l IH]; simpl.
  - split; [constructor | reflexivity].
  - destruct (f x) eqn:Hx; simpl; split.
    + discriminate.
    + intros [Hx' _]%Forall_cons. congruence.
    + intros Hlen. constructor; [exact Hx | apply IH, Hlen].
    + intros [_ Hall]%Forall_cons. apply IH, Hall.
Qed.

Lemma holds_true {X} (f : X -> option bool) x :
  holds f x = true <-> f x = Some true.
Proof. unfold holds. destruct (f x) as [[]|]; split; congruence. Qed.

Lemma holds_false {X} (f : X -> option bool) x :
  f x <> None -> holds f x = false <-> f x = Some false.
Proof. unfold holds. destruct (f x) as [[]|]; split; congruence. Qed.

(** Where the test does not throw, [count_where] counts. *)
Lemma count_where_Some {X} (f : X -> option bool) l :
  Forall (fun x => f x <> None) l ->
  count_where f l = Some (length (List.filter (holds f) l)).
Proof.
  induction 1 as [|x l Hx _ IH]; simpl; [reflexivity|].
  unfold holds at 1. rewrite IH.
  destruct (f x) as [[]|]; [reflexivity | reflexivity | contradiction].
Qed.

Lemma count_where_None {X} (f : X -> option bool) l x :
  x ∈ l -> f x = None -> count_where f l = None.
Proof.
  intros Hin Hx. induction l as [|y l IH]; [inversion Hin|].
  simpl. apply elem_of_cons in Hin as [<-|Hin].
  - rewrite Hx. reflexivity.
  - rewrite (IH Hin). destruct (f y); reflexivity.
Qed.

Lemma some_text_total values :
  Forall (fun v => text_or_nothing (Some v)) values -> some_text values <> None.
Proof.
  induction 1 as [|v values Hv _ IH]; cbn [some_text]; [discriminate|].
  destruct (text_test (Some v)) eqn:Ht; [discriminate | exact IH |].
  apply text_test_throws in Ht. contradiction.
Qed.

Lemma stored_texts_scan q :
  stored_texts q ->
  has_explanation q <> None /\ has_correct_explanation q <> None.
Proof.
  intros [He Hc]. split.
  - unfold has_explanation. destruct (Question.explanations q) as [e|];
      [|discriminate].
    destruct (truthy_json (Some e)); [|discriminate].
    apply some_text_total, He. reflexivity.
  - unfold has_correct_explanation.
    destruct (text_test _) eqn:Ht; try discriminate.
    apply text_test_throws in Ht. contradiction.
Qed.

Lemma explanations_status_found db quizId quiz :
  findQuiz db quizId = Some quiz ->
  Forall stored_texts (Quiz.questions quiz) ->
  exists st,
    explanations_status db quizId = succeeded st
    /\ ExplanationStats.totalQuestions st = length (Quiz.questions quiz)
    /\ ExplanationStats.questionsWithExplanations st
       = length (List.filter (holds has_explanation) (Quiz.questions quiz))
    /\ ExplanationStats.hasEnhancedExplanations st
       = Nat.ltb 0 (ExplanationStats.questionsWithExplanations st)
    /\ ExplanationStats.enhancementLevel st
       = if Nat.eqb (ExplanationStats.questionsWithExplanations st)
                    (ExplanationStats.totalQuestions st)
         then "full"%string
         else if Nat.ltb 0 (ExplanationStats.questionsWithExplanations st)
              then "partial"%string else "none"%string.
Proof.
  intros Hq Htexts. unfold explanations_status. rewrite Hq.
  rewrite !count_where_Some.
  - eexists. split; [reflexivity|]. repeat split.
  - eapply Forall_impl; [exact Htexts|]. intros q Ht.
    apply stored_texts_scan, Ht.
  - eapply Forall_impl; [exact Htexts|]. intros q Ht.
    apply stored_texts_scan, Ht.
Qed.

(** X15.  What the reported level means.  For an existing quiz whose stored
    explanations are texts (no explanation value and no correct-answer
    explanation is a truthy value other than a string), the level is
    "full" exactly when every question has some explanation that is not
    blank, and "none" exactly when there are questions and none has
    one; [hasEnhancedExplanations] holds exactly when some question has
    one.  So a quiz without questions is reported as "full" and, at
    once, as having no enhanced explanations.  Where the scan of a
    question's explanations throws, the route answers with status
    500. *)
Theorem explanations_status_levels db quizId quiz :
  findQuiz db quizId = Some quiz ->
  (Forall stored_texts (Quiz.questions quiz) ->
   exists st,
     explanations_status db quizId = succeeded st
     /\ (ExplanationStats.questionsWithExplanations st
         <= ExplanationStats.totalQuestions st)%nat
     /\ (ExplanationStats.enhancementLevel st = "full"%string
         <-> Forall (fun q => has_explanation q = Some true)
                    (Quiz.questions quiz))
     /\ (ExplanationStats.enhancementLevel st = "none"%string
         <-> Quiz.questions quiz <> []
             /\ Forall (fun q => has_explanation q = Some false)
                       (Quiz.questions quiz))
     /\ (ExplanationStats.hasEnhancedExplanations st = true
         <-> Exists (fun q => has_explanation q = Some true)
                    (Quiz.questions quiz))
     /\ (Quiz.questions quiz = [] ->
         ExplanationStats.enhancementLevel st = "full"%string
         /\ ExplanationStats.hasEnhancedExplanations st = false))
  /\ (forall q,
         q ∈ Quiz.questions quiz -> has_explanation q = None ->
         explanations_status db quizId
         = refused (failure 500
                      (lit "Failed to check explanation status: q.explanations[key].trim is not a function"))).
Proof.
  intros Hq. split.
  2:{ intros q Hin Hnone. unfold explanations_status. rewrite Hq.
      rewrite (count_where_None _ _ q Hin Hnone). reflexivity. }
  intros Htexts.
  destruct (explanations_status_found db quizId quiz Hq Htexts)
    as (st & Hrun & Htot & Hwith & Hhas & Hlevel).
  exists st. split; [exact Hrun|].
  rewrite Hlevel, Hhas, Hwith, Htot.
  assert (Hscan : Forall (fun q => has_explanation q <> None)
                         (Quiz.questions quiz)).
  { eapply Forall_impl; [exact Htexts|]. intros q Ht.
    apply stored_texts_scan, Ht. }
  clear -Hscan.
  set (qs := Quiz.questions quiz) in *.
  set (f := holds has_explanation).
  pose proof (List.filter_length_le f qs) as Hle.
  assert (Hall : length (List.filter f qs) = length qs
                 <-> Forall (fun q => has_explanation q = Some true) qs).
  { rewrite filter_length_all. apply Forall_iff. intros q. apply holds_true. }
  assert (Hzero : length (List.filter f qs) = 0%nat
                  <-> Forall (fun q => has_explanation q = Some false) qs).
  { rewrite filter_length_zero. clear -Hscan.
    induction Hscan as [|q qs Hq _ IH].
    - split; constructor.
    - rewrite !Forall_cons, IH. unfold f. rewrite (holds_false _ _ Hq).
      reflexivity. }
  split; [exact Hle|]. split; [|split; [|split]].
  - destruct (Nat.eqb_spec (length (List.filter f qs)) (length qs))
      as [Heq|Hne].
    + split; [intros _; apply Hall, Heq | reflexivity].
    + split.
      * destruct (Nat.ltb _ _); discriminate.
      * intros HF. apply Hall in HF. contradiction.
  - destruct (Nat.eqb_spec (length (List.filter f qs)) (length qs))
      as [Heq|Hne].
    + split; [discriminate|]. intros [Hnil HF]. apply Hzero in HF.
      destruct qs; [contradiction | simpl in *; lia].
    + destruct (Nat.ltb_spec 0 (length (List.filter f qs)))
        as [Hpos|Hz].
      * split; [discriminate|]. intros [_ HF]. apply Hzero in HF. lia.
      * split; [|reflexivity]. intros _. split.
        -- intros Hnil. rewrite Hnil in Hne. simpl in Hne. lia.
        -- apply Hzero. lia.
  - rewrite Nat.ltb_lt. split.
    + intros Hpos. apply Exists_exists.
      destruct (List.filter f qs) as [|q r] eqn:Hf;
        [simpl in Hpos; lia|].
      assert (Hin : In q (List.filter f qs))
        by (rewrite Hf; left; reflexivity).
      apply List.filter_In in Hin as [Hin Hq]. exists q.
      split; [apply list_elem_of_In, Hin | apply holds_true, Hq].
    + intros (q & Hin & Hq)%Exists_exists.
      assert (Hin' : In q (List.filter f qs)).
      { apply List.filter_In.
        split; [apply list_elem_of_In, Hin | apply holds_true, Hq]. }
      destruct (List.filter f qs); [destruct Hin' | simpl; lia].
  - intros Hnil. rewrite Hnil. split; reflexivity.
Qed.

(** Where the proviso fails: the model adds a numeric note to the
    explanations of its question; validation, which looks at the four
    labels only, lets it pass, and the status route then throws on the
    note. *)
Example scenario_status_throws :
  let q := set_explanations (Ex.model_question LB)
             (Some (j_object
                      [ (lit "note", j_number 5);
                        (lit "A", j_string (lit "The mitochondrion makes ATP.")) ])) in
  let out := generate_quiz Ex.db Ex.prof 5 20
               (api_response (parsed_array [object_element q])) (inserted 8) in
  (exists r, fst out = generated_json r)
  /\ explanations_status (snd out) 8
     = refused (failure 500
                  (lit "Failed to check explanation status: q.explanations[key].trim is not a function")).
Proof. split; [eexists; reflexivity | reflexivity]. Qed.

Lemma object_of_strings_texts e :
  object_of_strings e -> Forall (fun v => text_or_nothing (Some v)) (own_values e).
Proof.
  intros (fields & -> & Hall). simpl. apply Forall_fmap.
  eapply Forall_impl; [exact Hall|]. intros [k v] [text Hv] _. simpl in *.
  exists text. rewrite Hv. reflexivity.
Qed.

Lemma texts_are_strings_stored q : texts_are_strings q -> stored_texts q.
Proof.
  intros [(e & He & Hobj) (c & Hc)]. split.
  - intros e' He'. rewrite He in He'. injection He' as <-.
    apply object_of_strings_texts, Hobj.
  - intros _. exists c. exact Hc.
Qed.

Lemma Ex_stored_question_strings l : texts_are_strings (Ex.stored_question l).
Proof.
  destruct l;
    (split;
     [ eexists; split; [reflexivity|];
       eexists; split; [vm_compute; reflexivity|];
       repeat constructor; eexists; reflexivity
     | eexists; reflexivity ]).
Qed.

Lemma explanations_status_levels_witness :
  exists st,
    explanations_status Ex.db 7 = succeeded st
    /\ ExplanationStats.enhancementLevel st = "full"%string.
Proof.
  destruct (proj1 (explanations_status_levels Ex.db 7%nat Ex.quiz7 eq_refl))
    as (st & Hrun & _ & Hfull & _).
  - repeat constructor;
      apply texts_are_strings_stored, Ex_stored_question_strings.
  - exists st. split; [exact Hrun|]. apply Hfull.
    repeat constructor.
Defined.

Lemma label_A : lit "A" ∈ labels.
Proof. compute_done. Qed.

Lemma label_B : lit "B" ∈ labels.
Proof. compute_done. Qed.

Lemma label_str_is_label w : label_str w ∈ labels.
Proof. destruct w; compute_done. Qed.

Lemma set_own_strings fields k text :
  Forall (fun kv : jsstring * json => exists t, kv.2 = j_string t) fields ->
  Forall (fun kv : jsstring * json => exists t, kv.2 = j_string t)
         (set_own fields k (j_string text)).
Proof.
  induction 1 as [|[k' v'] r Hv Hr IH]; simpl.
  - constructor; [eexists; reflexivity | constructor].
  - destruct (bool_decide (k' = k)); constructor; try assumption.
    eexists. reflexivity.
Qed.

Lemma set_property_strings e k text :
  object_of_strings e -> object_of_strings (set_property e k (j_string text)).
Proof.
  intros (fields & -> & Hall). eexists. split; [reflexivity|].
  apply set_own_strings, Hall.
Qed.

Lemma fix_explanations_strings ca e e' :
  fix_explanations ca e = Some e' -> object_of_strings e ->
  object_of_strings e'.
Proof.
  intros (e1 & H1 & ->)%fix_explanations_inv Hobj.
  apply set_property_strings.
  revert e H1 Hobj. generalize labels. intros opts.
  induction opts as [|o opts IH]; intros e; simpl.
  - intros [= <-]. tauto.
  - unfold fill_wrong. destruct (bool_decide _); [apply IH|].
    destruct (text_test _); [apply IH | | discriminate].
    intros Hr Hobj. apply (IH _ Hr). apply set_property_strings, Hobj.
Qed.

Lemma get_own_elem_of {V} (fields : list (jsstring * V)) k v :
  get_own fields k = Some v -> (k, v) ∈ fields.
Proof.
  induction fields as [|[k' v'] r IH]; simpl; [discriminate|].
  destruct (decide (k' = k)) as [->|Hne].
  - rewrite bool_decide_eq_true_2 by reflexivity. intros [= ->]. left.
  - rewrite bool_decide_eq_false_2 by exact Hne. intros Hr. right.
    apply IH, Hr.
Qed.

Lemma some_text_strings values text :
  Forall (fun v => exists t, v = j_string t) values ->
  j_string text ∈ values -> trim text <> [] ->
  some_text values = Some true.
Proof.
  intros Hall Hin Hnb. induction Hall as [|v values [t ->] _ IH];
    [inversion Hin|].
  simpl. destruct (is_empty (trim t)) eqn:He; [|reflexivity].
  apply elem_of_cons in Hin as [[= <-]|Hin].
  - apply is_empty_true in He. contradiction.
  - apply IH, Hin.
Qed.

(** A question in the format asked for leaves the loop in that format,
    with an explanation that is not blank. *)
Lemma validate_question_strings index q q' :
  validate_question index q = inr q' -> texts_are_strings q ->
  texts_are_strings q' /\ has_explanation q' = Some true.
Proof.
  intros (ca & e & e' & o & Hca & Hlab & He & _ & _ & Hfix & ->)%validate_question_inv
         [(e0 & He0 & Hobj) Hc].
  rewrite He in He0. injection He0 as <-.
  pose proof (fix_explanations_strings _ _ _ Hfix Hobj) as Hobj'.
  split; [split; [exists e'; split; [reflexivity | exact Hobj'] | exact Hc]|].
  assert (Hcont : container e) by (destruct Hobj as (? & -> & _); exact I).
  assert (Hl : exists l text, present_and_non_blank (get_property e' l) text).
  { destruct (decide (lit "A" = ca)) as [<-|Hne].
    - exists (lit "B").
      apply (fix_explanations_texts _ _ _ _ Hfix Hcont label_B). discriminate.
    - exists (lit "A").
      apply (fix_explanations_texts _ _ _ _ Hfix Hcont label_A). exact Hne. }
  destruct Hl as (l & text & Hget & Hnb).
  destruct Hobj' as (fields' & -> & Hall).
  unfold has_explanation. cbn.
  apply (some_text_strings _ text).
  - apply Forall_fmap. eapply Forall_impl; [exact Hall|].
    intros [k v] Hv. exact Hv.
  - simpl in Hget. apply get_own_elem_of in Hget.
    apply list_elem_of_fmap. exists (l, j_string text). split; [reflexivity | exact Hget].
  - exact Hnb.
Qed.

(** X16.  A generated quiz is fully explained, when the model keeps to the
    format.  After a successful generation from an array of questions
    whose [explanations] are objects of strings and whose
    [correctAnswerExplanation] is a string, with a new identifier that
    was not in use, the status route finds the new quiz and reports
    level "full": every one of its questions (there is at least one)
    has an explanation that is not blank. *)
Theorem generated_quiz_is_fully_explained
    db s lectureId now generatedQuiz created r db' :
  generate_quiz db s lectureId now (api_response (parsed_array generatedQuiz))
                created
  = (generated_json r, db') ->
  findQuiz db (Generated.quizId r) = None ->
  Forall (fun el => forall q, el = object_element q -> texts_are_strings q)
         generatedQuiz ->
  exists st,
    explanations_status db' (Generated.quizId r) = succeeded st
    /\ ExplanationStats.enhancementLevel st = "full"%string
    /\ ExplanationStats.hasEnhancedExplanations st = true
    /\ ExplanationStats.questionsWithExplanations st
       = ExplanationStats.totalQuestions st
    /\ Z.of_nat (ExplanationStats.totalQuestions st)
       = Generated.totalQuestions r
    /\ (0 < ExplanationStats.totalQuestions st)%nat.
Proof.
  intros Hrun Hfresh Hformat.
  destruct (generate_quiz_inv _ _ _ _ _ _ _ _ Hrun)
    as (els & quiz & [= <-] & Hqs & Hid & _ & Htot & _ & Hne & Hval).
  assert (Hfind : findQuiz db' (Generated.quizId r) = Some quiz).
  { unfold findQuiz in *. rewrite Hqs, find_app_None by exact Hfresh.
    simpl. rewrite Hid, Nat.eqb_refl. reflexivity. }
  assert (Hgood : Forall (fun q' => texts_are_strings q'
                                    /\ has_explanation q' = Some true)
                         (Quiz.questions quiz)).
  { clear -Hval Hformat.
    induction Hval as [|el q' els qs' (i & q & -> & Hq) _ IH];
      constructor.
    - apply Forall_cons in Hformat as [Hel _].
      eapply validate_question_strings; [exact Hq | apply Hel; reflexivity].
    - apply IH. apply Forall_cons in Hformat as [_ Hrest]. exact Hrest. }
  destruct (explanations_status_found db' _ quiz Hfind)
    as (st & Hst & Ht & Hwith & Hhas & Hlevel).
  { eapply Forall_impl; [exact Hgood|]. intros q [Hq _].
    apply texts_are_strings_stored, Hq. }
  assert (Hall : length (List.filter (holds has_explanation) (Quiz.questions quiz))
                 = length (Quiz.questions quiz)).
  { apply filter_length_all. eapply Forall_impl; [exact Hgood|].
    intros q [_ Hq]. apply holds_true, Hq. }
  assert (Hpos : (0 < length (Quiz.questions quiz))%nat).
  { destruct (Quiz.questions quiz); [contradiction | simpl; lia]. }
  exists st. split; [exact Hst|].
  rewrite Hlevel, Hhas, Hwith, Ht, Hall, Nat.eqb_refl.
  repeat split; try lia.
  apply Nat.ltb_lt, Hpos.
Qed.

Lemma Ex_model_question_strings l : texts_are_strings (Ex.model_question l).
Proof.
  split.
  - eexists. split; [reflexivity|]. eexists. split; [reflexivity|].
    repeat constructor; eexists; reflexivity.
  - eexists. reflexivity.
Qed.

Lemma generated_quiz_is_fully_explained_witness :
  exists st,
    explanations_status (snd Ex.generation) 8 = succeeded st
    /\ ExplanationStats.enhancementLevel st = "full"%string.
Proof.
  destruct (generated_quiz_is_fully_explained Ex.db Ex.prof 5%nat 20
              [object_element (Ex.model_question LB)]
              (inserted 8) Ex.generation_report (snd Ex.generation))
    as (st & Hst & Hfull & _).
  - vm_compute. reflexivity.
  - reflexivity.
  - constructor; [|constructor]. intros q [= <-].
    apply Ex_model_question_strings.
  - exists st. split; assumption.
Defined.

(** ** Looking up explanations of a validated question *)

(** X17.  The fallback synthesis does its job, when there is an object to
    put it in.  For a question that came out of the validation loop,
    from a model's question whose [explanations] are an object and
    whose [correctAnswerExplanation] is a string, the lookup for any
    label other than the correct one is of the "detailed" kind and
    begins with the stored text for that label, which is not blank; the
    lookup for the correct label is of the "basic" kind.  The generic
    message is never the answer for a wrong option. *)
Theorem lookup_of_validated_question db s quizId i w quiz q index q0 :
  userType s = student ->
  findQuiz db quizId = Some quiz ->
  question_at (Quiz.questions quiz) i = Some q ->
  validate_question index q0 = inr q ->
  explanations_object q0 ->
  (exists c, Question.correctAnswerExplanation q0 = Some (j_string c)) ->
  exists r,
    get_explanation db s quizId i w = (explained_json r, db)
    /\ Explained.hasDetailedExplanations r = true
    /\ (Question.correct_answer q <> Some (label_str w) ->
        Explained.explanationType r = "detailed"%string
        /\ exists text rest,
            present_and_non_blank (stored_explanation q w) text
            /\ Explained.explanation r = text ++ rest)
    /\ (Question.correct_answer q = Some (label_str w) ->
        Explained.explanationType r = "basic"%string).
Proof.
  intros Hs Hq Hi Hv [fields Hf] [c Hc].
  destruct (validate_question_inv _ _ _ Hv)
    as (ca & e & e' & o & Hca & Hlab & He & Ho & _ & Hfix & ->).
  rewrite He in Hf. injection Hf as ->.
  assert (Hcont : container (j_object fields)) by exact I.
  rewrite (get_explanation_question db s quizId i w quiz _ Hs Hq Hi).
  cbv zeta. cbn [Question.options Question.correctAnswerExplanation
                 Question.correct_answer Question.explanations
                 set_explanations].
  rewrite Ho, Hc, Hca.
  unfold stored_explanation.
  cbn [Question.explanations set_explanations].
  assert (Hkeys : has_keys (Some e') = true).
  { pose proof (fix_explanations_correct ca _ _ Hfix Hcont) as Hzero.
    pose proof (fix_explanations_container ca _ _ Hfix Hcont) as Hc'.
    unfold has_keys. rewrite (container_truthy _ Hc'). simpl.
    destruct e' as [| | | |items named|fields']; simpl in *;
      try contradiction.
    - destruct named; [discriminate|].
      rewrite length_app. simpl. apply Nat.ltb_lt. lia.
    - destruct fields'; [discriminate | reflexivity]. }
  assert (Hcae : text_test (Some (j_string c)) = is_text c
                 \/ text_test (Some (j_string c)) = no_text).
  { simpl. destruct (is_empty (trim c)); [right | left]; reflexivity. }
  destruct (decide (label_str w = ca)) as [Heq|Hdiff].
  - rewrite Heq, (fix_explanations_correct ca _ _ Hfix Hcont).
    change (text_test (Some (j_string []))) with no_text.
    destruct Hcae as [-> | ->]; (eexists; split; [reflexivity|]);
      cbn [Explained.hasDetailedExplanations Explained.explanationType];
      (split; [exact Hkeys|]); (split; [|reflexivity]);
      intros Hne; contradiction Hne; reflexivity.
  - destruct (fix_explanations_texts ca _ _ _ Hfix Hcont
                (label_str_is_label w) Hdiff) as [text Ht].
    pose proof Ht as Ht'. apply text_test_is_text in Ht'. rewrite Ht'.
    destruct Hcae as [-> | ->]; (eexists; split; [reflexivity|]);
      cbn [Explained.hasDetailedExplanations Explained.explanationType
           Explained.explanation];
      (split; [exact Hkeys|]); split;
      try (intros _; split; [reflexivity|];
           exists text; eexists; split; [exact Ht | reflexivity]);
      try (intros [= Hh]; congruence).
    intros _. split; [reflexivity|]. exists text, [].
    split; [exact Ht | symmetry; apply app_nil_r].
Qed.

Lemma lookup_of_validated_question_witness :
  exists r,
    get_explanation Ex.db Ex.alice 7 0 LD = (explained_json r, Ex.db)
    /\ Explained.explanationType r = "detailed"%string.
Proof.
  destruct (lookup_of_validated_question Ex.db Ex.alice 7%nat 0 LD Ex.quiz7
              (Ex.stored_question LB) 0%nat (Ex.model_question LB))
    as (r & Hrun & _ & Hdetailed & _).
  - reflexivity.
  - reflexivity.
  - reflexivity.
  - vm_compute. reflexivity.
  - eexists. reflexivity.
  - eexists. reflexivity.
  - exists r. split; [exact Hrun|]. apply Hdetailed. vm_compute. discriminate.
Defined.

(** ** What a successful generation stores *)

(** X22.  Whenever generation succeeds, exactly one quiz was appended to
    the quiz collection, and every question of it came from an object
    of the model's array.  Where the model's [explanations] are an
    object, the stored question differs from the model's in the entries
    of the four labels only: the entry of the correct label is the
    empty string and every other label has a text that is not empty,
    the model's own when that was more than white space and otherwise
    the sentence "This option is incorrect. The correct answer is X.
    Please review the lecture material for more details." with the
    correct label for X.  Where they are a string, a number or a
    boolean, the question is stored as it came, without an explanation
    at any label. *)
Theorem explanations_after_generation db s lectureId now ai created r db' :
  generate_quiz db s lectureId now ai created = (generated_json r, db') ->
  exists generatedQuiz quiz,
    ai = api_response (parsed_array generatedQuiz)
    /\ quizCollection db' = quizCollection db ++ [quiz]
    /\ Quiz._id quiz = Generated.quizId r
    /\ Quiz.lectureId quiz = lectureId
    /\ Forall2
         (fun el q' =>
            exists q,
              el = object_element q
              /\ (explanations_object q ->
                  explanations_filled q q' /\ explanations_complete q')
              /\ (forall e, Question.explanations q = Some e ->
                            ~ container e ->
                            q' = q /\ ~ explanations_complete q'))
         generatedQuiz (Quiz.questions quiz).
Proof.
  intros Hrun.
  destruct (generate_quiz_inv _ _ _ _ _ _ _ _ Hrun)
    as (els & quiz & -> & Hqs & Hid & Hlid & _ & _ & _ & Hval).
  exists els, quiz. repeat split; try assumption.
  eapply Forall2_impl; [exact Hval|].
  intros el q' (i & q & -> & Hq). exists q. split; [reflexivity|]. split.
  - apply (validate_question_object _ _ _ Hq).
  - intros e He Hp. apply (validate_question_primitive _ _ _ e Hq He Hp).
Qed.

Lemma explanations_after_generation_witness :
  exists quiz,
    quizCollection (snd Ex.generation) = quizCollection Ex.db ++ [quiz]
    /\ Forall explanations_complete (Quiz.questions quiz).
Proof.
  destruct (explanations_after_generation Ex.db Ex.prof 5%nat 20
              (api_response (parsed_array [object_element (Ex.model_question LB)]))
              (inserted 8) Ex.generation_report (snd Ex.generation))
    as (raw & quiz & Hai & Hq & _ & _ & Hall).
  - vm_compute. reflexivity.
  - exists quiz. split; [exact Hq|].
    injection Hai as <-.
    assert (Hobjs : Forall (fun el => forall q, el = object_element q ->
                                                explanations_object q)
                           [object_element (Ex.model_question LB)]).
    { constructor; [|constructor]. intros q [= <-]. eexists. reflexivity. }
    clear -Hall Hobjs.
    induction Hall as [|el q' els qs' (q & -> & Hobj & _) _ IH]; constructor.
    + apply Forall_cons in Hobjs as [H1 _]. apply Hobj, H1. reflexivity.
    + apply IH. apply Forall_cons in Hobjs as [_ H2]. exact H2.
Defined.

(** ** Uploaded files *)

Lemma allowed_cases m :
  m ∈ allowedMimes ->
  m = lit "application/pdf"
  \/ m = lit "application/vnd.ms-powerpoint"
  \/ m = lit "application/vnd.openxmlformats-officedocument.presentationml.presentation"
  \/ m = lit "application/msword"
  \/ m = lit "application/vnd.openxmlformats-officedocument.wordprocessingml.document".
Proof.
  unfold allowedMimes. intros Hm.
  repeat (apply elem_of_cons in Hm as [->|Hm]; [tauto|]).
  inversion Hm.
Qed.

(** X18.  The three tables of the upload path agree.  A file is accepted by
    [fileFilter] exactly when [extractTextFromFile] has an extractor for
    its type (so an accepted file never hits "Unsupported file type"),
    and every accepted type has a file type other than "unknown": "pdf"
    for PDF, "docx" for both Word types and "pptx" for both PowerPoint
    types, matching the extractor chosen. *)
Theorem accepted_files_have_an_extractor mimetype :
  (fileFilter mimetype = true <-> is_Some (extractor_of mimetype))
  /\ (fileFilter mimetype = true ->
      getFileType mimetype <> lit "unknown"
      /\ (extractor_of mimetype = Some PDF <-> getFileType mimetype = lit "pdf")
      /\ (extractor_of mimetype = Some Word <-> getFileType mimetype = lit "docx")
      /\ (extractor_of mimetype = Some PowerPoint
          <-> getFileType mimetype = lit "pptx")).
Proof.
  split; [split|].
  - intros Hm%bool_decide_eq_true_1.
    destruct (allowed_cases _ Hm) as [->|[->|[->|[->| ->]]]];
      vm_compute; eauto.
  - intros [x Hx]. apply bool_decide_eq_true_2. unfold extractor_of in Hx.
    repeat case_bool_decide; try discriminate; subst mimetype; compute_done.
  - intros Hm%bool_decide_eq_true_1.
    destruct (allowed_cases _ Hm) as [->|[->|[->|[->| ->]]]];
      vm_compute; repeat split; intros; congruence.
Qed.

Lemma str_of_nat_nonempty n : (1 <= length (str_of_nat n))%nat.
Proof.
  unfold str_of_nat, lit.
  assert (Hnn : Nat.to_uint n <> Decimal.Nil).
  { rewrite <- (DecimalNat.Unsigned.of_to n) at 1.
    rewrite DecimalNat.Unsigned.to_of. apply DecimalFacts.unorm_nonnil. }
  destruct (Nat.to_uint n); [contradiction|..]; simpl; lia.
Qed.

Lemma add_content_length acc c :
  (length acc <= length (add_content acc c))%nat.
Proof.
  unfold add_content. destruct (truthy _); [|lia].
  rewrite length_app. lia.
Qed.

Lemma fold_add_content_length cs acc :
  (length acc <= length (fold_left add_content cs acc))%nat.
Proof.
  revert acc. induction cs as [|c cs IH]; intros acc; simpl; [lia|].
  etransitivity; [apply add_content_length | apply IH].
Qed.

Lemma add_slide_length acc index slide :
  (length acc + 17 <= length (add_slide acc index slide))%nat.
Proof.
  unfold add_slide.
  assert (Hh : (length acc + 17
                <= length (acc ++ [10%N] ++ lit "--- Slide "
                           ++ str_of_nat (index + 1) ++ lit " ---" ++ [10%N]))%nat).
  { rewrite !length_app. pose proof (str_of_nat_nonempty (index + 1)).
    change (length [10%N]) with 1%nat.
    change (length (lit "--- Slide ")) with 10%nat.
    change (length (lit " ---")) with 4%nat. lia. }
  destruct (Slide.content slide) as [cs|]; [|exact Hh].
  etransitivity; [exact Hh | apply fold_add_content_length].
Qed.

Lemma add_slides_length slides acc index :
  (length acc + 17 * length slides
   <= length (add_slides acc index slides))%nat.
Proof.
  revert acc index. induction slides as [|slide r IH]; intros acc index; simpl.
  - lia.
  - pose proof (add_slide_length acc index slide).
    pose proof (IH (add_slide acc index slide) (S index)). lia.
Qed.

(** X19.  What generation makes of a PowerPoint upload.  The extracted text
    is never empty.  When the conversion throws, the placeholder that
    stands in for the text is long enough to pass the 50-character
    check of quiz generation; when it finds no slides, the placeholder
    is too short and generation refuses it.  A deck of three slides or
    more always passes the check, even if no slide has any text: each
    slide contributes a heading of at least 17 characters. *)
Theorem powerpoint_text_and_the_length_check o :
  extractTextFromPowerPoint o <> []
  /\ (o = toJson_throws ->
      too_short (Some (extractTextFromPowerPoint o)) = false)
  /\ (o = toJson_returns None \/ o = toJson_returns (Some []) ->
      too_short (Some (extractTextFromPowerPoint o)) = true)
  /\ (forall slides,
         o = toJson_returns (Some slides) ->
         (17 * length slides <= length (extractTextFromPowerPoint o))%nat
         /\ ((3 <= length slides)%nat ->
             too_short (Some (extractTextFromPowerPoint o)) = false)).
Proof.
  split; [|split; [|split]].
  - destruct o as [|[l|]]; simpl; try discriminate.
    destruct (add_slides [] 0 l) eqn:Ht; simpl; [discriminate|].
    discriminate.
  - intros ->. vm_compute. reflexivity.
  - intros [-> | ->]; vm_compute; reflexivity.
  - intros slides ->. simpl.
    pose proof (add_slides_length slides [] 0%nat) as Hlen. simpl in Hlen.
    destruct (add_slides [] 0 slides) as [|c t] eqn:Ht.
    + simpl in *. split; [lia|]. intros H3. lia.
    + cbn [is_empty]. split; [lia|]. intros H3. unfold too_short. simpl.
      apply Z.ltb_ge. simpl in Hlen. lia.
Qed.

Lemma powerpoint_text_and_the_length_check_witness :
  too_short
    (Some (extractTextFromPowerPoint
             (toJson_returns
                (Some [ {| Slide.content := None |};
                        {| Slide.content := Some [] |};
                        {| Slide.content :=
                             Some [ {| SlideContent.text := None |} ] |} ]))))
  = false.
Proof.
  apply (proj2 (proj2 (proj2 (powerpoint_text_and_the_length_check _))) _ eq_refl).
  simpl. lia.
Defined.

(** ** Scores on the pages *)

(** *** Comparisons of doubles *)

Lemma SFcompare_antisym x y :
  SFcompare y x = option_map CompOpp (SFcompare x y).
Proof.
  destruct x as [sx|sx| |sx mx ex], y as [sy|sy| |sy my ey]; simpl;
    repeat match goal with b : bool |- _ => destruct b end;
    simpl; try reflexivity.
  all: rewrite (Z.compare_antisym ey ex).
  all: destruct (ey ?= ex); simpl; try reflexivity.
  all: change (PosDef.Pos.compare_cont Eq) with Pos.compare;
    rewrite (Pos.compare_antisym mx my);
    destruct (mx ?= my)%positive; reflexivity.
Qed.

Lemma not_nan_spec x : PrimFloat.is_nan x = false -> Prim2SF x <> S754_nan.
Proof.
  unfold PrimFloat.is_nan. rewrite FloatAxioms.eqb_spec. intros Hx Hnan.
  rewrite Hnan in Hx. discriminate.
Qed.

Lemma SFcompare_not_nan X C :
  X <> S754_nan -> C <> S754_nan -> exists c, SFcompare X C = Some c.
Proof.
  intros HX HC. destruct X, C; try contradiction; simpl; eexists; reflexivity.
Qed.

(** [x < c] is the negation of [c <= x] unless one of them is NaN. *)
Lemma ltb_negb_leb x c :
  PrimFloat.is_nan x = false -> PrimFloat.is_nan c = false ->
  (x <? c)%float = negb (c <=? x)%float.
Proof.
  intros Hx%not_nan_spec Hc%not_nan_spec.
  rewrite FloatAxioms.ltb_spec, FloatAxioms.leb_spec. unfold SFltb, SFleb.
  rewrite (SFcompare_antisym (Prim2SF x) (Prim2SF c)).
  destruct (SFcompare_not_nan _ _ Hx Hc) as [cmp ->].
  destruct cmp; reflexivity.
Qed.

(** Below a smaller positive constant is below a larger one. *)
Lemma SFltb_below PX ma ea mb eb :
  SFcompare (S754_finite false ma ea) (S754_finite false mb eb) = Some Lt ->
  SFltb PX (S754_finite false ma ea) = true ->
  SFltb PX (S754_finite false mb eb) = true.
Proof.
  unfold SFltb. simpl. intros Hab.
  destruct PX as [s|s| |s m e]; simpl; try (intros; assumption).
  destruct s; [reflexivity|].
  change (Pos.compare_cont Eq) with Pos.compare in *.
  destruct (Z.compare_spec ea eb) as [Heq|Hlt|Hgt]; try discriminate.
  - subst eb. destruct (Z.compare_spec e ea); try discriminate; [|reflexivity].
    destruct (Pos.compare_spec ma mb); try discriminate.
    destruct (Pos.compare_spec m ma); try discriminate.
    intros _. destruct (Pos.compare_spec m mb); try reflexivity; lia.
  - destruct (Z.compare_spec e ea) as [He|He|He]; try discriminate.
    + subst e. intros _. destruct (Z.compare_spec ea eb); try reflexivity; lia.
    + intros _. destruct (Z.compare_spec e eb); try reflexivity; lia.
Qed.

Lemma ltb_below x a b :
  Prim2SF a = S754_finite false (match Prim2SF a with
                                 | S754_finite _ m _ => m | _ => 1 end)
                          (match Prim2SF a with
                           | S754_finite _ _ e => e | _ => 0 end) ->
  Prim2SF b = S754_finite false (match Prim2SF b with
                                 | S754_finite _ m _ => m | _ => 1 end)
                          (match Prim2SF b with
                           | S754_finite _ _ e => e | _ => 0 end) ->
  (a <? b)%float = true ->
  (x <? a)%float = true -> (x <? b)%float = true.
Proof.
  intros Ha Hb. rewrite !FloatAxioms.ltb_spec, Ha, Hb. unfold SFltb at 1.
  destruct (SFcompare _ _) as [[]|] eqn:Hab; try discriminate.
  intros _. apply SFltb_below, Hab.
Qed.

(** The three thresholds, for a percentage that is not NaN. *)
Lemma thresholds p :
  PrimFloat.is_nan p = false ->
  (p <? 90)%float = negb (90 <=? p)%float
  /\ (p <? 70)%float = negb (70 <=? p)%float
  /\ (p <? 50)%float = negb (50 <=? p)%float
  /\ ((90 <=? p)%float = true -> (70 <=? p)%float = true)
  /\ ((70 <=? p)%float = true -> (50 <=? p)%float = true).
Proof.
  intros Hp.
  assert (H90 := ltb_negb_leb p 90 Hp eq_refl).
  assert (H70 := ltb_negb_leb p 70 Hp eq_refl).
  assert (H50 := ltb_negb_leb p 50 Hp eq_refl).
  assert (H79 := ltb_below p 70 90 eq_refl eq_refl eq_refl).
  assert (H57 := ltb_below p 50 70 eq_refl eq_refl eq_refl).
  repeat split; try assumption.
  - intros Hge. rewrite H90, H70 in H79.
    destruct (70 <=? p)%float; [reflexivity|].
    rewrite Hge in H79. simpl in H79. discriminate H79. reflexivity.
  - intros Hge. rewrite H70, H50 in H57.
    destruct (50 <=? p)%float; [reflexivity|].
    rewrite Hge in H57. simpl in H57. discriminate H57. reflexivity.
Qed.

Lemma one_bucket p :
  PrimFloat.is_nan p = false ->
  (Nat.b2n (90 <=? p)%float
   + Nat.b2n ((70 <=? p)%float && (p <? 90)%float)
   + Nat.b2n ((50 <=? p)%float && (p <? 70)%float)
   + Nat.b2n (p <? 50)%float)%nat = 1%nat.
Proof.
  intros Hp. destruct (thresholds p Hp) as (-> & -> & -> & H97 & H75).
  destruct (90 <=? p)%float.
  - rewrite H97, H75 by (reflexivity || apply H97; reflexivity). reflexivity.
  - destruct (70 <=? p)%float.
    + rewrite H75 by reflexivity. reflexivity.
    + destruct (50 <=? p)%float; reflexivity.
Qed.

Lemma filter_length_cons {X} (f : X -> bool) x l :
  length (List.filter f (x :: l))
  = (Nat.b2n (f x) + length (List.filter f l))%nat.
Proof. simpl. destruct (f x); reflexivity. Qed.

(** X21.  The dashboard's four buckets add up.  Over results none of whose
    percentages is NaN, every result falls in exactly one of excellent,
    good, average and needs-improvement, so the four counts sum to the
    number of results; and the bucket a result is counted in is the
    class [getScoreClass] gives its percentage, with "poor" for the
    last.  A NaN percentage is counted in no bucket, although
    [getScoreClass] calls it "poor". *)
Theorem performance_buckets_partition studentResults :
  (Forall (fun r => PrimFloat.is_nan (QuizResult.percentage r) = false)
          studentResults ->
   let b := performanceBreakdown studentResults in
   (Breakdown.excellent b + Breakdown.good b + Breakdown.average b
    + Breakdown.needsImprovement b)%nat = length studentResults)
  /\ (forall p,
         PrimFloat.is_nan p = false ->
         (getScoreClass p = "excellent"%string <-> (90 <=? p)%float = true)
         /\ (getScoreClass p = "good"%string
             <-> (70 <=? p)%float && (p <? 90)%float = true)
         /\ (getScoreClass p = "average"%string
             <-> (50 <=? p)%float && (p <? 70)%float = true)
         /\ (getScoreClass p = "poor"%string <-> (p <? 50)%float = true))
  /\ (forall p,
         PrimFloat.is_nan p = true ->
         getScoreClass p = "poor"%string
         /\ (90 <=? p)%float = false /\ (70 <=? p)%float = false
         /\ (50 <=? p)%float = false /\ (p <? 50)%float = false).
Proof.
  split; [|split].
  - intros Hall. unfold performanceBreakdown.
    cbn [Breakdown.excellent Breakdown.good Breakdown.average
         Breakdown.needsImprovement].
    induction Hall as [|r rs Hr _ IH]; [reflexivity|].
    rewrite !filter_length_cons. pose proof (one_bucket _ Hr). simpl length.
    lia.
  - intros p Hp. destruct (thresholds p Hp) as (-> & -> & -> & H97 & H75).
    unfold getScoreClass.
    destruct (90 <=? p)%float eqn:H9.
    + rewrite H97, H75 by (reflexivity || apply H97; reflexivity).
      simpl. repeat split; intros; (reflexivity || discriminate).
    + destruct (70 <=? p)%float eqn:H7.
      * rewrite H75 by reflexivity.
        simpl. repeat split; intros; (reflexivity || discriminate).
      * destruct (50 <=? p)%float;
          simpl; repeat split; intros; (reflexivity || discriminate).
  - intros p Hp. unfold PrimFloat.is_nan in Hp.
    rewrite FloatAxioms.eqb_spec in Hp.
    apply negb_true_iff in Hp.
    assert (Hnan : Prim2SF p = S754_nan).
    { unfold SFeqb in Hp. destruct (Prim2SF p) as [s|s| |s m e];
        try reflexivity; simpl in Hp; try discriminate;
        destruct s; try discriminate;
        rewrite Z.compare_refl in Hp;
        change (PosDef.Pos.compare_cont Eq) with Pos.compare in Hp;
        rewrite Pos.compare_refl in Hp; discriminate. }
    unfold getScoreClass.
    rewrite !FloatAxioms.leb_spec, !FloatAxioms.ltb_spec, Hnan.
    repeat split.
Qed.
